(** * Gemini chatbot: conversation store, turn compiler and chat protocol

    A shallow embedding of the state container ([state.ts]), of the
    application handlers ([app.ts]) and of the second state container that
    lives under [ts/] together with its storage service, followed by the
    properties of the conversation engine.

    Conventions of the embedding:
    - an optional property ([meta?], [mimeType?]) is an [option]; [None]
      stands for a key that is absent or [undefined];
    - JavaScript truthiness is written out: a string is truthy when it is
      not empty, an optional boolean when it is present and [true];
    - string template ids ([`user-${Date.now()}`]) are built from the clock
      reading printed in decimal;
    - an [async] handler is cut at its [await]: the part that runs
      synchronously, and the part that runs when the request settles. *)

From Stdlib Require Import List String Ascii ZArith Bool Lia DecimalString.
Import ListNotations.

Local Open Scope string_scope.
Local Open Scope list_scope.

(* ================================================================== *)
(** * JavaScript helpers *)

Definition truthyString (s : string) : bool := negb (String.eqb s "").

Definition truthyOptString (o : option string) : bool :=
  match o with
  | Some s => truthyString s
  | None => false
  end.

Definition truthyOptBool (o : option bool) : bool :=
  match o with
  | Some b => b
  | None => false
  end.

(** [s.split(sep)] for a one-character separator. *)
Fixpoint split (sep : ascii) (s : string) : list string :=
  match s with
  | EmptyString => [EmptyString]
  | String c rest =>
      if Ascii.eqb c sep then EmptyString :: split sep rest
      else match split sep rest with
           | [] => [String c EmptyString]
           | h :: t => String c h :: t
           end
  end.

(** [xs.join(sep)]. *)
Fixpoint join (sep : string) (xs : list string) : string :=
  match xs with
  | [] => ""
  | [x] => x
  | x :: rest => (x ++ sep ++ join sep rest)%string
  end.

(** [`${n}`] for an integer. *)
Definition showZ (n : Z) : string := NilZero.string_of_int (Z.to_int n).

Definition comma : ascii := ","%char.

(* ================================================================== *)
(** * Data model of [state.ts] *)

Inductive PartType := text | image.

Record UserMessageContentPart := {
  type : PartType;
  data : string;
  mimeType : option string
}.

Inductive Role := user | model | system.

Record MessageMeta := {
  isLoading : option bool;
  error : option string;
  edited : option bool;
  regenerated : option bool;
  originalMessageId : option string
}.

Record ChatMessage := {
  id : string;
  role : Role;
  content : list UserMessageContentPart;
  timestamp : Z;
  meta : option MessageMeta
}.

Definition Role_eqb (a b : Role) : bool :=
  match a, b with
  | user, user | model, model | system, system => true
  | _, _ => false
  end.

(** [msg.meta?.isLoading] and [msg.meta?.error], read as conditions. *)
Definition metaIsLoading (msg : ChatMessage) : bool :=
  match meta msg with
  | Some m => truthyOptBool (isLoading m)
  | None => false
  end.

Definition metaError (msg : ChatMessage) : bool :=
  match meta msg with
  | Some m => truthyOptString (error m)
  | None => false
  end.

(** The status of a message, as the code tells it apart: a reply that is
    awaited carries [meta.isLoading], a failed one a non-empty
    [meta.error]. *)
Inductive Status := final | pending | failed.

Definition status (msg : ChatMessage) : Status :=
  if metaIsLoading msg then pending
  else if metaError msg then failed
  else final.

(* ================================================================== *)
(** * The request format and the turn compiler ([App.buildGeminiHistory]) *)

Inductive GeminiRole := roleUser | roleModel.

Definition GeminiRole_eqb (a b : GeminiRole) : bool :=
  match a, b with
  | roleUser, roleUser | roleModel, roleModel => true
  | _, _ => false
  end.

(** One part of a turn: [{ text }] or [{ inlineData: { mimeType, data } }].
    The send path builds inline parts without checking that the two strings
    are defined, hence the options. *)
Inductive GeminiPart :=
| textPart (t : string)
| inlineData (mime : option string) (payload : option string).

Record GeminiRequestContent := {
  turnRole : GeminiRole;
  parts : list GeminiPart
}.

(** [msg.role as 'user' | 'model']: defined once [system] is ruled out. *)
Definition asGeminiRole (r : Role) : option GeminiRole :=
  match r with
  | user => Some roleUser
  | model => Some roleModel
  | system => None
  end.

(** The body of [msg.content.forEach(part => ...)]: what one content part
    pushes onto [currentParts]. *)
Definition historyPart (part : UserMessageContentPart) : list GeminiPart :=
  match type part with
  | text => [textPart (data part)]
  | image =>
      if truthyOptString (mimeType part) && truthyString (data part) then
        match nth_error (split comma (data part)) 1 with
        | Some base64Data =>
            if truthyString base64Data
            then [inlineData (mimeType part) (Some base64Data)]
            else []
        | None => []
        end
      else []
  end.

Definition historyParts (msg : ChatMessage) : list GeminiPart :=
  flat_map historyPart (content msg).

(** The three mutable locals of [buildGeminiHistory]. *)
Record Builder := {
  history : list GeminiRequestContent;
  currentRole : option GeminiRole;
  currentParts : list GeminiPart
}.

Definition emptyBuilder : Builder :=
  {| history := []; currentRole := None; currentParts := [] |}.

(** The first line of the loop body: [system], loading and failed messages
    return at once. *)
Definition skipped (msg : ChatMessage) : bool :=
  Role_eqb (role msg) system || metaIsLoading msg || metaError msg.

(** One iteration of [messages.forEach(msg => ...)]. *)
Definition visit (b : Builder) (msg : ChatMessage) : Builder :=
  if skipped msg then b
  else
    match asGeminiRole (role msg) with
    | None => b
    | Some geminiRole =>
        let flushed :=
          match currentRole b with
          | Some r =>
              if negb (GeminiRole_eqb r geminiRole)
              then {| history := history b ++ [{| turnRole := r; parts := currentParts b |}];
                      currentRole := currentRole b;
                      currentParts := [] |}
              else b
          | None => b
          end in
        {| history := history flushed;
           currentRole := Some geminiRole;
           currentParts := currentParts flushed ++ historyParts msg |}
    end.

(** The closing [if (currentRole && currentParts.length > 0)]. *)
Definition finish (b : Builder) : list GeminiRequestContent :=
  match currentRole b, currentParts b with
  | Some r, _ :: _ => history b ++ [{| turnRole := r; parts := currentParts b |}]
  | _, _ => history b
  end.

Definition buildGeminiHistory (messages : list ChatMessage) : list GeminiRequestContent :=
  finish (fold_left visit messages emptyBuilder).

(* ================================================================== *)
(** * What lies outside the store: console, clock, page, [localStorage] *)

Inductive LogLevel := levelError | levelWarn | levelInfo | levelLog | levelDebug.

Record LogEntry := {
  level : LogLevel;
  message : string;
  detail : option string
}.

(** [Date.now()] as an oracle: the [n]-th reading of the clock, and the
    date of an instant as the locale prints it. *)
Record Clock := {
  reads : nat;
  timeAt : nat -> Z;
  toLocaleDateString : Z -> string
}.

(** A value that [localStorage] holds under a key: text that [JSON.parse]
    turns into a value, or text on which it throws. *)
Inductive Item (A : Type) :=
| parsesTo (a : A)
| malformed.
Arguments parsesTo {A} a.
Arguments malformed {A}.

(** What [JSON.stringify] followed by [localStorage.setItem] does with a
    value: it is stored, or a quota error or some other error is thrown. *)
Inductive SetItem := stored | quotaExceeded | otherFailure.

(** The two keys of the application in [localStorage]. *)
Record LocalStorage (S C : Type) := {
  stateItem : option (Item S);
  archivedChatsItem : option (Item (list C));
  setState : S -> SetItem;
  setArchivedChats : list C -> SetItem
}.
Arguments stateItem {S C} _.
Arguments archivedChatsItem {S C} _.
Arguments setState {S C} _.
Arguments setArchivedChats {S C} _.

(** The page as the components left it: the markup of each mounted
    element. *)
Definition Document := list string.

Record Env (S C : Type) := {
  document : Document;
  localStorage : LocalStorage S C;
  console : list LogEntry;
  clock : Clock
}.
Arguments document {S C} _.
Arguments localStorage {S C} _.
Arguments console {S C} _.
Arguments clock {S C} _.

(** How a callback ends. *)
Inductive Outcome :=
| returned
| threw (err : string).

Section Outside.
Context {S C : Type}.

Definition withConsole (c : list LogEntry) (e : Env S C) : Env S C :=
  {| document := document e; localStorage := localStorage e;
     console := c; clock := clock e |}.

Definition withLocalStorage (ls : LocalStorage S C) (e : Env S C) : Env S C :=
  {| document := document e; localStorage := ls;
     console := console e; clock := clock e |}.

Definition withClock (c : Clock) (e : Env S C) : Env S C :=
  {| document := document e; localStorage := localStorage e;
     console := console e; clock := c |}.

Definition consoleLog (l : LogLevel) (msg : string) (d : option string)
    (e : Env S C) : Env S C :=
  withConsole (console e ++ [{| level := l; message := msg; detail := d |}]) e.

(** [Date.now()]. *)
Definition dateNow (e : Env S C) : Z * Env S C :=
  let c := clock e in
  (timeAt c (reads c),
   withClock {| reads := Datatypes.S (reads c); timeAt := timeAt c;
                toLocaleDateString := toLocaleDateString c |} e).

(* ---------------------------------------------------------------- *)
(** ** [StorageService] ([ts/services/StorageService.ts]) *)

Definition withStateItem (i : option (Item S)) (ls : LocalStorage S C) : LocalStorage S C :=
  {| stateItem := i; archivedChatsItem := archivedChatsItem ls;
     setState := setState ls; setArchivedChats := setArchivedChats ls |}.

Definition withArchivedChatsItem (i : option (Item (list C)))
    (ls : LocalStorage S C) : LocalStorage S C :=
  {| stateItem := stateItem ls; archivedChatsItem := i;
     setState := setState ls; setArchivedChats := setArchivedChats ls |}.

Definition loadState (e : Env S C) : option S * Env S C :=
  match stateItem (localStorage e) with
  | None =>
      (None, consoleLog levelInfo "[StorageService] No saved state found in localStorage." None e)
  | Some (parsesTo storedState) =>
      (Some storedState,
       consoleLog levelInfo "[StorageService] State loaded successfully from localStorage." None e)
  | Some malformed =>
      (None,
       consoleLog levelError "[StorageService] Failed to load state from localStorage:"
         (Some "SyntaxError") e)
  end.

Definition saveState (st : S) (e : Env S C) : bool * Env S C :=
  match setState (localStorage e) st with
  | stored =>
      (true,
       consoleLog levelInfo "[StorageService] State saved successfully to localStorage." None
         (withLocalStorage (withStateItem (Some (parsesTo st)) (localStorage e)) e))
  | quotaExceeded =>
      (false,
       consoleLog levelError "[StorageService] LocalStorage quota exceeded." None
         (consoleLog levelError "[StorageService] Failed to save state to localStorage:"
            (Some "QuotaExceededError") e))
  | otherFailure =>
      (false,
       consoleLog levelError "[StorageService] Failed to save state to localStorage:"
         (Some "Error") e)
  end.

Definition loadArchivedChats (e : Env S C) : list C * Env S C :=
  match archivedChatsItem (localStorage e) with
  | None =>
      ([], consoleLog levelInfo "[StorageService] No archived chats found in localStorage." None e)
  | Some (parsesTo archivedChats) =>
      (archivedChats,
       consoleLog levelInfo
         "[StorageService] Archived chats loaded successfully from localStorage." None e)
  | Some malformed =>
      ([],
       consoleLog levelError
         "[StorageService] Failed to load archived chats from localStorage:"
         (Some "SyntaxError") e)
  end.

Definition saveArchivedChats (chats : list C) (e : Env S C) : bool * Env S C :=
  match setArchivedChats (localStorage e) chats with
  | stored =>
      (true,
       consoleLog levelInfo
         "[StorageService] Archived chats saved successfully to localStorage." None
         (withLocalStorage (withArchivedChatsItem (Some (parsesTo chats)) (localStorage e)) e))
  | quotaExceeded =>
      (false,
       consoleLog levelError
         "[StorageService] LocalStorage quota exceeded when saving archived chats." None
         (consoleLog levelError
            "[StorageService] Failed to save archived chats to localStorage:"
            (Some "QuotaExceededError") e))
  | otherFailure =>
      (false,
       consoleLog levelError
         "[StorageService] Failed to save archived chats to localStorage:"
         (Some "Error") e)
  end.

(** Modelled from the spec: [archiveChat] of the storage service that
    [app.ts] imports from [./services], which is not among the sources.
    The spec has the prior conversation "pushed into an archive list, a
    separate ordered collection of past Conversations", through the
    persistence contract [loadArchive() -> ordered list] and
    [saveArchive(list) -> success | failure]: the stored list is loaded,
    the chat is put at its end, and the list is saved. *)
Definition archiveChat (chat : C) (e : Env S C) : bool * Env S C :=
  let (archivedChats, e1) := loadArchivedChats e in
  saveArchivedChats (archivedChats ++ [chat]) e1.

(** The archive collection as a reader finds it, without the logging. *)
Definition archiveCollection (e : Env S C) : list C :=
  match archivedChatsItem (localStorage e) with
  | Some (parsesTo archivedChats) => archivedChats
  | _ => []
  end.
End Outside.

(* ================================================================== *)
(** * The application state of [state.ts] *)

(** A [() => void] closure, known by its identity only. *)
Inductive Callback := closure (tag : nat).

(** The [confirmModalAction] property: [null], a function, or no such
    property at all (what is left of a function after a JSON round trip). *)
Inductive ActionSlot :=
| actionNull
| actionFunction (f : Callback)
| actionAbsent.

Record AppStateData := {
  apiKey : option string;
  selectedModel : string;
  customInstructions : string;
  currentConversation : list ChatMessage;
  isSending : bool;
  currentError : option string;
  isSettingsModalOpen : bool;
  isLogsModalOpen : bool;
  isConfirmModalOpen : bool;
  confirmModalAction : ActionSlot;
  confirmModalMessage : string;
  isEditModalOpen : bool;
  editingMessage : option ChatMessage
}.

Definition DEFAULT_MODEL : string := "gemini-1.5-flash-latest".

(** The defaults of the constructor. *)
Definition defaultState : AppStateData :=
  {| apiKey := None;
     selectedModel := DEFAULT_MODEL;
     customInstructions := "";
     currentConversation := [];
     isSending := false;
     currentError := None;
     isSettingsModalOpen := false;
     isLogsModalOpen := false;
     isConfirmModalOpen := false;
     confirmModalAction := actionNull;
     confirmModalMessage := "";
     isEditModalOpen := false;
     editingMessage := None |}.

(** Object spreads [{ ...s, field: v }], one per field that the methods
    assign. *)
Definition withConversation (conversation : list ChatMessage) (s : AppStateData) : AppStateData :=
  {| apiKey := apiKey s;
     selectedModel := selectedModel s;
     customInstructions := customInstructions s;
     currentConversation := conversation;
     isSending := isSending s;
     currentError := currentError s;
     isSettingsModalOpen := isSettingsModalOpen s;
     isLogsModalOpen := isLogsModalOpen s;
     isConfirmModalOpen := isConfirmModalOpen s;
     confirmModalAction := confirmModalAction s;
     confirmModalMessage := confirmModalMessage s;
     isEditModalOpen := isEditModalOpen s;
     editingMessage := editingMessage s |}.

Definition withIsSending (b : bool) (s : AppStateData) : AppStateData :=
  {| apiKey := apiKey s;
     selectedModel := selectedModel s;
     customInstructions := customInstructions s;
     currentConversation := currentConversation s;
     isSending := b;
     currentError := currentError s;
     isSettingsModalOpen := isSettingsModalOpen s;
     isLogsModalOpen := isLogsModalOpen s;
     isConfirmModalOpen := isConfirmModalOpen s;
     confirmModalAction := confirmModalAction s;
     confirmModalMessage := confirmModalMessage s;
     isEditModalOpen := isEditModalOpen s;
     editingMessage := editingMessage s |}.

Definition withError (e : option string) (s : AppStateData) : AppStateData :=
  {| apiKey := apiKey s;
     selectedModel := selectedModel s;
     customInstructions := customInstructions s;
     currentConversation := currentConversation s;
     isSending := isSending s;
     currentError := e;
     isSettingsModalOpen := isSettingsModalOpen s;
     isLogsModalOpen := isLogsModalOpen s;
     isConfirmModalOpen := isConfirmModalOpen s;
     confirmModalAction := confirmModalAction s;
     confirmModalMessage := confirmModalMessage s;
     isEditModalOpen := isEditModalOpen s;
     editingMessage := editingMessage s |}.

Definition withConfirmModal (open : bool) (msg : string) (action : ActionSlot)
    (s : AppStateData) : AppStateData :=
  {| apiKey := apiKey s;
     selectedModel := selectedModel s;
     customInstructions := customInstructions s;
     currentConversation := currentConversation s;
     isSending := isSending s;
     currentError := currentError s;
     isSettingsModalOpen := isSettingsModalOpen s;
     isLogsModalOpen := isLogsModalOpen s;
     isConfirmModalOpen := open;
     confirmModalAction := action;
     confirmModalMessage := msg;
     isEditModalOpen := isEditModalOpen s;
     editingMessage := editingMessage s |}.

Definition withConfirmModalAction (action : ActionSlot) (s : AppStateData) : AppStateData :=
  withConfirmModal (isConfirmModalOpen s) (confirmModalMessage s) action s.

(** [JSON.parse(JSON.stringify(x))] on a property that may hold a function:
    [JSON.stringify] leaves a function-valued property out. Every other
    property of the state is a string, a boolean, an integer, [null], or an
    array or object of these, which the round trip reproduces. *)
Definition jsonRoundTripAction (a : ActionSlot) : ActionSlot :=
  match a with
  | actionFunction _ => actionAbsent
  | actionNull => actionNull
  | actionAbsent => actionAbsent
  end.

(** [getState()]: [JSON.parse(JSON.stringify(this.state))]. *)
Definition getState (st : AppStateData) : AppStateData :=
  withConfirmModalAction (jsonRoundTripAction (confirmModalAction st)) st.

(** [{ ...this.state, ...updates }]: a property that [updates] lacks keeps
    the value it has in [this.state]. *)
Definition spread (current updates : AppStateData) : AppStateData :=
  match confirmModalAction updates with
  | actionAbsent => withConfirmModalAction (confirmModalAction current) updates
  | _ => updates
  end.

(* ------------------------------------------------------------------ *)
(** ** The [AppState] object *)

(** The entry that "save and start new" files away ([app.ts]). *)
Record ChatSettings := {
  archivedModel : string;
  archivedInstructions : string
}.

Record ArchivedChat := {
  archiveId : string;
  archiveTimestamp : Z;
  summary : string;
  conversation : list ChatMessage;
  appStateSnapshot : ChatSettings
}.

Definition AppEnv := Env AppStateData ArchivedChat.

(** A subscriber is handed a snapshot; it reads it, acts on the page, the
    storage and the console, and may throw. The subscribers of this code
    base (the [render] methods of the components and the save of the state)
    do not call back into the store from inside a notification. *)
Definition Subscriber := AppStateData -> AppEnv -> AppEnv * Outcome.

Record AppState := {
  state : AppStateData;
  subscribers : list Subscriber
}.

Record World := {
  appState : AppState;
  env : AppEnv
}.

Definition withState (st : AppStateData) (w : World) : World :=
  {| appState := {| state := st; subscribers := subscribers (appState w) |};
     env := env w |}.

Definition withEnv (e : AppEnv) (w : World) : World :=
  {| appState := appState w; env := e |}.

(** One call made during a notification: who was called, with what. *)
Record Invocation := {
  callee : nat;
  argument : AppStateData;
  outcome : Outcome
}.

(** The loop of [notify]: each subscriber in turn inside [try]/[catch]. *)
Fixpoint callSubscribers (subs : list Subscriber) (position : nat)
    (currentState : AppStateData) (e : AppEnv) : AppEnv * list Invocation :=
  match subs with
  | [] => (e, [])
  | subscriber :: rest =>
      let (e1, out) := subscriber currentState e in
      let e2 :=
        match out with
        | returned => e1
        | threw err => consoleLog levelError "Error in AppState subscriber:" (Some err) e1
        end in
      let (e3, calls) := callSubscribers rest (S position) currentState e2 in
      (e3, {| callee := position; argument := currentState; outcome := out |} :: calls)
  end.

(** [notify()], with the calls it made. *)
Definition notifyTrace (w : World) : World * list Invocation :=
  let currentState := getState (state (appState w)) in
  let (e, calls) := callSubscribers (subscribers (appState w)) 0 currentState (env w) in
  (withEnv e w, calls).

Definition notify (w : World) : World := fst (notifyTrace w).

(** [updateState(updater)]. *)
Definition updateState (updater : AppStateData -> AppStateData) (w : World) : World :=
  let updates := updater (getState (state (appState w))) in
  notify (withState (spread (state (appState w)) updates) w).

(** [subscribe(callback)], up to the unsubscribe function it returns. *)
Definition subscribe (callback : Subscriber) (w : World) : World :=
  {| appState := {| state := state (appState w);
                    subscribers := subscribers (appState w) ++ [callback] |};
     env := env w |}.

(* ------------------------------------------------------------------ *)
(** ** The convenience methods *)

(** [Partial<ChatMessage>]: the properties an update carries. *)
Record MessagePatch := {
  patchId : option string;
  patchRole : option Role;
  patchContent : option (list UserMessageContentPart);
  patchTimestamp : option Z;
  patchMeta : option MessageMeta
}.

(** The second argument of [updateMessage]: an object, or a function of
    the message. *)
Inductive MessageUpdates :=
| fixedUpdates (p : MessagePatch)
| computedUpdates (f : ChatMessage -> MessagePatch).

Definition orElse {A : Type} (o : option A) (d : A) : A :=
  match o with
  | Some a => a
  | None => d
  end.

Definition orKeep {A : Type} (new old : option A) : option A :=
  match new with
  | Some a => Some a
  | None => old
  end.

Definition noMeta : MessageMeta :=
  {| isLoading := None; error := None; edited := None;
     regenerated := None; originalMessageId := None |}.

(** [{ ...a, ...b }] on two optional [meta] objects. *)
Definition spreadMeta (a b : option MessageMeta) : MessageMeta :=
  let a' := orElse a noMeta in
  let b' := orElse b noMeta in
  {| isLoading := orKeep (isLoading b') (isLoading a');
     error := orKeep (error b') (error a');
     edited := orKeep (edited b') (edited a');
     regenerated := orKeep (regenerated b') (regenerated a');
     originalMessageId := orKeep (originalMessageId b') (originalMessageId a') |}.

(** [{ ...msg, ...newUpdates, meta: { ...msg.meta, ...newUpdates.meta } }]. *)
Definition mergeMessage (msg : ChatMessage) (newUpdates : MessagePatch) : ChatMessage :=
  {| id := orElse (patchId newUpdates) (id msg);
     role := orElse (patchRole newUpdates) (role msg);
     content := orElse (patchContent newUpdates) (content msg);
     timestamp := orElse (patchTimestamp newUpdates) (timestamp msg);
     meta := Some (spreadMeta (meta msg) (patchMeta newUpdates)) |}.

Definition resolveUpdates (updates : MessageUpdates) (msg : ChatMessage) : MessagePatch :=
  match updates with
  | fixedUpdates p => p
  | computedUpdates f => f msg
  end.

Definition addMessage (message : ChatMessage) : World -> World :=
  updateState (fun s =>
    withError None (withConversation (currentConversation s ++ [message]) s)).

Definition updateMessage (messageId : string) (updates : MessageUpdates) : World -> World :=
  updateState (fun s =>
    let newConversation :=
      map (fun msg =>
             if String.eqb (id msg) messageId
             then mergeMessage msg (resolveUpdates updates msg)
             else msg)
          (currentConversation s) in
    withConversation newConversation s).

Definition removeMessage (messageId : string) : World -> World :=
  updateState (fun s =>
    withConversation
      (filter (fun msg => negb (String.eqb (id msg) messageId)) (currentConversation s)) s).

Definition clearConversation : World -> World :=
  updateState (fun s => withConversation [] s).

Definition setConversation (conversation : list ChatMessage) : World -> World :=
  updateState (fun s => withConversation conversation s).

Definition setIsSending (b : bool) : World -> World :=
  updateState (fun s => withIsSending b s).

Definition setError (e : option string) : World -> World :=
  updateState (fun s => withError e s).

Definition openConfirmModal (msg : string) (action : Callback) : World -> World :=
  updateState (fun s => withConfirmModal true msg (actionFunction action) s).

Definition closeConfirmModal : World -> World :=
  updateState (fun s => withConfirmModal false "" actionNull s).

(* ================================================================== *)
(** * The handlers of [app.ts] *)

(** Handlers run in the world and may hand back a value. *)
Definition App (A : Type) := World -> A * World.

Definition ret {A : Type} (a : A) : App A := fun w => (a, w).

Definition bind {A B : Type} (c : App A) (k : A -> App B) : App B :=
  fun w => let (a, w') := c w in k a w'.

Declare Scope app_scope.
Delimit Scope app_scope with app.
Notation "x <- c ;; k" := (bind c (fun x => k))
  (at level 61, c at next level, right associativity) : app_scope.
Notation "c ;; k" := (bind c (fun _ => k))
  (at level 61, right associativity) : app_scope.

(** [this.appState.getState()]. *)
Definition readState : App AppStateData :=
  fun w => (getState (state (appState w)), w).

(** A method of the store, called for its effect. *)
Definition call (method : World -> World) : App unit :=
  fun w => (tt, method w).

Definition now : App Z :=
  fun w => let (t, e) := dateNow (env w) in (t, withEnv e w).

Definition today : App string :=
  fun w => let (t, e) := dateNow (env w) in
           (toLocaleDateString (clock e) t, withEnv e w).

Definition log (l : LogLevel) (msg : string) (d : option string) : App unit :=
  fun w => (tt, withEnv (consoleLog l msg d (env w)) w).

Definition onStorage {A : Type} (service : AppEnv -> A * AppEnv) : App A :=
  fun w => let (a, e) := service (env w) in (a, withEnv e w).

Definition textOf (s : string) : UserMessageContentPart :=
  {| type := text; data := s; mimeType := None |}.

(** The part of the request built in place by [handleSendMessage]: no
    check on the mime type nor on the comma of the data URL. *)
Definition requestPart (part : UserMessageContentPart) : GeminiPart :=
  match type part with
  | image => inlineData (mimeType part) (nth_error (split comma (data part)) 1)
  | text => textPart (data part)
  end.

(** The call that is awaited: [generateContent(model, payload, apiKey)]. *)
Record Request := {
  aiThinkingMessageId : string;
  requestModel : string;
  contents : list GeminiRequestContent;
  systemInstruction : option string;
  requestKey : string
}.

(** What the awaited call settles to. Of a response only
    [candidates?.[0]?.content?.parts] is read, and of each part its
    [text]; of an error only its [message]. *)
Inductive Settled :=
| fulfilled (firstCandidateParts : option (list (option string)))
| rejected (errorMessage : option string).

Definition newline : string := String (ascii_of_nat 10) EmptyString.

Definition responseText (firstCandidateParts : option (list (option string))) : string :=
  let joined :=
    match firstCandidateParts with
    | Some ps => join newline (map (fun p => if truthyOptString p then orElse p "" else "") ps)
    | None => ""
    end in
  if truthyString joined then joined else "No response text.".

(** [this.buildGeminiHistory(messages)] as a call on the application
    object: the method touches neither [this] nor anything outside. *)
Definition callBuildGeminiHistory (messages : list ChatMessage)
    : App (list GeminiRequestContent) :=
  ret (buildGeminiHistory messages).

Local Open Scope app_scope.

(** The branch [if (!apiKey) { ... return; }] of [handleSendMessage]. *)
Definition reportMissingKey : App (option Request) :=
  call (setError (Some "API Key not set. Please configure it in Settings.")) ;;
  t1 <- now ;;
  t2 <- now ;;
  call (addMessage
          {| id := ("err-" ++ showZ t1)%string; role := system;
             content := [textOf "Error: API Key not set. Please configure it in Settings."];
             timestamp := t2;
             meta := Some {| isLoading := None; error := Some "API Key not set";
                             edited := None; regenerated := None;
                             originalMessageId := None |} |}) ;;
  ret None.

(** [handleSendMessage], up to the [await]. [None]: the handler returned
    without a request. *)
Definition handleSendMessage (content : list UserMessageContentPart) : App (option Request) :=
  s0 <- readState ;;
  if isSending s0 then ret None
  else
    s1 <- readState ;;
    match apiKey s1 with
    | Some key =>
        if truthyString key then
          t1 <- now ;;
          t2 <- now ;;
          let userMessage :=
            {| id := ("user-" ++ showZ t1)%string; role := user; content := content;
               timestamp := t2; meta := None |} in
          call (addMessage userMessage) ;;
          call (setIsSending true) ;;
          t3 <- now ;;
          let thinkingId := ("ai-thinking-" ++ showZ t3)%string in
          t4 <- now ;;
          call (addMessage
                  {| id := thinkingId; role := model; content := [textOf ""];
                     timestamp := t4;
                     meta := Some {| isLoading := Some true; error := None; edited := None;
                                     regenerated := None; originalMessageId := None |} |}) ;;
          s2 <- readState ;;
          geminiHistory <- callBuildGeminiHistory (removelast (currentConversation s2)) ;;
          let payloadContents :=
            geminiHistory ++ [{| turnRole := roleUser; parts := map requestPart content |}] in
          s3 <- readState ;;
          let instruction := customInstructions s3 in
          s4 <- readState ;;
          ret (Some {| aiThinkingMessageId := thinkingId;
                       requestModel := selectedModel s4;
                       contents := payloadContents;
                       systemInstruction :=
                         if truthyString instruction then Some instruction else None;
                       requestKey := key |})
        else reportMissingKey
    | None => reportMissingKey
    end.

Definition metaPatch (m : MessageMeta) (c : list UserMessageContentPart) : MessageUpdates :=
  fixedUpdates {| patchId := None; patchRole := None; patchContent := Some c;
                  patchTimestamp := None; patchMeta := Some m |}.

(** [handleSendMessage] from the [await] on: the reply or the error is
    written into the placeholder, and [finally] clears [isSending]. *)
Definition handleSendMessageSettled (request : Request) (result : Settled) : App unit :=
  match result with
  | fulfilled firstCandidateParts =>
      let aiResponseText := responseText firstCandidateParts in
      call (updateMessage (aiThinkingMessageId request)
              (metaPatch {| isLoading := Some false; error := None; edited := None;
                            regenerated := None; originalMessageId := None |}
                         [textOf aiResponseText])) ;;
      call (setIsSending false)
  | rejected message =>
      log levelError "Error generating content:" message ;;
      let errorMessage :=
        if truthyOptString message then orElse message ""
        else "Failed to get response from AI." in
      call (updateMessage (aiThinkingMessageId request)
              (metaPatch {| isLoading := Some false; error := Some errorMessage;
                            edited := None; regenerated := None;
                            originalMessageId := None |}
                         [textOf ("Error: " ++ errorMessage)%string])) ;;
      call (setError (Some errorMessage)) ;;
      call (setIsSending false)
  end.

(** [xs.findIndex(p)]; [None] for [-1]. *)
Fixpoint findIndex {A : Type} (p : A -> bool) (xs : list A) : option nat :=
  match xs with
  | [] => None
  | x :: rest => if p x then Some 0 else option_map S (findIndex p rest)
  end.

(** [for (let i = start - 1; i >= 0; i--) if (conversation[i].role === 'user') ...]:
    the index found, or [None] for [-1]. *)
Fixpoint lastUserBefore (conversation : list ChatMessage) (start : nat) : option nat :=
  match start with
  | 0 => None
  | S i =>
      match nth_error conversation i with
      | Some msg => if Role_eqb (role msg) user then Some i else lastUserBefore conversation i
      | None => lastUserBefore conversation i
      end
  end.

Definition handleRegenerateResponse (messageId : string) : App (option Request) :=
  s0 <- readState ;;
  if isSending s0 then ret None
  else
    s1 <- readState ;;
    let conversation := currentConversation s1 in
    match findIndex (fun msg => String.eqb (id msg) messageId) conversation with
    | None =>
        log levelError "Cannot regenerate: Message not found or not an AI message." None ;;
        ret None
    | Some messageIndex =>
        match nth_error conversation messageIndex with
        | None => ret None
        | Some target =>
            if negb (Role_eqb (role target) model) then
              log levelError "Cannot regenerate: Message not found or not an AI message." None ;;
              ret None
            else
              match lastUserBefore conversation messageIndex with
              | None =>
                  log levelError "Cannot regenerate: Could not find preceding user message." None ;;
                  ret None
              | Some lastUserMessageIndex =>
                  match nth_error conversation lastUserMessageIndex with
                  | None => ret None
                  | Some userPromptMessage =>
                      call (setConversation (firstn messageIndex conversation)) ;;
                      handleSendMessage (content userPromptMessage)
                  end
              end
        end
    end.

Definition handleEditMessageRequest (messageId : string)
    (newContent : list UserMessageContentPart) : App (option Request) :=
  s0 <- readState ;;
  if isSending s0 then ret None
  else
    s1 <- readState ;;
    let conversation := currentConversation s1 in
    match findIndex (fun msg => String.eqb (id msg) messageId) conversation with
    | None =>
        log levelError "Cannot edit: Message not found or not a user message." None ;;
        ret None
    | Some messageIndex =>
        match nth_error conversation messageIndex with
        | None => ret None
        | Some target =>
            if negb (Role_eqb (role target) user) then
              log levelError "Cannot edit: Message not found or not a user message." None ;;
              ret None
            else
              t <- now ;;
              let updatedMessage :=
                {| id := id target; role := role target; content := newContent;
                   timestamp := t;
                   meta := Some (spreadMeta (meta target)
                                   (Some {| isLoading := None; error := None;
                                            edited := Some true; regenerated := None;
                                            originalMessageId := None |})) |} in
              let truncatedConversation := firstn messageIndex conversation in
              call (setConversation (truncatedConversation ++ [updatedMessage])) ;;
              handleSendMessage newContent
        end
    end.

(** [firstUserMessage?.content.find(p => p.type === 'text')?.data.substring(0, 50)]. *)
Definition firstUserText (conversation : list ChatMessage) : option string :=
  match find (fun m => Role_eqb (role m) user) conversation with
  | Some firstUserMessage =>
      match find (fun p => match type p with text => true | image => false end)
                 (content firstUserMessage) with
      | Some p => Some (substring 0 50 (data p))
      | None => None
      end
  | None => None
  end.

Definition systemNotice (prefix : string) (t1 t2 : Z) (body : string) : ChatMessage :=
  {| id := (prefix ++ showZ t1)%string; role := system; content := [textOf body];
     timestamp := t2; meta := None |}.

Definition handleNewChatRequest (saveCurrent : bool) : App unit :=
  s0 <- readState ;;
  let currentConversation0 := currentConversation s0 in
  (if saveCurrent && (0 <? List.length currentConversation0)%nat then
     chatSummary <-
       (let found := firstUserText currentConversation0 in
        if truthyOptString found then ret (orElse found "")
        else (d <- today ;; ret ("Chat from " ++ d)%string)) ;;
     t1 <- now ;;
     t2 <- now ;;
     s1 <- readState ;;
     s2 <- readState ;;
     let archivedChat :=
       {| archiveId := ("archive-" ++ showZ t1)%string;
          archiveTimestamp := t2;
          summary := (chatSummary ++ "...")%string;
          conversation := currentConversation0;
          appStateSnapshot :=
            {| archivedModel := selectedModel s1;
               archivedInstructions := customInstructions s2 |} |} in
     onStorage (archiveChat archivedChat) ;;
     log levelInfo "Current chat archived." None
   else ret tt) ;;
  call clearConversation ;;
  t3 <- now ;;
  t4 <- now ;;
  call (addMessage (systemNotice "sys-" t3 t4 "New chat started.")) ;;
  s3 <- readState ;;
  (if negb (truthyOptString (apiKey s3)) then
     t5 <- now ;;
     t6 <- now ;;
     call (addMessage
             (systemNotice "sys-nokey-" t5 t6
                "Remember to set your API key in Settings if you haven't already."))
   else ret tt) ;;
  call closeConfirmModal.

Local Close Scope app_scope.

(** The three gestures gated by [isSending], and a run of them. *)
Inductive Gesture :=
| sendMessage (content : list UserMessageContentPart)
| regenerateResponse (messageId : string)
| editMessageRequest (messageId : string) (newContent : list UserMessageContentPart).

Definition handle (g : Gesture) : App (option Request) :=
  match g with
  | sendMessage content => handleSendMessage content
  | regenerateResponse messageId => handleRegenerateResponse messageId
  | editMessageRequest messageId newContent => handleEditMessageRequest messageId newContent
  end.

Fixpoint handleAll (gestures : list Gesture) (w : World) : World :=
  match gestures with
  | [] => w
  | g :: rest => handleAll rest (snd (handle g w))
  end.

(** A handler that may issue a request, followed by the settling of that
    request. *)
Definition thenSettled (handler : App (option Request)) (result : Settled) : App unit :=
  fun w =>
    let (request, w1) := handler w in
    match request with
    | Some r => handleSendMessageSettled r result w1
    | None => (tt, w1)
    end.

(* ================================================================== *)
(** * The state container under [ts/] ([AppState] with its own storage
      service) *)

Module Ts.

Inductive Role := user | model.

Record MessageData := {
  id : string;
  role : Role;
  text : string;
  imageBase64 : option (option string);
  imageMimeType : option (option string);
  isError : option bool
}.

Record AppStateData := {
  apiKey : string;
  selectedModel : string;
  customInstructions : string;
  conversation : list MessageData
}.

Record ArchivedChat := {
  archiveId : string;
  name : string;
  archiveTimestamp : string;
  archivedModel : string;
  archivedInstructions : string;
  archivedConversation : list MessageData
}.

Definition AppEnv := Env AppStateData ArchivedChat.

(** [Partial<MessageData>]. *)
Record MessagePatch := {
  patchId : option string;
  patchRole : option Role;
  patchText : option string;
  patchImageBase64 : option (option string);
  patchImageMimeType : option (option string);
  patchIsError : option bool
}.

(** Subscribers are handed [this.state] itself, not a copy: what a
    callback writes to its argument is written to the state of the store,
    and stays written when the callback throws afterwards. A callback is
    given the state and what lies outside the store, and leaves both as it
    made them. As for the other store, callbacks do not call back into the
    store. *)
Definition Subscriber := AppStateData -> AppEnv -> AppStateData * AppEnv * Outcome.

(** A callback that only looks at the state it is handed. *)
Definition reading (look : AppStateData -> AppEnv -> AppEnv * Outcome) : Subscriber :=
  fun st e => let (e1, out) := look st e in (st, e1, out).

(** A subscriber that leaves the state it is handed as it is. *)
Definition observes (sub : Subscriber) : Prop :=
  forall st e, fst (fst (sub st e)) = st.

Record AppState := {
  state : AppStateData;
  subscribers : list Subscriber
}.

Record World := {
  appState : AppState;
  env : AppEnv
}.

Definition withState (st : AppStateData) (w : World) : World :=
  {| appState := {| state := st; subscribers := subscribers (appState w) |};
     env := env w |}.

Definition withEnv (e : AppEnv) (w : World) : World :=
  {| appState := appState w; env := e |}.

Definition withConversation (c : list MessageData) (s : AppStateData) : AppStateData :=
  {| apiKey := apiKey s; selectedModel := selectedModel s;
     customInstructions := customInstructions s; conversation := c |}.

Record Invocation := {
  callee : nat;
  argument : AppStateData;
  outcome : Outcome
}.

(** [this.subscribers.forEach(callback => { try { callback(this.state) }
    catch (error) { console.error(...) } })]: each callback is handed the
    state as the callbacks before it left it. *)
Fixpoint callSubscribers (subs : list Subscriber) (position : nat)
    (st : AppStateData) (e : AppEnv) : AppStateData * AppEnv * list Invocation :=
  match subs with
  | [] => (st, e, [])
  | callback :: rest =>
      let '(st1, e1, out) := callback st e in
      let e2 :=
        match out with
        | returned => e1
        | threw err =>
            consoleLog levelError "[AppState] Error in subscriber callback:" (Some err) e1
        end in
      let '(st3, e3, calls) := callSubscribers rest (S position) st1 e2 in
      (st3, e3, {| callee := position; argument := st; outcome := out |} :: calls)
  end.

(** [notify()], with the calls it made: the state is saved as it is
    before the first callback runs. *)
Definition notifyTrace (w : World) : World * list Invocation :=
  let st := state (appState w) in
  let e0 :=
    consoleLog levelDebug "[AppState] Notifying subscribers. Current state:" None (env w) in
  let (_, e1) := saveState st e0 in
  let '(st2, e2, calls) := callSubscribers (subscribers (appState w)) 0 st e1 in
  (withEnv e2 (withState st2 w), calls).

Definition notify (w : World) : World := fst (notifyTrace w).

Definition subscribe (callback : Subscriber) (w : World) : World :=
  {| appState := {| state := state (appState w);
                    subscribers := subscribers (appState w) ++ [callback] |};
     env := consoleLog levelInfo "[AppState] New subscriber added. Total:" None (env w) |}.

Definition addMessage (message : MessageData) (w : World) : World :=
  let st := state (appState w) in
  let w1 := withState (withConversation (conversation st ++ [message]) st) w in
  notify (withEnv (consoleLog levelLog "[AppState] Message added:" None (env w1)) w1).

(** [{ ...msg, ...updatedProperties }]. *)
Definition mergeMessage (msg : MessageData) (updatedProperties : MessagePatch) : MessageData :=
  {| id := orElse (patchId updatedProperties) (id msg);
     role := orElse (patchRole updatedProperties) (role msg);
     text := orElse (patchText updatedProperties) (text msg);
     imageBase64 := orKeep (patchImageBase64 updatedProperties) (imageBase64 msg);
     imageMimeType := orKeep (patchImageMimeType updatedProperties) (imageMimeType msg);
     isError := orKeep (patchIsError updatedProperties) (isError msg) |}.

(** [conversation[index] = v], for an index within the array. *)
Fixpoint assign (conversation : list MessageData) (index : nat) (v : MessageData)
    : list MessageData :=
  match conversation, index with
  | [], _ => []
  | _ :: rest, 0 => v :: rest
  | m :: rest, S i => m :: assign rest i v
  end.

Definition updateMessage (messageId : string) (updatedProperties : MessagePatch)
    (w : World) : World :=
  let st := state (appState w) in
  match findIndex (fun msg => String.eqb (id msg) messageId) (conversation st) with
  | Some messageIndex =>
      match nth_error (conversation st) messageIndex with
      | Some msg =>
          let w1 :=
            withState
              (withConversation
                 (assign (conversation st) messageIndex (mergeMessage msg updatedProperties))
                 st) w in
          notify (withEnv (consoleLog levelLog "[AppState] Message updated:" None (env w1)) w1)
      | None => w
      end
  | None =>
      withEnv
        (consoleLog levelWarn
           "[AppState] Attempted to update non-existent message, ID:" (Some messageId)
           (env w)) w
  end.

Definition clearConversation (w : World) : World :=
  let st := state (appState w) in
  match conversation st with
  | [] => w
  | _ :: _ =>
      let w1 := withState (withConversation [] st) w in
      notify (withEnv (consoleLog levelLog "[AppState] Conversation cleared." None (env w1)) w1)
  end.

Definition withApiKey (k : string) (s : AppStateData) : AppStateData :=
  {| apiKey := k; selectedModel := selectedModel s;
     customInstructions := customInstructions s; conversation := conversation s |}.

Definition withSelectedModel (m : string) (s : AppStateData) : AppStateData :=
  {| apiKey := apiKey s; selectedModel := m;
     customInstructions := customInstructions s; conversation := conversation s |}.

Definition withCustomInstructions (i : string) (s : AppStateData) : AppStateData :=
  {| apiKey := apiKey s; selectedModel := selectedModel s;
     customInstructions := i; conversation := conversation s |}.

Definition logged (l : LogLevel) (msg : string) (w : World) : World :=
  withEnv (consoleLog l msg None (env w)) w.

Definition setApiKey (k : string) (w : World) : World :=
  let st := state (appState w) in
  if negb (String.eqb (apiKey st) k)
  then notify (logged levelLog "[AppState] API Key updated." (withState (withApiKey k st) w))
  else w.

(** [updateSettings]: each of the three settings is assigned when it
    differs, and one notification follows if any did. *)
Definition updateSettings (k m i : string) (w : World) : World :=
  let st0 := state (appState w) in
  let keyChanged := negb (String.eqb (apiKey st0) k) in
  let st1 := if keyChanged then withApiKey k st0 else st0 in
  let modelChanged := negb (String.eqb (selectedModel st1) m) in
  let st2 := if modelChanged then withSelectedModel m st1 else st1 in
  let instructionsChanged := negb (String.eqb (customInstructions st2) i) in
  let st3 := if instructionsChanged then withCustomInstructions i st2 else st2 in
  if keyChanged || modelChanged || instructionsChanged
  then notify (logged levelLog "[AppState] Settings updated:" (withState st3 w))
  else w.

Definition addMessages (messages : list MessageData) (w : World) : World :=
  let st := state (appState w) in
  notify (logged levelLog "[AppState] Multiple messages added:"
            (withState (withConversation (conversation st ++ messages) st) w)).

(** [conversation.splice(-count)] for a positive whole [count]: the last
    [count] messages go, all of them when there are fewer. *)
Definition spliceLast (count : Z) (conv : list MessageData) : list MessageData :=
  firstn (Z.to_nat (Z.max (Z.of_nat (List.length conv) - count) 0)) conv.

Definition removeLastNMessages (count : Z) (w : World) : World :=
  if (count <=? 0)%Z then w
  else
    let st := state (appState w) in
    notify (logged levelLog ("[AppState] Last " ++ showZ count ++ " message(s) removed.")%string
              (withState (withConversation (spliceLast count (conversation st)) st) w)).

Definition replaceConversation (messages : list MessageData) (w : World) : World :=
  let st := state (appState w) in
  notify (logged levelLog "[AppState] Conversation replaced."
            (withState (withConversation messages st) w)).

Definition resetStateToDefaults (preserveApiKey : bool) (w : World) : World :=
  let currentApiKey := apiKey (state (appState w)) in
  notify (logged levelLog "[AppState] State reset to defaults."
            (withState
               {| apiKey := if preserveApiKey then currentApiKey else "";
                  selectedModel := DEFAULT_MODEL;
                  customInstructions := "";
                  conversation := [] |} w)).

(** [StorageService.clearCurrentChatState]: the stored state is loaded,
    its conversation emptied, and the state saved again; the message that
    follows is logged whether or not the save went through. *)
Definition clearCurrentChatState (e : AppEnv) : AppEnv :=
  let (currentState, e1) := loadState e in
  match currentState with
  | Some st =>
      let (_, e2) := saveState (withConversation [] st) e1 in
      consoleLog levelInfo
        "[StorageService] Current chat conversation cleared from localStorage state." None e2
  | None => e1
  end.

End Ts.

(* ================================================================== *)
(** * Objects, and [JSON.parse(JSON.stringify(x))]

    [getState] copies the state with a JSON round trip. To say what the
    copy shares with the original, values are given here as JavaScript has
    them: primitives, functions, and arrays and objects that have an
    identity (an address); writing to an object changes it wherever it is
    referred to. The text that [JSON.stringify] produces is kept as the
    tree it denotes. *)

Module Js.

Definition address := nat.

#[local] Unset Elimination Schemes.

Inductive value :=
| undefined
| null
| boolean (b : bool)
| number (n : Z)
| str (s : string)
| function (f : Callback)
| array (a : address) (items : list value)
| object (a : address) (properties : list (string * value)).

Inductive Json :=
| jNull
| jBool (b : bool)
| jNum (n : Z)
| jStr (s : string)
| jArr (items : list Json)
| jObj (members : list (string * Json)).

#[local] Set Elimination Schemes.

(** [JSON.stringify(v)]; [None] when the result is [undefined]. In an
    array, [undefined] and functions become [null]; in an object, the
    property is left out. *)
Fixpoint stringify (v : value) : option Json :=
  match v with
  | undefined => None
  | function _ => None
  | null => Some jNull
  | boolean b => Some (jBool b)
  | number n => Some (jNum n)
  | str s => Some (jStr s)
  | array _ items =>
      Some (jArr (map (fun x => match stringify x with
                                | Some j => j
                                | None => jNull
                                end) items))
  | object _ properties =>
      Some (jObj (flat_map (fun kv => match kv with
                                      | (k, x) => match stringify x with
                                                  | Some j => [(k, j)]
                                                  | None => []
                                                  end
                                      end) properties))
  end.

Section Thread.
Context {A B : Type}.
Variable f : A -> address -> B * address.

(** A list built from left to right, the next free address handed on. *)
Fixpoint thread (l : list A) (next : address) : list B * address :=
  match l with
  | [] => ([], next)
  | x :: rest =>
      let (y, n1) := f x next in
      let (ys, n2) := thread rest n1 in
      (y :: ys, n2)
  end.
End Thread.







(* ------------------------------------------------------------------ *)
(** ** The state of [state.ts] as an object *)
















End Js.

(* ================================================================== *)
(** * Notions used in the statements and in the proofs *)

(** A message takes part in the history when it is a [final] message of
    the user or of the model. *)
Definition participates (msg : ChatMessage) : bool :=
  negb (Role_eqb (role msg) system)
  && match status msg with
     | final => true
     | pending | failed => false
     end.

(** Every part pushed so far, in order. *)
Definition partsSoFar (b : Builder) : list GeminiPart :=
  flat_map parts (history b) ++ currentParts b.

(** Parts are only ever collected under a role. *)
Definition roleBeforeParts (b : Builder) : Prop :=
  currentRole b = None -> currentParts b = [].

(** No two neighbours of a list of roles are equal. *)
Fixpoint alternating (roles : list GeminiRole) : Prop :=
  match roles with
  | a :: (b :: _) as rest => a <> b /\ alternating rest
  | _ => True
  end.

(** The turns pushed, with the one being collected. *)
Definition rolesSoFar (b : Builder) : list GeminiRole :=
  map turnRole (history b)
  ++ match currentRole b with
     | Some r => [r]
     | None => []
     end.

(** Nothing is pushed before a role is set, and the roles seen so far
    alternate. *)
Definition orderly (b : Builder) : Prop :=
  alternating (rolesSoFar b) /\ (currentRole b = None -> history b = []).

(** A turn is empty only where a participating message brought no part:
    when each of them brings one, no turn of the output is empty. *)
Definition noEmptyTurn (turns : list GeminiRequestContent) : Prop :=
  Forall (fun t => parts t <> []) turns.

Definition collecting (b : Builder) : Prop :=
  noEmptyTurn (history b)
  /\ (forall r, currentRole b = Some r -> currentParts b <> []).

(** An updater that leaves [confirmModalAction] as it finds it. *)
Definition keepsAction (f : AppStateData -> AppStateData) : Prop :=
  forall s a, f (withConfirmModalAction a s) = withConfirmModalAction a (f s).

(** The number of messages of a conversation that carry an id. *)
Definition occurrences (i : string) (conv : list ChatMessage) : nat :=
  List.length (filter (fun msg => String.eqb (id msg) i) conv).

(** [updateMessage] on the conversation alone. *)
Definition mergeInto (messageId : string) (updates : MessageUpdates)
    (conv : list ChatMessage) : list ChatMessage :=
  map (fun msg =>
         if String.eqb (id msg) messageId
         then mergeMessage msg (resolveUpdates updates msg)
         else msg) conv.

(** What a callback leaves behind once [notify] has caught what it threw. *)
Definition afterCall (sub : Subscriber) (snapshot : AppStateData) (e : AppEnv) : AppEnv :=
  match snd (sub snapshot e) with
  | returned => fst (sub snapshot e)
  | threw err =>
      consoleLog levelError "Error in AppState subscriber:" (Some err) (fst (sub snapshot e))
  end.

Definition tsAfterCall (sub : Ts.Subscriber) (st : Ts.AppStateData) (e : Ts.AppEnv)
    : Ts.AppStateData * Ts.AppEnv :=
  match snd (sub st e) with
  | returned => fst (sub st e)
  | threw err =>
      (fst (fst (sub st e)),
       consoleLog levelError "[AppState] Error in subscriber callback:" (Some err)
         (snd (fst (sub st e))))
  end.

(** A subscriber that leaves the archived chats in [localStorage] alone. *)
Definition preservesArchive (sub : Subscriber) : Prop :=
  forall snapshot e,
    archivedChatsItem (localStorage (fst (sub snapshot e)))
    = archivedChatsItem (localStorage e)
    /\ setArchivedChats (localStorage (fst (sub snapshot e)))
       = setArchivedChats (localStorage e).

Definition archiveOf (w : World) : option (Item (list ArchivedChat)) :=
  archivedChatsItem (localStorage (env w)).

(** The two halves of [handleNewChatRequest]: the filing of the current
    chat, and the fresh start. *)
Definition fileCurrentChat (currentConversation0 : list ChatMessage) : App unit :=
  bind
    (let found := firstUserText currentConversation0 in
     if truthyOptString found then ret (orElse found "")
     else bind today (fun d => ret ("Chat from " ++ d)%string))
    (fun chatSummary =>
  bind now (fun t1 =>
  bind now (fun t2 =>
  bind readState (fun s1 =>
  bind readState (fun s2 =>
  bind (onStorage
          (archiveChat
             {| archiveId := ("archive-" ++ showZ t1)%string;
                archiveTimestamp := t2;
                summary := (chatSummary ++ "...")%string;
                conversation := currentConversation0;
                appStateSnapshot :=
                  {| archivedModel := selectedModel s1;
                     archivedInstructions := customInstructions s2 |} |}))
       (fun _ => log levelInfo "Current chat archived." None)))))).

Definition startFresh : App unit :=
  bind (call clearConversation) (fun _ =>
  bind now (fun t3 =>
  bind now (fun t4 =>
  bind (call (addMessage (systemNotice "sys-" t3 t4 "New chat started."))) (fun _ =>
  bind readState (fun s3 =>
  bind (if negb (truthyOptString (apiKey s3)) then
          bind now (fun t5 =>
          bind now (fun t6 =>
          call (addMessage
                  (systemNotice "sys-nokey-" t5 t6
                     "Remember to set your API key in Settings if you haven't already."))))
        else ret tt)
       (fun _ => call closeConfirmModal)))))).








(* ================================================================== *)
(** * Sample conversations *)

Definition say (i : string) (r : Role) (t : string) : ChatMessage :=
  {| id := i; role := r; content := [textOf t]; timestamp := 0; meta := None |}.

Definition loadingMeta : MessageMeta :=
  {| isLoading := Some true; error := None; edited := None;
     regenerated := None; originalMessageId := None |}.

Definition awaited (i : string) : ChatMessage :=
  {| id := i; role := model; content := [textOf ""]; timestamp := 0;
     meta := Some loadingMeta |}.

(** A user message that carries nothing but a picture whose file had no
    known type: the input component sends [file.type], which is then the
    empty string. *)
Definition untypedPicture (i : string) : ChatMessage :=
  {| id := i; role := user;
     content := [{| type := image; data := "data:;base64,AAAA"; mimeType := Some "" |}];
     timestamp := 0; meta := None |}.

Definition wordless (i : string) : ChatMessage :=
  {| id := i; role := user; content := []; timestamp := 0; meta := None |}.

(* ------------------------------------------------------------------ *)
(** ** Sample worlds *)

Definition roomyStorage {S C : Type} : LocalStorage S C :=
  {| stateItem := None; archivedChatsItem := None;
     setState := fun _ => stored; setArchivedChats := fun _ => stored |}.

Definition tickingClock : Clock :=
  {| reads := 0; timeAt := fun n => (1000 + Z.of_nat n)%Z;
     toLocaleDateString := fun _ => "1/1/2025" |}.

Definition blankEnv {S C : Type} : Env S C :=
  {| document := []; localStorage := roomyStorage; console := []; clock := tickingClock |}.

Definition worldOf (st : AppStateData) (subs : list Subscriber) : World :=
  {| appState := {| state := st; subscribers := subs |}; env := blankEnv |}.

(** A subscriber that leaves a mark on the page each time it is called. *)
Definition renders {S C : Type} (mark : string) : S -> Env S C -> Env S C * Outcome :=
  fun _ e =>
    ({| document := document e ++ [mark]; localStorage := localStorage e;
        console := console e; clock := clock e |}, returned).

(** A subscriber that throws. *)
Definition faulty {S C : Type} : S -> Env S C -> Env S C * Outcome :=
  fun _ e => (e, threw "TypeError").

Definition withApiKey (k : option string) (s : AppStateData) : AppStateData :=
  {| apiKey := k;
     selectedModel := selectedModel s;
     customInstructions := customInstructions s;
     currentConversation := currentConversation s;
     isSending := isSending s;
     currentError := currentError s;
     isSettingsModalOpen := isSettingsModalOpen s;
     isLogsModalOpen := isLogsModalOpen s;
     isConfirmModalOpen := isConfirmModalOpen s;
     confirmModalAction := confirmModalAction s;
     confirmModalMessage := confirmModalMessage s;
     isEditModalOpen := isEditModalOpen s;
     editingMessage := editingMessage s |}.



Definition tsSay (i : string) (r : Ts.Role) (t : string) : Ts.MessageData :=
  {| Ts.id := i; Ts.role := r; Ts.text := t; Ts.imageBase64 := None;
     Ts.imageMimeType := None; Ts.isError := None |}.




(** A subscriber that empties the conversation of the state it is handed
    ([state.conversation.length = 0]) and then throws. *)
Definition scribbling : Ts.Subscriber :=
  fun st e => (Ts.withConversation [] st, e, threw "TypeError").

(** A store under [ts/] with a subscriber that writes to its argument,
    between two that only look. *)
Definition tsScribbledWorld : Ts.World :=
  {| Ts.appState :=
       {| Ts.state := {| Ts.apiKey := "key"; Ts.selectedModel := DEFAULT_MODEL;
                         Ts.customInstructions := "";
                         Ts.conversation := [tsSay "m1" Ts.user "hi"] |};
          Ts.subscribers :=
            [Ts.reading (renders "header"); scribbling; Ts.reading (renders "history")] |};
     Ts.env := blankEnv |}.

(** A store in the middle of a request. *)
Definition busyWorld : World :=
  worldOf
    (withIsSending true
       (withApiKey (Some "key")
          (withConversation [say "u1" user "hi"; awaited "ai-thinking-1"] defaultState)))
    [renders "history"].

(** The conversation [user: "hi", model: "hello"] with a key set and no
    request in flight. *)
Definition greetedWorld : World :=
  worldOf
    (withApiKey (Some "key")
       (withConversation [say "u1" user "hi"; say "a1" model "hello"] defaultState))
    [].

Definition settledMeta : MessageMeta :=
  {| isLoading := Some false; error := None; edited := None;
     regenerated := None; originalMessageId := None |}.


(* ================================================================== *)
(** * The rest of the storage service, the API service and the helpers *)

(** [StorageService.clearAllChatData]: both keys are removed
    ([removeItem] does not throw on a missing key). *)
Definition clearAllChatData {S C : Type} (e : Env S C) : Env S C :=
  consoleLog levelInfo
    "[StorageService] All application chat data cleared from localStorage." None
    (withLocalStorage
       (withArchivedChatsItem None (withStateItem None (localStorage e))) e).

(* ------------------------------------------------------------------ *)
(** ** [GeminiAPIService.generateContent] ([ts/services/GeminiAPIService.ts]) *)

Definition entry (l : LogLevel) (msg : string) (d : option string) : LogEntry :=
  {| level := l; message := msg; detail := d |}.

Module Gemini.

(** A number of a response body, as far as the service reads it: whether
    it is zero, and how it prints in a template string. *)
Record Number := {
  isZero : bool;
  printed : string
}.

#[local] Unset Elimination Schemes.

(** A JSON value, as [response.json()] yields it. *)
Inductive Json :=
| jsonNull
| jsonBoolean (b : bool)
| jsonNumber (n : Number)
| jsonString (s : string)
| jsonArray (items : list Json)
| jsonObject (members : list (string * Json)).

#[local] Set Elimination Schemes.

(** What [response.json()] gives: it rejects, or yields a value. *)
Inductive Body :=
| noJson (syntaxError : string)
| parsed (responseData : Json).

(** What [fetch] gives: it rejects (no network), or a response arrives
    with its HTTP status and body. *)
Inductive FetchOutcome :=
| fetchRejected (networkError : string)
| fetchResolved (httpStatus : Z) (body : Body).

(** Truthiness of a value. *)
Definition truthy (x : Json) : bool :=
  match x with
  | jsonNull => false
  | jsonBoolean b => b
  | jsonNumber n => negb (isZero n)
  | jsonString s => truthyString s
  | jsonArray _ => true
  | jsonObject _ => true
  end.

(** Truthiness of what a property read gave ([None] is [undefined]). *)
Definition truthyProperty (o : option Json) : bool :=
  match o with
  | Some x => truthy x
  | None => false
  end.

(** The member of an object that [JSON.parse] built: of members with the
    same name the last one counts. *)
Fixpoint member (name : string) (members : list (string * Json)) : option Json :=
  match members with
  | [] => None
  | (k, v) :: rest =>
      match member name rest with
      | Some later => Some later
      | None => if String.eqb k name then Some v else None
      end
  end.

(** [x.name] for a value [x] other than [null] and one of the names
    [error], [message], [promptFeedback], [blockReason] and [candidates],
    which no prototype has: [undefined] unless [x] is an object with such
    a member. *)
Definition get (name : string) (x : Json) : option Json :=
  match x with
  | jsonObject members => member name members
  | _ => None
  end.

(** [x.length === 0]. *)
Definition hasLengthZero (x : Json) : bool :=
  match x with
  | jsonArray [] => true
  | jsonString s => String.eqb s ""
  | jsonObject members =>
      match member "length" members with
      | Some (jsonNumber n) => isZero n
      | _ => false
      end
  | _ => false
  end.

(** The text of a value in a template string. In the text of an array a
    [null] element is left empty. *)
Fixpoint toText (x : Json) : string :=
  match x with
  | jsonNull => "null"
  | jsonBoolean b => if b then "true" else "false"
  | jsonNumber n => printed n
  | jsonString s => s
  | jsonArray items =>
      join ","
        (map (fun item => match item with
                          | jsonNull => ""
                          | _ => toText item
                          end) items)
  | jsonObject _ => "[object Object]"
  end.

(** [details] of a thrown object: [error.error] of the response, the
    sentence that stands in for it, or the error that was caught. *)
Inductive Details :=
| apiDetails (error : Json)
| noApiDetails
| causedBy (innerMessage : option string) (innerStatus : option Z).

(** A thrown value, as far as [message], [status] and [details] go. *)
Record Thrown := {
  message : option string;
  status : option Z;
  details : option Details
}.

(** What [JSON.stringify(payload)] gives: the text, or what it throws (a
    [TypeError] on a payload with a cycle or a [BigInt] in it, or what a
    [toJSON] method of the payload throws). The call with an indentation,
    made for the log, throws on the same payloads. *)
Inductive Serialized :=
| serialized (bodyText : string)
| unserializable (thrown : Thrown).

Inductive Result :=
| returns (responseData : Json)
| throws (e : Thrown).

Record Completion := {
  result : Result;
  requested : option string;
  logs : list LogEntry
}.

Definition API_BASE_URL : string := "https://generativelanguage.googleapis.com/v1beta/models".
Definition API_GENERATE_CONTENT_METHOD : string := "generateContent".

(** [new Error(text)], and the [TypeError] of a property read on [null]
    (worded as V8 words it). *)
Definition plainError (text : string) : Thrown :=
  {| message := Some text; status := None; details := None |}.

Definition nullRead (name : string) : Thrown :=
  plainError ("Cannot read properties of null (reading '" ++ name ++ "')")%string.

(** [response.ok]. *)
Definition ok (httpStatus : Z) : bool :=
  ((200 <=? httpStatus) && (httpStatus <=? 299))%Z.

Definition truthyOptNumber (o : option Z) : bool :=
  match o with
  | Some n => negb (n =? 0)%Z
  | None => false
  end.

(** The body of [try]: the value returned or thrown, with what was
    logged on the way. *)
Definition attempt (outcome : FetchOutcome) : Result * list LogEntry :=
  match outcome with
  | fetchRejected networkError => (throws (plainError networkError), [])
  | fetchResolved httpStatus body =>
      match body with
      | noJson syntaxError => (throws (plainError syntaxError), [])
      | parsed responseData =>
          if negb (ok httpStatus) then
            let logged := [entry levelError "[GeminiAPIService] API Error:" None] in
            match responseData with
            | jsonNull => (throws (nullRead "error"), logged)
            | _ =>
                let apiError := get "error" responseData in
                let apiMessage :=
                  match apiError with
                  | Some e => if truthy e then get "message" e else None
                  | None => None
                  end in
                let described :=
                  match apiMessage with
                  | Some m => if truthy m then (" Message: " ++ toText m)%string else ""
                  | None => ""
                  end in
                (throws
                   {| message :=
                        Some ("API request failed with status " ++ showZ httpStatus ++ "."
                              ++ described)%string;
                      status := Some httpStatus;
                      details := Some match apiError with
                                      | Some e => if truthy e then apiDetails e
                                                  else noApiDetails
                                      | None => noApiDetails
                                      end |},
                 logged)
            end
          else
            match responseData with
            | jsonNull => (throws (nullRead "promptFeedback"), [])
            | _ =>
                let promptFeedback := get "promptFeedback" responseData in
                let blockReason :=
                  match promptFeedback with
                  | Some f => if truthy f then get "blockReason" f else None
                  | None => None
                  end in
                let candidates := get "candidates" responseData in
                (returns responseData,
                 (if truthyProperty blockReason
                  then [entry levelWarn "[GeminiAPIService] Request blocked:"
                          match blockReason with
                          | Some (jsonString reason) => Some reason
                          | _ => None
                          end]
                  else if negb (truthyProperty candidates)
                          || match candidates with
                             | Some c => hasLengthZero c
                             | None => false
                             end
                       then [entry levelWarn
                               "[GeminiAPIService] No candidates returned from API." None]
                       else [])
                 ++ [entry levelInfo "[GeminiAPIService] Response received successfully." None;
                     entry levelDebug "[GeminiAPIService] Response Data:" None])
            end
      end
  end.

(** The [catch]: what passes as it is, and what is given a shape. *)
Definition rethrow (e : Thrown) : Thrown :=
  if truthyOptString (message e) && truthyOptNumber (status e) then e
  else
    {| message :=
         Some (if truthyOptString (message e) then orElse (message e) ""
               else "An unexpected error occurred during API communication.");
       status := Some (if truthyOptNumber (status e) then orElse (status e) 0%Z else 500%Z);
       details := Some match details e with
                       | Some d => d
                       | None => causedBy (message e) (status e)
                       end |}.

(** [generateContent(payload, apiKey, model)]. The payload is turned into
    text for the log before [try] is entered: what [JSON.stringify]
    throws there is thrown by [generateContent] as it is, and no request
    is made. *)
Definition generateContent {P : Type} (stringify : P -> Serialized)
    (fetch : string -> string -> FetchOutcome)
    (payload : P) (apiKey model : string) : Completion :=
  if negb (truthyString apiKey) then
    {| result := throws (plainError "API Key is required for GeminiAPIService.");
       requested := None; logs := [] |}
  else if negb (truthyString model) then
    {| result := throws (plainError "Model is required for GeminiAPIService.");
       requested := None; logs := [] |}
  else
    let API_URL :=
      (API_BASE_URL ++ "/" ++ model ++ ":" ++ API_GENERATE_CONTENT_METHOD
       ++ "?key=" ++ apiKey)%string in
    let sending := entry levelInfo "[GeminiAPIService] Sending request to:" (Some API_URL) in
    match stringify payload with
    | unserializable thrown =>
        {| result := throws thrown; requested := None; logs := [sending] |}
    | serialized bodyText =>
        let before := [sending; entry levelDebug "[GeminiAPIService] Payload:" None] in
        let (tried, during) := attempt (fetch API_URL bodyText) in
        match tried with
        | returns responseData =>
            {| result := returns responseData; requested := Some API_URL;
               logs := before ++ during |}
        | throws e =>
            {| result := throws (rethrow e); requested := Some API_URL;
               logs := before ++ during
                       ++ [entry levelError "[GeminiAPIService] Network or parsing error:"
                             (message e)] |}
        end
    end.

End Gemini.

(* ------------------------------------------------------------------ *)
(** ** [escapeHtml] (helpers) *)

(** [s.replace(/c/g, replacement)] for a single character [c]. *)
Fixpoint replaceAll (c : ascii) (replacement : string) (s : string) : string :=
  match s with
  | EmptyString => EmptyString
  | String x rest =>
      if Ascii.eqb x c then (replacement ++ replaceAll c replacement rest)%string
      else String x (replaceAll c replacement rest)
  end.

Definition ampersand : ascii := "&"%char.
Definition lessThan : ascii := "<"%char.
Definition greaterThan : ascii := ">"%char.
Definition doubleQuote : ascii := ascii_of_nat 34.
Definition singleQuote : ascii := ascii_of_nat 39.

(** [escapeHtml] on a string: five replacements, one after the other. *)
Definition escapeHtml (unsafe : string) : string :=
  replaceAll singleQuote "&#039;"
    (replaceAll doubleQuote "&quot;"
       (replaceAll greaterThan "&gt;"
          (replaceAll lessThan "&lt;"
             (replaceAll ampersand "&amp;" unsafe)))).

(** What becomes of one character. *)
Definition escapeChar (x : ascii) : string :=
  if Ascii.eqb x ampersand then "&amp;"
  else if Ascii.eqb x lessThan then "&lt;"
  else if Ascii.eqb x greaterThan then "&gt;"
  else if Ascii.eqb x doubleQuote then "&quot;"
  else if Ascii.eqb x singleQuote then "&#039;"
  else String x EmptyString.

Fixpoint escapeEach (s : string) : string :=
  match s with
  | EmptyString => EmptyString
  | String x rest => (escapeChar x ++ escapeEach rest)%string
  end.

(** A character occurs in a string. *)
Fixpoint occursIn (c : ascii) (s : string) : bool :=
  match s with
  | EmptyString => false
  | String x rest => Ascii.eqb x c || occursIn c rest
  end.

(* ------------------------------------------------------------------ *)
(** ** Notions for the send path *)

(** The two messages that [handleSendMessage] adds, for given readings of
    the clock. *)
Definition sentMessage (t1 t2 : Z) (newContent : list UserMessageContentPart) : ChatMessage :=
  {| id := ("user-" ++ showZ t1)%string; role := user; content := newContent;
     timestamp := t2; meta := None |}.

Definition placeholder (t3 t4 : Z) : ChatMessage :=
  {| id := ("ai-thinking-" ++ showZ t3)%string; role := model; content := [textOf ""];
     timestamp := t4; meta := Some loadingMeta |}.

(** What [handleSendMessage] writes into the placeholder when the request
    settles. *)
Definition replyPatch (firstCandidateParts : option (list (option string))) : MessageUpdates :=
  metaPatch settledMeta [textOf (responseText firstCandidateParts)].

Definition failureText (message : option string) : string :=
  if truthyOptString message then orElse message ""
  else "Failed to get response from AI.".

Definition failurePatch (message : option string) : MessageUpdates :=
  metaPatch {| isLoading := Some false; error := Some (failureText message);
               edited := None; regenerated := None; originalMessageId := None |}
            [textOf ("Error: " ++ failureText message)%string].

(** The system message that reports a missing key. *)
Definition missingKeyMessage (t1 t2 : Z) : ChatMessage :=
  {| id := ("err-" ++ showZ t1)%string; role := system;
     content := [textOf "Error: API Key not set. Please configure it in Settings."];
     timestamp := t2;
     meta := Some {| isLoading := None; error := Some "API Key not set";
                     edited := None; regenerated := None;
                     originalMessageId := None |} |}.

(** The reply as it stands in the conversation once it has arrived. *)
Definition reply (t3 t4 : Z) (firstCandidateParts : option (list (option string)))
    : ChatMessage :=
  {| id := ("ai-thinking-" ++ showZ t3)%string; role := model;
     content := [textOf (responseText firstCandidateParts)];
     timestamp := t4; meta := Some settledMeta |}.

(** The message that [handleEditMessageRequest] puts in the place of the
    edited one. *)
Definition editedMessage (target : ChatMessage) (newContent : list UserMessageContentPart)
    (t : Z) : ChatMessage :=
  {| id := id target; role := role target; content := newContent;
     timestamp := t;
     meta := Some (spreadMeta (meta target)
                     (Some {| isLoading := None; error := None;
                              edited := Some true; regenerated := None;
                              originalMessageId := None |})) |}.

(* ------------------------------------------------------------------ *)
(** ** Notions for the store under [ts/] *)

(** A subscriber that leaves [localStorage] alone. *)
Definition leavesStorage (sub : Ts.Subscriber) : Prop :=
  forall st e, localStorage (snd (fst (sub st e))) = localStorage e.

(** A [localStorage] with room: it takes every state it is given. *)
Definition accepting (w : Ts.World) : Prop :=
  forall st, setState (localStorage (Ts.env w)) st = stored.

(** The stored state is the state in memory. *)
Definition inSync (w : Ts.World) : Prop :=
  stateItem (localStorage (Ts.env w)) = Some (parsesTo (Ts.state (Ts.appState w))).

(** The public methods of the store that write. *)
Inductive Call :=
| callSetApiKey (apiKey : string)
| callUpdateSettings (apiKey selectedModel customInstructions : string)
| callAddMessage (message : Ts.MessageData)
| callAddMessages (messages : list Ts.MessageData)
| callUpdateMessage (messageId : string) (updatedProperties : Ts.MessagePatch)
| callRemoveLastNMessages (count : Z)
| callClearConversation
| callReplaceConversation (messages : list Ts.MessageData)
| callResetStateToDefaults (preserveApiKey : bool).

Definition perform (c : Call) : Ts.World -> Ts.World :=
  match c with
  | callSetApiKey k => Ts.setApiKey k
  | callUpdateSettings k m i => Ts.updateSettings k m i
  | callAddMessage message => Ts.addMessage message
  | callAddMessages messages => Ts.addMessages messages
  | callUpdateMessage messageId updatedProperties =>
      Ts.updateMessage messageId updatedProperties
  | callRemoveLastNMessages count => Ts.removeLastNMessages count
  | callClearConversation => Ts.clearConversation
  | callReplaceConversation messages => Ts.replaceConversation messages
  | callResetStateToDefaults preserveApiKey => Ts.resetStateToDefaults preserveApiKey
  end.

Definition performAll (calls : list Call) (w : Ts.World) : Ts.World :=
  fold_left (fun w' c => perform c w') calls w.

(** A store whose state is the stored one. *)
Definition syncedWorld : Ts.World :=
  let st := {| Ts.apiKey := "key"; Ts.selectedModel := DEFAULT_MODEL;
               Ts.customInstructions := ""; Ts.conversation := [] |} in
  {| Ts.appState := {| Ts.state := st;
                       Ts.subscribers := [Ts.reading (renders "history"); Ts.reading faulty] |};
     Ts.env := {| document := [];
                  localStorage := withStateItem (Some (parsesTo st)) roomyStorage;
                  console := []; clock := tickingClock |} |}.

(* ------------------------------------------------------------------ *)
(** ** Sample servers and payloads *)

(** A server that answers every request with the given status and
    body. *)
Definition answering (httpStatus : Z) (body : Gemini.Body)
    : string -> string -> Gemini.FetchOutcome :=
  fun _ _ => Gemini.fetchResolved httpStatus body.

(** A payload that [JSON.stringify] takes, and one with a cycle. *)
Inductive SamplePayload := plainPayload | cyclicPayload.

Definition sampleStringify (p : SamplePayload) : Gemini.Serialized :=
  match p with
  | plainPayload => Gemini.serialized "{}"
  | cyclicPayload =>
      Gemini.unserializable (Gemini.plainError "Converting circular structure to JSON")
  end.

(* ================================================================== *)
(** * Properties of the turn compiler *)

Lemma Role_eqb_spec (a b : Role) : reflect (a = b) (Role_eqb a b).
Proof. destruct a, b; simpl; constructor; congruence. Qed.

Lemma skipped_participates (msg : ChatMessage) :
  skipped msg = negb (participates msg).
Proof.
  unfold skipped, participates, status.
  destruct (Role_eqb (role msg) system), (metaIsLoading msg), (metaError msg);
    reflexivity.
Qed.

Lemma excluded_skipped (msg : ChatMessage) :
  role msg = system \/ status msg = pending \/ status msg = failed ->
  skipped msg = true.
Proof.
  unfold skipped, status.
  intros [Hr | [Hs | Hs]].
  - rewrite Hr. reflexivity.
  - destruct (metaIsLoading msg); [apply orb_true_r || (rewrite orb_true_r; reflexivity) |].
    destruct (metaError msg); discriminate.
  - destruct (metaIsLoading msg); [discriminate |].
    destruct (metaError msg); [apply orb_true_r | discriminate].
Qed.

Lemma visit_skipped (b : Builder) (msg : ChatMessage) :
  skipped msg = true -> visit b msg = b.
Proof. intros H. unfold visit. rewrite H. reflexivity. Qed.

Lemma fold_visit_filter (messages : list ChatMessage) :
  forall b,
    fold_left visit messages b = fold_left visit (filter participates messages) b.
Proof.
  induction messages as [| msg rest IH]; intros b; simpl.
  - reflexivity.
  - destruct (participates msg) eqn:Hp; simpl.
    + apply IH.
    + rewrite visit_skipped.
      * apply IH.
      * rewrite skipped_participates, Hp. reflexivity.
Qed.

Lemma buildGeminiHistory_filter (messages : list ChatMessage) :
  buildGeminiHistory messages = buildGeminiHistory (filter participates messages).
Proof. unfold buildGeminiHistory. rewrite fold_visit_filter. reflexivity. Qed.

Lemma visit_roleBeforeParts (b : Builder) (msg : ChatMessage) :
  roleBeforeParts b -> roleBeforeParts (visit b msg).
Proof.
  unfold roleBeforeParts, visit. intros Hb.
  destruct (skipped msg); [exact Hb |].
  destruct (asGeminiRole (role msg)); [| exact Hb].
  simpl. discriminate.
Qed.

Lemma visit_partsSoFar (b : Builder) (msg : ChatMessage) :
  partsSoFar (visit b msg)
  = partsSoFar b ++ (if participates msg then historyParts msg else []).
Proof.
  unfold visit. rewrite skipped_participates.
  destruct (participates msg) eqn:Hp; simpl.
  - destruct (asGeminiRole (role msg)) as [g |] eqn:Hg.
    + unfold partsSoFar.
      destruct (currentRole b) as [r |]; simpl.
      * destruct (GeminiRole_eqb r g); simpl;
          rewrite ?flat_map_app; simpl; rewrite ?app_nil_r, <- ?app_assoc; reflexivity.
      * rewrite <- app_assoc. reflexivity.
    + unfold participates in Hp. destruct (role msg); discriminate.
  - rewrite app_nil_r. reflexivity.
Qed.

Lemma fold_visit_parts (messages : list ChatMessage) :
  forall b,
    roleBeforeParts b ->
    roleBeforeParts (fold_left visit messages b)
    /\ partsSoFar (fold_left visit messages b)
       = partsSoFar b ++ flat_map historyParts (filter participates messages).
Proof.
  induction messages as [| msg rest IH]; intros b Hb; simpl.
  - split; [exact Hb | rewrite app_nil_r; reflexivity].
  - destruct (IH (visit b msg) (visit_roleBeforeParts b msg Hb)) as [Hinv Hparts].
    split; [exact Hinv |].
    rewrite Hparts, visit_partsSoFar.
    destruct (participates msg); simpl.
    + rewrite <- app_assoc. reflexivity.
    + rewrite app_nil_r. reflexivity.
Qed.

Lemma finish_parts (b : Builder) :
  roleBeforeParts b -> flat_map parts (finish b) = partsSoFar b.
Proof.
  unfold roleBeforeParts, finish, partsSoFar. intros Hb.
  destruct (currentRole b) as [r |].
  - destruct (currentParts b) as [| p ps].
    + rewrite app_nil_r. reflexivity.
    + rewrite flat_map_app. simpl. rewrite app_nil_r. reflexivity.
  - rewrite Hb by reflexivity.
    destruct (currentParts b); rewrite app_nil_r; reflexivity.
Qed.

(** The parts of the output are the parts of the participating messages,
    in order. *)
Lemma buildGeminiHistory_parts (messages : list ChatMessage) :
  flat_map parts (buildGeminiHistory messages)
  = flat_map historyParts (filter participates messages).
Proof.
  unfold buildGeminiHistory.
  assert (H0 : roleBeforeParts emptyBuilder) by (intros _; reflexivity).
  destruct (fold_visit_parts messages emptyBuilder H0) as [Hinv Hparts].
  rewrite finish_parts by exact Hinv.
  rewrite Hparts. reflexivity.
Qed.

Lemma GeminiRole_eqb_eq (a b : GeminiRole) :
  GeminiRole_eqb a b = true <-> a = b.
Proof. destruct a, b; simpl; split; congruence. Qed.

Lemma alternating_app_inv (l : list GeminiRole) (x : GeminiRole) :
  alternating (l ++ [x]) -> alternating l.
Proof.
  induction l as [| a l IH]; simpl; [trivial |].
  destruct l as [| b l]; simpl in *; [trivial |].
  intros [Hab H]. split; [exact Hab | apply IH; exact H].
Qed.

Lemma alternating_snoc (l : list GeminiRole) (x y : GeminiRole) :
  alternating (l ++ [x]) -> x <> y -> alternating (l ++ [x; y]).
Proof.
  induction l as [| a l IH]; simpl.
  - intros _ H. split; [exact H | exact I].
  - destruct l as [| b l]; simpl in *.
    + intros [Hax _] Hxy. repeat split; assumption.
    + intros [Hab H] Hxy. split; [exact Hab | apply IH; assumption].
Qed.

Lemma visit_orderly (b : Builder) (msg : ChatMessage) :
  orderly b -> orderly (visit b msg).
Proof.
  unfold visit. intros [Halt Hnone].
  destruct (skipped msg); [split; assumption |].
  destruct (asGeminiRole (role msg)) as [g |]; [| split; assumption].
  unfold orderly, rolesSoFar in *.
  destruct (currentRole b) as [r |]; simpl.
  - destruct (GeminiRole_eqb r g) eqn:Hrg; simpl.
    + apply GeminiRole_eqb_eq in Hrg. subst g.
      split; [exact Halt | discriminate].
    + split; [| discriminate].
      rewrite map_app. simpl. rewrite <- app_assoc. simpl.
      apply alternating_snoc; [exact Halt |].
      intros Heq. apply GeminiRole_eqb_eq in Heq. congruence.
  - rewrite Hnone by reflexivity. simpl. split; [exact I | discriminate].
Qed.

Lemma fold_visit_orderly (messages : list ChatMessage) :
  forall b, orderly b -> orderly (fold_left visit messages b).
Proof.
  induction messages as [| msg rest IH]; intros b Hb; simpl.
  - exact Hb.
  - apply IH, visit_orderly, Hb.
Qed.

Lemma finish_alternating (b : Builder) :
  orderly b -> alternating (map turnRole (finish b)).
Proof.
  unfold orderly, rolesSoFar, finish. intros [Halt _].
  destruct (currentRole b) as [r |].
  - destruct (currentParts b) as [| p ps].
    + apply alternating_app_inv with (x := r). exact Halt.
    + rewrite map_app. exact Halt.
  - rewrite app_nil_r in Halt.
    destruct (currentParts b); exact Halt.
Qed.

(** No two adjacent turns of the output share a role. *)
Lemma buildGeminiHistory_alternating (messages : list ChatMessage) :
  alternating (map turnRole (buildGeminiHistory messages)).
Proof.
  apply finish_alternating, fold_visit_orderly.
  split; [exact I | reflexivity].
Qed.

Lemma visit_collecting (b : Builder) (msg : ChatMessage) :
  (participates msg = true -> historyParts msg <> []) ->
  collecting b -> collecting (visit b msg).
Proof.
  unfold visit. rewrite skipped_participates. intros Hmsg [Hhist Hcur].
  destruct (participates msg) eqn:Hp; simpl; [| split; assumption].
  destruct (asGeminiRole (role msg)) as [g |]; [| split; assumption].
  assert (Hne : forall l : list GeminiPart, l ++ historyParts msg <> []).
  { intros l Hl. apply app_eq_nil in Hl. destruct Hl as [_ Hl].
    apply Hmsg; [reflexivity | exact Hl]. }
  unfold collecting, noEmptyTurn in *.
  destruct (currentRole b) as [r |] eqn:Hr; simpl.
  - destruct (GeminiRole_eqb r g); simpl.
    + split; [exact Hhist | intros _ _; apply Hne].
    + split; [| intros _ _; apply (Hne [])].
      apply Forall_app. split; [exact Hhist |].
      constructor; [| constructor]. simpl. apply (Hcur r). reflexivity.
  - split; [exact Hhist | intros _ _; apply Hne].
Qed.

Lemma buildGeminiHistory_noEmptyTurn (messages : list ChatMessage) :
  Forall (fun msg => participates msg = true -> historyParts msg <> []) messages ->
  noEmptyTurn (buildGeminiHistory messages).
Proof.
  intros Hall. unfold buildGeminiHistory.
  assert (Hfold : forall b, collecting b -> collecting (fold_left visit messages b)).
  { induction Hall as [| msg rest Hmsg _ IH]; intros b Hb; simpl.
    - exact Hb.
    - apply IH, visit_collecting; assumption. }
  assert (H0 : collecting emptyBuilder).
  { split; [constructor | discriminate]. }
  destruct (Hfold emptyBuilder H0) as [Hhist Hcur].
  unfold finish, noEmptyTurn.
  destruct (currentRole (fold_left visit messages emptyBuilder)) as [r |];
    [| exact Hhist].
  destruct (currentParts (fold_left visit messages emptyBuilder)) as [| p ps] eqn:Hps;
    [exact Hhist |].
  apply Forall_app. split; [exact Hhist |].
  constructor; [simpl; discriminate | constructor].
Qed.

Example coalescing :
  buildGeminiHistory [say "1" user "a"; say "2" user "b"; say "3" model "c"]
  = [ {| turnRole := roleUser; parts := [textPart "a"; textPart "b"] |};
      {| turnRole := roleModel; parts := [textPart "c"] |} ].
Proof. reflexivity. Qed.

Example filtering :
  buildGeminiHistory
    [say "0" system "Welcome!"; say "1" user "a"; say "2" system "note";
     say "3" model "b"; say "4" user "c"; awaited "5"]
  = [ {| turnRole := roleUser; parts := [textPart "a"] |};
      {| turnRole := roleModel; parts := [textPart "b"] |};
      {| turnRole := roleUser; parts := [textPart "c"] |} ].
Proof. reflexivity. Qed.

Example picture :
  historyPart {| type := image; data := "data:image/png;base64,iVBOR";
                 mimeType := Some "image/png" |}
  = [inlineData (Some "image/png") (Some "iVBOR")].
Proof. reflexivity. Qed.

(** C2, at the input where the code departs from it. The claim: no two
    adjacent turns of the compiled list share a role, no turn has an empty
    list of parts, and neighbours of one role are merged into one turn.
    The roles do alternate ([buildGeminiHistory_alternating]) and the
    merging is as claimed ([coalescing]); but a participating message that
    brings no part, followed by a message of the other role, is pushed as
    a turn without parts: only the last turn is tested for parts. *)
Theorem buildGeminiHistory_pushes_empty_turn :
  buildGeminiHistory [untypedPicture "1"; say "2" model "c"]
  = [ {| turnRole := roleUser; parts := [] |};
      {| turnRole := roleModel; parts := [textPart "c"] |} ]
  /\ buildGeminiHistory [wordless "1"; say "2" model "c"]
     = [ {| turnRole := roleUser; parts := [] |};
         {| turnRole := roleModel; parts := [textPart "c"] |} ]
  /\ ~ noEmptyTurn (buildGeminiHistory [untypedPicture "1"; say "2" model "c"])
  /\ buildGeminiHistory [say "2" model "c"; untypedPicture "1"]
     = [ {| turnRole := roleModel; parts := [textPart "c"] |} ].
Proof.
  repeat split.
  intros H. inversion H as [| t l Hparts _]. apply Hparts. reflexivity.
Qed.

(** C3. A message whose role is [system], or whose status is [pending] or
    [failed], is left out of the compilation wherever it stands in the
    list: the output is the one of the list without it, and the parts of
    the output are those of the final user and model messages that
    remain. *)
Theorem buildGeminiHistory_excludes
    (before after : list ChatMessage) (msg : ChatMessage) :
  role msg = system \/ status msg = pending \/ status msg = failed ->
  buildGeminiHistory (before ++ msg :: after) = buildGeminiHistory (before ++ after)
  /\ flat_map parts (buildGeminiHistory (before ++ msg :: after))
     = flat_map historyParts (filter participates (before ++ after)).
Proof.
  intros Hexcluded.
  assert (Hp : participates msg = false).
  { apply excluded_skipped in Hexcluded.
    rewrite skipped_participates in Hexcluded.
    destruct (participates msg); [discriminate | reflexivity]. }
  assert (Hfilter : filter participates (before ++ msg :: after)
                    = filter participates (before ++ after)).
  { rewrite !filter_app. simpl. rewrite Hp. reflexivity. }
  split.
  - rewrite (buildGeminiHistory_filter (before ++ msg :: after)), Hfilter.
    symmetry. apply buildGeminiHistory_filter.
  - rewrite buildGeminiHistory_parts, Hfilter. reflexivity.
Qed.

Lemma buildGeminiHistory_excludes_witness :
  buildGeminiHistory ([say "1" user "a"] ++ awaited "2" :: [say "3" model "b"])
  = buildGeminiHistory ([say "1" user "a"] ++ [say "3" model "b"])
  /\ flat_map parts
       (buildGeminiHistory ([say "1" user "a"] ++ awaited "2" :: [say "3" model "b"]))
     = flat_map historyParts
         (filter participates ([say "1" user "a"] ++ [say "3" model "b"])).
Proof.
  apply (buildGeminiHistory_excludes [say "1" user "a"] [say "3" model "b"] (awaited "2")).
  right. left. reflexivity.
Defined.

(* ================================================================== *)
(** * Properties of the store *)

Lemma withConfirmModalAction_same (s : AppStateData) :
  withConfirmModalAction (confirmModalAction s) s = s.
Proof. destruct s; reflexivity. Qed.

Lemma getState_idle (s : AppStateData) :
  confirmModalAction s = actionNull -> getState s = s.
Proof.
  intros H. unfold getState. rewrite H. simpl.
  rewrite <- H. apply withConfirmModalAction_same.
Qed.

(** An updater that does not assign [confirmModalAction] yields the state
    it would yield on [this.state] itself. *)
Lemma spread_keepsAction (f : AppStateData -> AppStateData) (s : AppStateData) :
  keepsAction f -> spread s (f (getState s)) = f s.
Proof.
  intros Hf. unfold getState. rewrite Hf.
  assert (Hfs : f s = withConfirmModalAction (confirmModalAction s) (f s)).
  { rewrite <- Hf, withConfirmModalAction_same. reflexivity. }
  unfold spread.
  change (confirmModalAction
            (withConfirmModalAction (jsonRoundTripAction (confirmModalAction s)) (f s)))
    with (jsonRoundTripAction (confirmModalAction s)).
  destruct (confirmModalAction s) eqn:Hs; simpl; symmetry; exact Hfs.
Qed.

Lemma updateState_keepsAction (f : AppStateData -> AppStateData) (w : World) :
  keepsAction f ->
  updateState f w = notify (withState (f (state (appState w))) w).
Proof. intros Hf. unfold updateState. rewrite spread_keepsAction by exact Hf. reflexivity. Qed.


Lemma notify_appState (w : World) : appState (notify w) = appState w.
Proof.
  unfold notify, notifyTrace.
  destruct (callSubscribers _ _ _ _). reflexivity.
Qed.

Lemma notify_state (w : World) : state (appState (notify w)) = state (appState w).
Proof. rewrite notify_appState. reflexivity. Qed.

Lemma updateState_state (f : AppStateData -> AppStateData) (w : World) :
  keepsAction f ->
  state (appState (updateState f w)) = f (state (appState w)).
Proof.
  intros Hf. rewrite updateState_keepsAction by exact Hf.
  rewrite notify_state. reflexivity.
Qed.

Lemma updateState_subscribers (f : AppStateData -> AppStateData) (w : World) :
  subscribers (appState (updateState f w)) = subscribers (appState w).
Proof. unfold updateState. rewrite notify_appState. reflexivity. Qed.

Lemma keepsAction_withConversation (g : AppStateData -> list ChatMessage) :
  (forall s a, g (withConfirmModalAction a s) = g s) ->
  keepsAction (fun s => withConversation (g s) s).
Proof. intros Hg s a. rewrite Hg. reflexivity. Qed.

Lemma keepsAction_addMessage (message : ChatMessage) :
  keepsAction (fun s =>
    withError None (withConversation (currentConversation s ++ [message]) s)).
Proof. intros s a. reflexivity. Qed.

Lemma keepsAction_updateMessage (messageId : string) (updates : MessageUpdates) :
  keepsAction (fun s =>
    withConversation (mergeInto messageId updates (currentConversation s)) s).
Proof. intros s a. reflexivity. Qed.

Lemma clearConversation_state (w : World) :
  state (appState (clearConversation w)) = withConversation [] (state (appState w)).
Proof.
  unfold clearConversation.
  apply (updateState_state (fun s => withConversation [] s) w).
  intros s a. reflexivity.
Qed.

Lemma addMessage_state (message : ChatMessage) (w : World) :
  state (appState (addMessage message w))
  = withError None
      (withConversation (currentConversation (state (appState w)) ++ [message])
         (state (appState w))).
Proof.
  unfold addMessage.
  apply (updateState_state _ w (keepsAction_addMessage message)).
Qed.

Lemma setIsSending_state (b : bool) (w : World) :
  state (appState (setIsSending b w)) = withIsSending b (state (appState w)).
Proof.
  unfold setIsSending.
  apply (updateState_state (fun s => withIsSending b s) w).
  intros s a. reflexivity.
Qed.

Lemma setConversation_state (conv : list ChatMessage) (w : World) :
  state (appState (setConversation conv w)) = withConversation conv (state (appState w)).
Proof.
  unfold setConversation.
  apply (updateState_state (fun s => withConversation conv s) w).
  intros s a. reflexivity.
Qed.

Lemma closeConfirmModal_conversation (w : World) :
  currentConversation (state (appState (closeConfirmModal w)))
  = currentConversation (state (appState w)).
Proof.
  unfold closeConfirmModal, updateState. rewrite notify_state. reflexivity.
Qed.

Lemma closeConfirmModal_apiKey (w : World) :
  apiKey (state (appState (closeConfirmModal w))) = apiKey (state (appState w)).
Proof.
  unfold closeConfirmModal, updateState. rewrite notify_state. reflexivity.
Qed.

Lemma occurrences_app (i : string) (a b : list ChatMessage) :
  occurrences i (a ++ b) = (occurrences i a + occurrences i b)%nat.
Proof. unfold occurrences. rewrite filter_app, length_app. reflexivity. Qed.

Lemma occurrences_zero (i : string) (conv : list ChatMessage) :
  occurrences i conv = 0%nat <-> ~ In i (map id conv).
Proof.
  unfold occurrences. induction conv as [| m rest IH]; simpl.
  - split; [intros _ [] | reflexivity].
  - destruct (String.eqb_spec (id m) i) as [Heq | Hne]; simpl.
    + split; [discriminate | intros H; exfalso; apply H; left; exact Heq].
    + rewrite IH. split.
      * intros H [Hm | Hin]; [congruence | exact (H Hin)].
      * intros H Hin. apply H. right. exact Hin.
Qed.

(** C4, as the code has it. The claim: [addMessage] appends at the tail and
    fails, leaving the state as it was, when the id is already in the list,
    so that the id of an added message is found once. In the code
    [addMessage] never fails and compares no ids: it always puts the message
    at the tail (and clears [currentError]); the id of the added message is
    then at the tail, once more than it was before, hence exactly once
    when, and only when, no message had that id. *)
Theorem addMessage_appends (message : ChatMessage) (w : World) :
  let before := currentConversation (state (appState w)) in
  let after := currentConversation (state (appState (addMessage message w))) in
  after = before ++ [message]
  /\ currentError (state (appState (addMessage message w))) = None
  /\ occurrences (id message) after = S (occurrences (id message) before)
  /\ (occurrences (id message) after = 1%nat <-> ~ In (id message) (map id before)).
Proof.
  unfold addMessage.
  rewrite (updateState_state _ w (keepsAction_addMessage message)).
  cbv zeta. simpl.
  assert (Hocc : occurrences (id message)
                   (currentConversation (state (appState w)) ++ [message])
                 = S (occurrences (id message) (currentConversation (state (appState w))))).
  { rewrite occurrences_app. unfold occurrences at 2. simpl.
    rewrite String.eqb_refl. simpl. lia. }
  repeat split.
  - exact Hocc.
  - rewrite Hocc. intros H. apply occurrences_zero. lia.
  - rewrite Hocc. intros H. apply occurrences_zero in H. lia.
Qed.

(** C4 fails as stated: a message whose id is already in the list is
    appended all the same, the state changes, and the id is found twice. *)
Lemma addMessage_accepts_known_id :
  currentConversation
    (state (appState
       (addMessage (say "m1" model "again")
          (worldOf (withConversation [say "m1" user "hi"] defaultState) []))))
  = [say "m1" user "hi"; say "m1" model "again"]
  /\ occurrences "m1"
       (currentConversation
          (state (appState
             (addMessage (say "m1" model "again")
                (worldOf (withConversation [say "m1" user "hi"] defaultState) [])))))
     = 2%nat.
Proof. split; reflexivity. Qed.

(* ------------------------------------------------------------------ *)
(** ** Notification *)

Lemma callSubscribers_cons (sub : Subscriber) (rest : list Subscriber)
    (position : nat) (snapshot : AppStateData) (e : AppEnv) :
  fst (callSubscribers (sub :: rest) position snapshot e)
  = fst (callSubscribers rest (S position) snapshot (afterCall sub snapshot e)).
Proof.
  simpl. unfold afterCall.
  destruct (sub snapshot e) as [e1 out]. simpl.
  destruct (callSubscribers rest (S position) snapshot _) as [e3 calls].
  reflexivity.
Qed.


Lemma tsCallSubscribers_cons (sub : Ts.Subscriber) (rest : list Ts.Subscriber)
    (position : nat) (st : Ts.AppStateData) (e : Ts.AppEnv) :
  Ts.callSubscribers (sub :: rest) position st e
  = (fst (Ts.callSubscribers rest (S position)
            (fst (tsAfterCall sub st e)) (snd (tsAfterCall sub st e))),
     {| Ts.callee := position; Ts.argument := st; Ts.outcome := snd (sub st e) |}
     :: snd (Ts.callSubscribers rest (S position)
               (fst (tsAfterCall sub st e)) (snd (tsAfterCall sub st e)))).
Proof.
  cbn [Ts.callSubscribers]. unfold tsAfterCall.
  destruct (sub st e) as [[st1 e1] out]. cbn [fst snd].
  destruct out as [| err]; cbn [fst snd];
    destruct (Ts.callSubscribers rest (S position) st1 _) as [[st3 e3] calls];
    reflexivity.
Qed.



(** Subscribers that only look leave the state as it is, and are all
    handed the same state. *)
Lemma tsCallSubscribers_observed (subs : list Ts.Subscriber) :
  Forall Ts.observes subs ->
  forall position st e,
    fst (fst (Ts.callSubscribers subs position st e)) = st
    /\ Forall (fun c => Ts.argument c = st)
         (snd (Ts.callSubscribers subs position st e)).
Proof.
  induction 1 as [| sub rest Hsub _ IH]; intros position st e.
  - split; [reflexivity | constructor].
  - rewrite tsCallSubscribers_cons. cbn [fst snd].
    assert (Hkept : fst (tsAfterCall sub st e) = st).
    { unfold tsAfterCall. destruct (snd (sub st e)); cbn [fst]; apply Hsub. }
    rewrite Hkept.
    destruct (IH (S position) st (snd (tsAfterCall sub st e))) as [Hstate Hargs].
    split; [exact Hstate |].
    constructor; [reflexivity | exact Hargs].
Qed.

Lemma notifyTrace_env (w : World) :
  env (notify w)
  = fst (callSubscribers (subscribers (appState w)) 0
           (getState (state (appState w))) (env w)).
Proof.
  unfold notify, notifyTrace.
  destruct (callSubscribers _ _ _ _). reflexivity.
Qed.



Lemma tsNotify_run (w : Ts.World) :
  Ts.notifyTrace w
  = (Ts.withEnv
       (snd (fst (Ts.callSubscribers (Ts.subscribers (Ts.appState w)) 0
                    (Ts.state (Ts.appState w))
                    (snd (saveState (Ts.state (Ts.appState w))
                            (consoleLog levelDebug
                               "[AppState] Notifying subscribers. Current state:"
                               None (Ts.env w)))))))
       (Ts.withState
          (fst (fst (Ts.callSubscribers (Ts.subscribers (Ts.appState w)) 0
                       (Ts.state (Ts.appState w))
                       (snd (saveState (Ts.state (Ts.appState w))
                               (consoleLog levelDebug
                                  "[AppState] Notifying subscribers. Current state:"
                                  None (Ts.env w)))))))
          w),
     snd (Ts.callSubscribers (Ts.subscribers (Ts.appState w)) 0
            (Ts.state (Ts.appState w))
            (snd (saveState (Ts.state (Ts.appState w))
                    (consoleLog levelDebug
                       "[AppState] Notifying subscribers. Current state:"
                       None (Ts.env w)))))).
Proof.
  unfold Ts.notifyTrace.
  destruct (saveState _ _) as [saved e1]. cbn [snd].
  destruct (Ts.callSubscribers _ _ _ _) as [[st2 e2] calls]. reflexivity.
Qed.

Lemma tsNotify_subscribers (w : Ts.World) :
  Ts.subscribers (Ts.appState (Ts.notify w)) = Ts.subscribers (Ts.appState w).
Proof. unfold Ts.notify. rewrite tsNotify_run. reflexivity. Qed.

Lemma tsNotify_appState (w : Ts.World) :
  Forall Ts.observes (Ts.subscribers (Ts.appState w)) ->
  Ts.appState (Ts.notify w) = Ts.appState w.
Proof.
  intros Hlook. unfold Ts.notify. rewrite tsNotify_run.
  cbn [fst Ts.withEnv Ts.withState Ts.appState].
  rewrite (proj1 (tsCallSubscribers_observed _ Hlook _ _ _)).
  destruct w as [[st subs] e]. reflexivity.
Qed.




(* ------------------------------------------------------------------ *)
(** ** [updateMessage] *)

Lemma mergeInto_absent (messageId : string) (updates : MessageUpdates)
    (conv : list ChatMessage) :
  occurrences messageId conv = 0%nat -> mergeInto messageId updates conv = conv.
Proof.
  unfold occurrences, mergeInto.
  induction conv as [| m rest IH]; simpl; [reflexivity |].
  destruct (String.eqb (id m) messageId); simpl; [discriminate |].
  intros H. rewrite IH by exact H. reflexivity.
Qed.


Lemma updateMessage_notify (messageId : string) (updates : MessageUpdates) (w : World) :
  updateMessage messageId updates w
  = notify
      (withState
         (withConversation
            (mergeInto messageId updates (currentConversation (state (appState w))))
            (state (appState w))) w).
Proof.
  unfold updateMessage.
  apply (updateState_keepsAction _ w (keepsAction_updateMessage messageId updates)).
Qed.




(* ------------------------------------------------------------------ *)
(** ** Gestures while a request is in flight *)

Lemma bind_readState {A : Type} (k : AppStateData -> App A) (w : World) :
  bind readState k w = k (getState (state (appState w))) w.
Proof. reflexivity. Qed.

Lemma isSending_getState (s : AppStateData) : isSending (getState s) = isSending s.
Proof. reflexivity. Qed.

Lemma handle_gated (g : Gesture) (w : World) :
  isSending (state (appState w)) = true -> handle g w = (None, w).
Proof.
  intros Hbusy.
  destruct g; unfold handle;
    [unfold handleSendMessage | unfold handleRegenerateResponse
     | unfold handleEditMessageRequest];
    rewrite bind_readState, isSending_getState, Hbusy; reflexivity.
Qed.

(* ------------------------------------------------------------------ *)
(** ** Regeneration *)

Lemma findIndex_Some {A : Type} (p : A -> bool) (xs : list A) (i : nat) :
  findIndex p xs = Some i ->
  exists x, nth_error xs i = Some x /\ p x = true
            /\ forall j y, (j < i)%nat -> nth_error xs j = Some y -> p y = false.
Proof.
  revert i. induction xs as [| x rest IH]; intros i Hfind; simpl in Hfind; [discriminate |].
  destruct (p x) eqn:Hpx.
  - injection Hfind as <-. exists x. split; [reflexivity |]. split; [exact Hpx |].
    intros j y Hj. lia.
  - destruct (findIndex p rest) as [k |]; [| discriminate].
    injection Hfind as <-.
    destruct (IH k eq_refl) as [y [Hnth [Hpy Hbefore]]].
    exists y. split; [exact Hnth |]. split; [exact Hpy |].
    intros j z Hj Hz. destruct j as [| j]; simpl in Hz.
    + injection Hz as <-. exact Hpx.
    + apply (Hbefore j z); [lia | exact Hz].
Qed.

(** The backward scan stops at the nearest user message before the
    target. *)
Lemma lastUserBefore_nearest (conversation : list ChatMessage) (start found : nat) :
  lastUserBefore conversation start = Some found ->
  (found < start)%nat
  /\ (exists msg, nth_error conversation found = Some msg /\ role msg = user)
  /\ forall k msg, (found < k < start)%nat -> nth_error conversation k = Some msg ->
                   role msg <> user.
Proof.
  induction start as [| i IH]; simpl; [discriminate |].
  destruct (nth_error conversation i) as [m |] eqn:Hnth.
  - destruct (Role_eqb_spec (role m) user) as [Hu | Hnu].
    + intros H. injection H as <-.
      split; [lia |]. split; [exists m; split; assumption |].
      intros k msg Hk. lia.
    + intros H. destruct (IH H) as [Hlt [Hmsg Hbetween]].
      split; [lia |]. split; [exact Hmsg |].
      intros k msg Hk Hk'.
      destruct (Nat.eq_dec k i) as [-> | Hne].
      * rewrite Hnth in Hk'. injection Hk' as <-. exact Hnu.
      * apply (Hbetween k msg); [lia | exact Hk'].
  - intros H. destruct (IH H) as [Hlt [Hmsg Hbetween]].
    split; [lia |]. split; [exact Hmsg |].
    intros k msg Hk Hk'.
    destruct (Nat.eq_dec k i) as [-> | Hne].
    + rewrite Hnth in Hk'. discriminate.
    + apply (Hbetween k msg); [lia | exact Hk'].
Qed.

(** No user message before the target: nothing but an error on the
    console. *)
Lemma handleRegenerateResponse_without_prompt
    (messageId : string) (w : World) (messageIndex : nat) (target : ChatMessage) :
  isSending (state (appState w)) = false ->
  findIndex (fun msg => String.eqb (id msg) messageId)
    (currentConversation (state (appState w))) = Some messageIndex ->
  nth_error (currentConversation (state (appState w))) messageIndex = Some target ->
  role target = model ->
  lastUserBefore (currentConversation (state (appState w))) messageIndex = None ->
  handleRegenerateResponse messageId w
  = (None,
     withEnv (consoleLog levelError
                "Cannot regenerate: Could not find preceding user message." None (env w)) w).
Proof.
  intros Hidle Hfind Hnth Hrole Hscan.
  unfold handleRegenerateResponse, bind, readState. simpl.
  rewrite Hidle, Hfind, Hnth, Hrole, Hscan. reflexivity.
Qed.

(** Otherwise the conversation is cut just before the target and the
    content of that user message goes through [handleSendMessage]. *)
Lemma handleRegenerateResponse_resends
    (messageId : string) (w : World) (messageIndex found : nat)
    (target prompt : ChatMessage) :
  isSending (state (appState w)) = false ->
  findIndex (fun msg => String.eqb (id msg) messageId)
    (currentConversation (state (appState w))) = Some messageIndex ->
  nth_error (currentConversation (state (appState w))) messageIndex = Some target ->
  role target = model ->
  lastUserBefore (currentConversation (state (appState w))) messageIndex = Some found ->
  nth_error (currentConversation (state (appState w))) found = Some prompt ->
  handleRegenerateResponse messageId w
  = handleSendMessage (content prompt)
      (setConversation (firstn messageIndex (currentConversation (state (appState w)))) w).
Proof.
  intros Hidle Hfind Hnth Hrole Hscan Hprompt.
  unfold handleRegenerateResponse, bind, readState, call. simpl.
  rewrite Hidle, Hfind, Hnth, Hrole, Hscan, Hprompt. reflexivity.
Qed.

(** With a key set and no request in flight, [handleSendMessage] puts two
    messages at the end of the conversation: the content it was given, as
    a new user message, and the placeholder of the reply. *)
Lemma handleSendMessage_appends
    (newContent : list UserMessageContentPart) (w : World) (key : string) :
  isSending (state (appState w)) = false ->
  apiKey (state (appState w)) = Some key ->
  truthyString key = true ->
  exists userId thinkingId t2 t4,
    currentConversation (state (appState (snd (handleSendMessage newContent w))))
    = currentConversation (state (appState w))
      ++ [ {| id := userId; role := user; content := newContent;
              timestamp := t2; meta := None |};
           {| id := thinkingId; role := model; content := [textOf ""];
              timestamp := t4; meta := Some loadingMeta |} ]
    /\ isSending (state (appState (snd (handleSendMessage newContent w)))) = true.
Proof.
  intros Hidle Hkey Htruthy.
  unfold handleSendMessage, bind, readState, call, now, callBuildGeminiHistory, ret.
  cbn [isSending apiKey getState withConfirmModalAction withConfirmModal].
  rewrite Hidle, Hkey, Htruthy.
  destruct (dateNow (env w)) as [t1 e1].
  destruct (dateNow (env (withEnv e1 w))) as [t2 e2].
  set (userMessage := {| id := ("user-" ++ showZ t1)%string; role := user;
                         content := newContent; timestamp := t2; meta := None |}).
  set (w1 := addMessage userMessage (withEnv e2 (withEnv e1 w))).
  set (w2 := setIsSending true w1).
  destruct (dateNow (env w2)) as [t3 e3].
  destruct (dateNow (env (withEnv e3 w2))) as [t4 e4].
  cbn [snd].
  exists ("user-" ++ showZ t1)%string, ("ai-thinking-" ++ showZ t3)%string, t2, t4.
  rewrite addMessage_state. cbn [appState state withEnv].
  unfold w2. rewrite setIsSending_state.
  unfold w1. rewrite addMessage_state. cbn [appState state withEnv].
  split; [| reflexivity].
  cbn [currentConversation withError withConversation withIsSending].
  rewrite <- app_assoc. reflexivity.
Qed.

(** Regeneration in general: what is left before the target stays, the
    prompt among it, and the content of the prompt comes a second time,
    ahead of the placeholder. *)
Lemma handleRegenerateResponse_appends
    (messageId : string) (w : World) (key : string) (messageIndex found : nat)
    (target prompt : ChatMessage) :
  isSending (state (appState w)) = false ->
  apiKey (state (appState w)) = Some key ->
  truthyString key = true ->
  findIndex (fun msg => String.eqb (id msg) messageId)
    (currentConversation (state (appState w))) = Some messageIndex ->
  nth_error (currentConversation (state (appState w))) messageIndex = Some target ->
  role target = model ->
  lastUserBefore (currentConversation (state (appState w))) messageIndex = Some found ->
  nth_error (currentConversation (state (appState w))) found = Some prompt ->
  exists userId thinkingId t2 t4,
    currentConversation (state (appState (snd (handleRegenerateResponse messageId w))))
    = firstn messageIndex (currentConversation (state (appState w)))
      ++ [ {| id := userId; role := user; content := content prompt;
              timestamp := t2; meta := None |};
           {| id := thinkingId; role := model; content := [textOf ""];
              timestamp := t4; meta := Some loadingMeta |} ]
    /\ nth_error (firstn messageIndex (currentConversation (state (appState w)))) found
       = Some prompt.
Proof.
  intros Hidle Hkey Htruthy Hfind Hnth Hrole Hscan Hprompt.
  rewrite (handleRegenerateResponse_resends messageId w messageIndex found target prompt)
    by assumption.
  set (w1 := setConversation
               (firstn messageIndex (currentConversation (state (appState w)))) w).
  assert (Hstate1 : state (appState w1)
                    = withConversation
                        (firstn messageIndex (currentConversation (state (appState w))))
                        (state (appState w)))
    by apply setConversation_state.
  destruct (handleSendMessage_appends (content prompt) w1 key)
    as [userId [thinkingId [t2 [t4 [Hconv _]]]]].
  - rewrite Hstate1. exact Hidle.
  - rewrite Hstate1. exact Hkey.
  - exact Htruthy.
  - exists userId, thinkingId, t2, t4. split.
    + rewrite Hconv, Hstate1. reflexivity.
    + destruct (lastUserBefore_nearest _ _ _ Hscan) as [Hlt _].
      rewrite nth_error_firstn.
      destruct (Nat.ltb_spec found messageIndex); [exact Hprompt | lia].
Qed.

(** C1, at the input where the code departs from it. The claim:
    regenerating the last model message of [user: "hi", model: "hello"]
    leaves, once the new reply is there, the two messages
    [user: "hi", model: <new reply>]. The scan, the cut just before the
    target and the re-send are as claimed
    ([lastUserBefore_nearest], [handleRegenerateResponse_resends],
    [handleRegenerateResponse_appends]); but the
    cut keeps the user message and the send path appends the content it is
    given as a new user message, so that three messages are left: the
    prompt twice, then the reply. *)
Theorem regenerate_repeats_the_prompt :
  currentConversation (state (appState (snd (handleRegenerateResponse "a1" greetedWorld))))
  = [ say "u1" user "hi";
      {| id := "user-1000"; role := user; content := [textOf "hi"];
         timestamp := 1001; meta := None |};
      {| id := "ai-thinking-1002"; role := model; content := [textOf ""];
         timestamp := 1003; meta := Some loadingMeta |} ]
  /\ currentConversation
       (state (appState
          (snd (thenSettled (handleRegenerateResponse "a1")
                  (fulfilled (Some [Some "hello again"])) greetedWorld))))
     = [ say "u1" user "hi";
         {| id := "user-1000"; role := user; content := [textOf "hi"];
            timestamp := 1001; meta := None |};
         {| id := "ai-thinking-1002"; role := model; content := [textOf "hello again"];
            timestamp := 1003; meta := Some settledMeta |} ]
  /\ isSending
       (state (appState
          (snd (thenSettled (handleRegenerateResponse "a1")
                  (fulfilled (Some [Some "hello again"])) greetedWorld))))
     = false
  /\ option_map contents (fst (handleRegenerateResponse "a1" greetedWorld))
     = Some [ {| turnRole := roleUser; parts := [textPart "hi"; textPart "hi"] |};
              {| turnRole := roleUser; parts := [textPart "hi"] |} ].
Proof. repeat split. Qed.

(* ------------------------------------------------------------------ *)
(** ** Save and start new *)

Lemma handleNewChatRequest_halves (saveCurrent : bool) (w : World) :
  handleNewChatRequest saveCurrent w
  = bind readState
      (fun s0 =>
         bind (if saveCurrent && (0 <? List.length (currentConversation s0))%nat
               then fileCurrentChat (currentConversation s0)
               else ret tt)
              (fun _ => startFresh)) w.
Proof. reflexivity. Qed.

Lemma callSubscribers_archive (subs : list Subscriber) :
  Forall preservesArchive subs ->
  forall position snapshot e,
    archivedChatsItem (localStorage (fst (callSubscribers subs position snapshot e)))
    = archivedChatsItem (localStorage e).
Proof.
  induction 1 as [| sub rest Hsub _ IH]; intros position snapshot e.
  - reflexivity.
  - rewrite callSubscribers_cons, IH.
    unfold afterCall. destruct (Hsub snapshot e) as [Hitem _].
    destruct (snd (sub snapshot e)); simpl; exact Hitem.
Qed.

Lemma updateState_archive (f : AppStateData -> AppStateData) (w : World) :
  Forall preservesArchive (subscribers (appState w)) ->
  archiveOf (updateState f w) = archiveOf w.
Proof.
  intros Htame. unfold archiveOf, updateState.
  rewrite notifyTrace_env. simpl.
  apply callSubscribers_archive. exact Htame.
Qed.

(** The fresh start: the old messages are gone, a notice is there, and a
    reminder when no key is set; the archive is not touched. *)
Lemma startFresh_spec (w : World) :
  Forall preservesArchive (subscribers (appState w)) ->
  let w' := snd (startFresh w) in
  map role (currentConversation (state (appState w')))
  = (if truthyOptString (apiKey (state (appState w))) then [system] else [system; system])
  /\ map content (currentConversation (state (appState w')))
     = [textOf "New chat started."]
       :: (if truthyOptString (apiKey (state (appState w))) then []
           else [[textOf "Remember to set your API key in Settings if you haven't already."]])
  /\ archiveOf w' = archiveOf w.
Proof.
  intros Htame. cbv zeta.
  unfold startFresh, bind, call, now, readState.
  set (w1 := clearConversation w).
  assert (Hsubs1 : subscribers (appState w1) = subscribers (appState w))
    by apply updateState_subscribers.
  assert (Harch1 : archiveOf w1 = archiveOf w)
    by (apply updateState_archive; exact Htame).
  assert (Hstate1 : state (appState w1) = withConversation [] (state (appState w)))
    by apply clearConversation_state.
  destruct (dateNow (env w1)) as [t3 e3] eqn:H3.
  destruct (dateNow (env (withEnv e3 w1))) as [t4 e4] eqn:H4.
  set (w2 := withEnv e4 (withEnv e3 w1)).
  assert (Hls2 : localStorage (env w2) = localStorage (env w1)).
  { unfold dateNow in H3, H4. injection H3 as _ <-. injection H4 as _ <-. reflexivity. }
  set (w3 := addMessage (systemNotice "sys-" t3 t4 "New chat started.") w2).
  assert (Hsubs3 : subscribers (appState w3) = subscribers (appState w)).
  { unfold w3, addMessage. rewrite updateState_subscribers. exact Hsubs1. }
  assert (Harch3 : archiveOf w3 = archiveOf w).
  { unfold w3, addMessage. rewrite updateState_archive.
    - unfold archiveOf. rewrite Hls2. exact Harch1.
    - simpl. rewrite Hsubs1. exact Htame. }
  assert (Hstate3 : state (appState w3)
                    = withError None
                        (withConversation [systemNotice "sys-" t3 t4 "New chat started."]
                           (state (appState w)))).
  { unfold w3. rewrite addMessage_state. simpl. rewrite Hstate1. reflexivity. }
  assert (Hkey3 : apiKey (getState (state (appState w3))) = apiKey (state (appState w))).
  { rewrite Hstate3. reflexivity. }
  rewrite Hkey3.
  destruct (truthyOptString (apiKey (state (appState w)))) eqn:Hkey; simpl.
  - rewrite closeConfirmModal_conversation, Hstate3.
    split; [reflexivity |]. split; [reflexivity |].
    unfold closeConfirmModal. rewrite updateState_archive; [exact Harch3 |].
    rewrite Hsubs3. exact Htame.
  - destruct (dateNow (env w3)) as [t5 e5] eqn:H5.
    destruct (dateNow (env (withEnv e5 w3))) as [t6 e6] eqn:H6.
    set (w4 := withEnv e6 (withEnv e5 w3)).
    assert (Hls4 : localStorage (env w4) = localStorage (env w3)).
    { unfold dateNow in H5, H6. injection H5 as _ <-. injection H6 as _ <-. reflexivity. }
    rewrite closeConfirmModal_conversation, addMessage_state.
    simpl. rewrite Hstate3. simpl.
    split; [reflexivity |]. split; [reflexivity |].
    unfold closeConfirmModal. rewrite updateState_archive.
    + unfold addMessage. rewrite updateState_archive.
      * exact Harch3.
      * simpl. rewrite Hsubs3. exact Htame.
    + unfold addMessage. rewrite updateState_subscribers. simpl.
      rewrite Hsubs3. exact Htame.
Qed.

Lemma archiveCollection_archiveOf (w w' : World) :
  archiveOf w' = archiveOf w -> archiveCollection (env w') = archiveCollection (env w).
Proof. unfold archiveOf, archiveCollection. intros ->. reflexivity. Qed.

(** The filing: one entry, holding the conversation, is put at the end of
    the archive when the storage takes the write; the store is not
    touched. *)
Lemma fileCurrentChat_spec (conv : list ChatMessage) (w : World) :
  (forall chats, setArchivedChats (localStorage (env w)) chats = stored) ->
  let w' := snd (fileCurrentChat conv w) in
  appState w' = appState w
  /\ map conversation (archiveCollection (env w'))
     = map conversation (archiveCollection (env w)) ++ [conv]
  /\ List.length (archiveCollection (env w')) = S (List.length (archiveCollection (env w))).
Proof.
  intros Hroom. cbv zeta.
  unfold fileCurrentChat.
  set (summaryOf := if truthyOptString (firstUserText conv)
                    then ret (orElse (firstUserText conv) "")
                    else bind today (fun d => ret ("Chat from " ++ d)%string)).
  unfold bind.
  assert (Hsummary : appState (snd (summaryOf w)) = appState w
                     /\ localStorage (env (snd (summaryOf w))) = localStorage (env w)).
  { unfold summaryOf. destruct (truthyOptString (firstUserText conv)).
    - split; reflexivity.
    - unfold bind, today, dateNow. simpl. split; reflexivity. }
  destruct (summaryOf w) as [chatSummary w0]. simpl in Hsummary.
  destruct Hsummary as [Happ0 Hls0].
  unfold bind, now, readState, onStorage, log, dateNow, archiveChat. simpl.
  unfold loadArchivedChats, saveArchivedChats, archiveCollection. simpl.
  rewrite Hls0.
  destruct (archivedChatsItem (localStorage (env w))) as [[chats |] |]; simpl.
  - rewrite Hls0, Hroom. simpl.
    split; [exact Happ0 |].
    rewrite map_app, length_app. simpl. split; [reflexivity | lia].
  - rewrite Hls0, Hroom. simpl.
    split; [exact Happ0 |]. split; reflexivity.
  - rewrite Hls0, Hroom. simpl.
    split; [exact Happ0 |]. split; reflexivity.
Qed.

(** C7, as the code has it. The claim: save-and-start-new on a non-empty
    conversation makes the archive one longer and leaves the list of
    messages empty; on an empty conversation the list is empty and the
    archive does not grow. In the code the archive behaves as claimed (one
    more entry, holding the conversation, when the storage takes the write
    and no subscriber rewrites the archive; no entry for an empty
    conversation), but the list of messages is not left empty: after the
    old messages are removed a system message "New chat started." is
    added, and a second one that reminds of the API key when none is
    set. *)
Theorem handleNewChatRequest_archives_then_greets (saveCurrent : bool) (w : World) :
  Forall preservesArchive (subscribers (appState w)) ->
  (forall chats, setArchivedChats (localStorage (env w)) chats = stored) ->
  let st := state (appState w) in
  let kept := saveCurrent && (0 <? List.length (currentConversation st))%nat in
  let w' := snd (handleNewChatRequest saveCurrent w) in
  List.length (archiveCollection (env w'))
  = ((if kept then 1 else 0) + List.length (archiveCollection (env w)))%nat
  /\ map conversation (archiveCollection (env w'))
     = map conversation (archiveCollection (env w))
       ++ (if kept then [currentConversation st] else [])
  /\ map role (currentConversation (state (appState w')))
     = (if truthyOptString (apiKey st) then [system] else [system; system])
  /\ map content (currentConversation (state (appState w')))
     = [textOf "New chat started."]
       :: (if truthyOptString (apiKey st) then []
           else [[textOf "Remember to set your API key in Settings if you haven't already."]]).
Proof.
  intros Htame Hroom. cbv zeta.
  assert (Hrun : snd (handleNewChatRequest saveCurrent w)
                 = snd (startFresh
                          (if saveCurrent
                              && (0 <? List.length (currentConversation (state (appState w))))%nat
                           then snd (fileCurrentChat (currentConversation (state (appState w))) w)
                           else w))).
  { rewrite handleNewChatRequest_halves. unfold bind, readState.
    change (currentConversation (getState (state (appState w))))
      with (currentConversation (state (appState w))).
    destruct (saveCurrent && (0 <? List.length (currentConversation (state (appState w))))%nat).
    - destruct (fileCurrentChat (currentConversation (state (appState w))) w). reflexivity.
    - reflexivity. }
  rewrite Hrun. clear Hrun.
  destruct (saveCurrent && (0 <? List.length (currentConversation (state (appState w))))%nat)
    eqn:Hkept.
  - destruct (fileCurrentChat_spec (currentConversation (state (appState w))) w Hroom)
      as [Happ [Hconv Hlen]].
    set (w1 := snd (fileCurrentChat (currentConversation (state (appState w))) w)) in *.
    assert (Htame1 : Forall preservesArchive (subscribers (appState w1)))
      by (rewrite Happ; exact Htame).
    destruct (startFresh_spec w1 Htame1) as [Hroles [Hcontents Harch]].
    rewrite (archiveCollection_archiveOf _ _ Harch).
    rewrite Hroles, Hcontents, Happ.
    repeat split; assumption.
  - destruct (startFresh_spec w Htame) as [Hroles [Hcontents Harch]].
    rewrite (archiveCollection_archiveOf _ _ Harch).
    rewrite Hroles, Hcontents, app_nil_r.
    repeat split.
Qed.

Lemma handleNewChatRequest_archives_then_greets_witness :
  List.length (archiveCollection (env (snd (handleNewChatRequest true greetedWorld)))) = 1%nat
  /\ map conversation
       (archiveCollection (env (snd (handleNewChatRequest true greetedWorld))))
     = [[say "u1" user "hi"; say "a1" model "hello"]]
  /\ map content
       (currentConversation
          (state (appState (snd (handleNewChatRequest true greetedWorld)))))
     = [[textOf "New chat started."]].
Proof.
  destruct (handleNewChatRequest_archives_then_greets true greetedWorld)
    as [Hlen [Hconv [_ Hcontent]]].
  - constructor.
  - intros chats. reflexivity.
  - split; [exact Hlen |]. split; [exact Hconv | exact Hcontent].
Defined.

(** C7 fails as stated: after save-and-start-new the list of messages is
    not empty, whether the conversation was empty or not. *)
Lemma handleNewChatRequest_leaves_a_notice :
  currentConversation (state (appState (snd (handleNewChatRequest true greetedWorld))))
  = [systemNotice "sys-" 1002 1003 "New chat started."]
  /\ List.length (archiveCollection (env (snd (handleNewChatRequest true greetedWorld))))
     = 1%nat
  /\ currentConversation
       (state (appState
          (snd (handleNewChatRequest true
                  (worldOf (withApiKey (Some "key") defaultState) [])))))
     = [systemNotice "sys-" 1000 1001 "New chat started."]
  /\ List.length
       (archiveCollection
          (env (snd (handleNewChatRequest true
                       (worldOf (withApiKey (Some "key") defaultState) [])))))
     = 0%nat.
Proof. repeat split. Qed.

(* ------------------------------------------------------------------ *)
(** ** A new chat while a request is in flight *)

Lemma closeConfirmModal_isSending (w : World) :
  isSending (state (appState (closeConfirmModal w))) = isSending (state (appState w)).
Proof. unfold closeConfirmModal, updateState. rewrite notify_state. reflexivity. Qed.

(** The fresh start does not look at [isSending] and leaves it as it
    is. *)
Lemma startFresh_state (w : World) :
  let w' := snd (startFresh w) in
  isSending (state (appState w')) = isSending (state (appState w))
  /\ map role (currentConversation (state (appState w')))
     = (if truthyOptString (apiKey (state (appState w))) then [system] else [system; system])
  /\ map content (currentConversation (state (appState w')))
     = [textOf "New chat started."]
       :: (if truthyOptString (apiKey (state (appState w))) then []
           else [[textOf "Remember to set your API key in Settings if you haven't already."]]).
Proof.
  cbv zeta.
  unfold startFresh, bind, call, now, readState.
  set (w1 := clearConversation w).
  assert (Hstate1 : state (appState w1) = withConversation [] (state (appState w)))
    by apply clearConversation_state.
  destruct (dateNow (env w1)) as [t3 e3].
  destruct (dateNow (env (withEnv e3 w1))) as [t4 e4].
  set (w2 := withEnv e4 (withEnv e3 w1)).
  set (w3 := addMessage (systemNotice "sys-" t3 t4 "New chat started.") w2).
  assert (Hstate3 : state (appState w3)
                    = withError None
                        (withConversation [systemNotice "sys-" t3 t4 "New chat started."]
                           (state (appState w)))).
  { unfold w3. rewrite addMessage_state. simpl. rewrite Hstate1. reflexivity. }
  assert (Hkey3 : apiKey (getState (state (appState w3))) = apiKey (state (appState w))).
  { rewrite Hstate3. reflexivity. }
  rewrite Hkey3.
  destruct (truthyOptString (apiKey (state (appState w)))) eqn:Hkey; simpl.
  - rewrite closeConfirmModal_isSending, closeConfirmModal_conversation, Hstate3.
    repeat split.
  - destruct (dateNow (env w3)) as [t5 e5].
    destruct (dateNow (env (withEnv e5 w3))) as [t6 e6].
    rewrite closeConfirmModal_isSending, closeConfirmModal_conversation, addMessage_state.
    simpl. rewrite Hstate3. repeat split.
Qed.

(** The filing of the current chat acts on the storage, the console and
    the clock: the store is as before. *)
Lemma fileCurrentChat_appState (conv : list ChatMessage) (w : World) :
  appState (snd (fileCurrentChat conv w)) = appState w.
Proof.
  unfold fileCurrentChat, bind.
  destruct (truthyOptString (firstUserText conv));
    unfold ret, today, now, readState, onStorage, log, bind; cbn;
    match goal with
    | |- context [archiveChat ?c ?e] => destruct (archiveChat c e)
    end; reflexivity.
Qed.

(** C9, as the code has it. While [isSending] is set, a send, a
    regeneration or an edit is turned away: the handler returns at once,
    with no request issued, and the world after it (conversation, every
    other field of the state, subscribers, page, storage, console, clock)
    is the world before it; so no run of these three gestures changes the
    conversation. Starting a new chat is not gated by [isSending]: with a
    request in flight it still replaces the conversation by its system
    notices, and leaves [isSending] set. *)
Theorem gestures_rejected_while_sending
    (w : World) (gestures : list Gesture) (saveCurrent : bool) :
  isSending (state (appState w)) = true ->
  (forall content, handleSendMessage content w = (None, w))
  /\ (forall messageId, handleRegenerateResponse messageId w = (None, w))
  /\ (forall messageId newContent,
        handleEditMessageRequest messageId newContent w = (None, w))
  /\ handleAll gestures w = w
  /\ isSending (state (appState (snd (handleNewChatRequest saveCurrent w)))) = true
  /\ map role (currentConversation
                 (state (appState (snd (handleNewChatRequest saveCurrent w)))))
     = (if truthyOptString (apiKey (state (appState w))) then [system] else [system; system])
  /\ map content (currentConversation
                    (state (appState (snd (handleNewChatRequest saveCurrent w)))))
     = [textOf "New chat started."]
       :: (if truthyOptString (apiKey (state (appState w))) then []
           else [[textOf "Remember to set your API key in Settings if you haven't already."]]).
Proof.
  intros Hbusy.
  split; [intros content; apply (handle_gated (sendMessage content) w Hbusy) |].
  split; [intros messageId; apply (handle_gated (regenerateResponse messageId) w Hbusy) |].
  split; [intros messageId newContent;
          apply (handle_gated (editMessageRequest messageId newContent) w Hbusy) |].
  split.
  { induction gestures as [| g rest IH]; simpl; [reflexivity |].
    rewrite (handle_gated g w Hbusy). exact IH. }
  rewrite handleNewChatRequest_halves, bind_readState.
  set (filing := if saveCurrent
                    && (0 <? List.length (currentConversation (getState (state (appState w)))))%nat
                 then fileCurrentChat (currentConversation (getState (state (appState w))))
                 else ret tt).
  assert (Hstore : appState (snd (filing w)) = appState w).
  { unfold filing. destruct (saveCurrent && _); [apply fileCurrentChat_appState | reflexivity]. }
  unfold bind. destruct (filing w) as [u w1]. cbn [snd] in Hstore.
  destruct (startFresh_state w1) as [Hsending [Hroles Hcontents]].
  rewrite Hstore in Hsending, Hroles, Hcontents.
  rewrite Hsending, Hroles, Hcontents, Hbusy. repeat split.
Qed.

Lemma gestures_rejected_while_sending_witness :
  isSending (state (appState busyWorld)) = true
  /\ handleSendMessage [textOf "again"] busyWorld = (None, busyWorld)
  /\ handleRegenerateResponse "ai-thinking-1" busyWorld = (None, busyWorld)
  /\ handleEditMessageRequest "u1" [textOf "hello"] busyWorld = (None, busyWorld)
  /\ handleAll [sendMessage [textOf "again"]; regenerateResponse "ai-thinking-1";
                editMessageRequest "u1" [textOf "hello"]] busyWorld
     = busyWorld.
Proof.
  destruct (gestures_rejected_while_sending busyWorld
              [sendMessage [textOf "again"]; regenerateResponse "ai-thinking-1";
               editMessageRequest "u1" [textOf "hello"]] false eq_refl)
    as [Hsend [Hregenerate [Hedit [Hall _]]]].
  split; [reflexivity |].
  split; [apply Hsend |].
  split; [apply Hregenerate |].
  split; [apply Hedit | exact Hall].
Defined.

(** C9 fails as stated: with a request in flight ([isSending] set, the
    pending message in the conversation) a new chat is started all the
    same. The conversation changes: the user message and the pending
    message are gone and a system notice stands in their place, while
    [isSending] is still set; the reply that arrives afterwards finds no
    pending message and is dropped. *)
Lemma new_chat_is_not_gated :
  isSending (state (appState busyWorld)) = true
  /\ map id (currentConversation (state (appState busyWorld))) = ["u1"; "ai-thinking-1"]
  /\ map content
       (currentConversation (state (appState (snd (handleNewChatRequest false busyWorld)))))
     = [[textOf "New chat started."]]
  /\ map role
       (currentConversation (state (appState (snd (handleNewChatRequest false busyWorld)))))
     = [system]
  /\ isSending (state (appState (snd (handleNewChatRequest false busyWorld)))) = true
  /\ map content
       (currentConversation
          (state (appState
             (snd (handleSendMessageSettled
                     {| aiThinkingMessageId := "ai-thinking-1"; requestModel := DEFAULT_MODEL;
                        contents := []; systemInstruction := None; requestKey := "key" |}
                     (fulfilled (Some [Some "hello"]))
                     (snd (handleNewChatRequest false busyWorld)))))))
     = [[textOf "New chat started."]].
Proof. repeat split. Qed.

(* ================================================================== *)
(** * Properties of the JSON round trip *)











(* ------------------------------------------------------------------ *)
(** ** The state object and its copy *)

Lemma thread_nil {A B : Type} (f : A -> Js.address -> B * Js.address) (n : Js.address) :
  Js.thread f [] n = ([], n).
Proof. reflexivity. Qed.



































(* ================================================================== *)
(** * Further properties of the turn compiler *)

(** X1. Whatever the messages, no two adjacent turns of the compiled
    history have the same role. *)
Theorem compiled_turns_alternate (messages : list ChatMessage) :
  alternating (map turnRole (buildGeminiHistory messages)).
Proof. apply buildGeminiHistory_alternating. Qed.

Lemma visit_rolesSoFar_length (b : Builder) (msg : ChatMessage) :
  orderly b ->
  (List.length (rolesSoFar (visit b msg))
   <= List.length (rolesSoFar b) + (if participates msg then 1 else 0))%nat.
Proof.
  intros [_ Hnone]. unfold visit. rewrite skipped_participates.
  destruct (participates msg); simpl; [| lia].
  destruct (asGeminiRole (role msg)) as [g |]; [| lia].
  unfold rolesSoFar.
  destruct (currentRole b) as [r |]; simpl.
  - destruct (GeminiRole_eqb r g); simpl; rewrite ?map_app, ?length_app; simpl; lia.
  - rewrite Hnone by reflexivity. simpl. lia.
Qed.

Lemma fold_visit_rolesSoFar_length (messages : list ChatMessage) :
  forall b,
    orderly b ->
    (List.length (rolesSoFar (fold_left visit messages b))
     <= List.length (rolesSoFar b) + List.length (filter participates messages))%nat.
Proof.
  induction messages as [| msg rest IH]; intros b Hb; simpl; [lia |].
  specialize (IH (visit b msg) (visit_orderly b msg Hb)).
  pose proof (visit_rolesSoFar_length b msg Hb) as Hstep.
  destruct (participates msg); simpl; lia.
Qed.

Lemma finish_length (b : Builder) :
  (List.length (finish b) <= List.length (rolesSoFar b))%nat.
Proof.
  unfold finish, rolesSoFar. rewrite length_app, length_map.
  destruct (currentRole b) as [r |]; [| simpl; lia].
  destruct (currentParts b); rewrite ?length_app; simpl; lia.
Qed.

(** X2. The compiled history has at most as many turns as there are
    final user and model messages; with none of them, it is empty. *)
Theorem compiled_turns_bounded (messages : list ChatMessage) :
  (List.length (buildGeminiHistory messages)
   <= List.length (filter participates messages))%nat
  /\ (filter participates messages = [] -> buildGeminiHistory messages = []).
Proof.
  assert (Hbound : (List.length (buildGeminiHistory messages)
                    <= List.length (filter participates messages))%nat).
  { unfold buildGeminiHistory.
    assert (H0 : orderly emptyBuilder) by (split; [exact I | reflexivity]).
    pose proof (fold_visit_rolesSoFar_length messages emptyBuilder H0) as Hfold.
    pose proof (finish_length (fold_left visit messages emptyBuilder)) as Hfinish.
    simpl in Hfold. lia. }
  split; [exact Hbound |].
  intros Hnone. rewrite Hnone in Hbound. simpl in Hbound.
  destruct (buildGeminiHistory messages); [reflexivity | simpl in Hbound; lia].
Qed.

Lemma compiled_turns_bounded_witness :
  filter participates [say "0" system "Welcome!"; awaited "1"] = []
  /\ buildGeminiHistory [say "0" system "Welcome!"; awaited "1"] = [].
Proof.
  split; [reflexivity |].
  apply (compiled_turns_bounded [say "0" system "Welcome!"; awaited "1"]).
  reflexivity.
Defined.

(** X3. The parts of the compiled turns, read in order, are the parts
    that the final user and model messages yield, in the order of the
    messages: the compilation loses, repeats and reorders nothing. *)
Theorem compiled_parts_conserved (messages : list ChatMessage) :
  flat_map parts (buildGeminiHistory messages)
  = flat_map historyParts (filter participates messages).
Proof. apply buildGeminiHistory_parts. Qed.

Lemma historyParts_text (msg : ChatMessage) :
  (exists p, In p (content msg) /\ type p = text) -> historyParts msg <> [].
Proof.
  intros [p [Hin Htext]]. unfold historyParts.
  induction (content msg) as [| q rest IH]; [destruct Hin |].
  simpl. destruct Hin as [-> | Hin].
  - unfold historyPart. rewrite Htext. discriminate.
  - intros Hnil. apply app_eq_nil in Hnil. destruct Hnil as [_ Hrest].
    exact (IH Hin Hrest).
Qed.

(** X4. When every final user or model message carries a text part, no
    compiled turn has an empty list of parts. *)
Theorem compiled_turns_nonempty (messages : list ChatMessage) :
  Forall (fun msg => participates msg = true ->
                     exists p, In p (content msg) /\ type p = text) messages ->
  noEmptyTurn (buildGeminiHistory messages).
Proof.
  intros Hall. apply buildGeminiHistory_noEmptyTurn.
  eapply Forall_impl; [| exact Hall].
  intros msg Hmsg Hp. apply historyParts_text, Hmsg, Hp.
Qed.

Lemma compiled_turns_nonempty_witness :
  noEmptyTurn (buildGeminiHistory [say "1" user "a"; say "2" model "b"]).
Proof.
  apply (compiled_turns_nonempty [say "1" user "a"; say "2" model "b"]).
  apply Forall_cons.
  - intros _. exists (textOf "a"). split; [left; reflexivity | reflexivity].
  - apply Forall_cons; [| apply Forall_nil].
    intros _. exists (textOf "b"). split; [left; reflexivity | reflexivity].
Defined.

Lemma split_nonempty (sep : ascii) (s : string) : split sep s <> [].
Proof.
  destruct s as [| c rest]; simpl; [discriminate |].
  destruct (Ascii.eqb c sep); [discriminate |].
  destruct (split sep rest); discriminate.
Qed.

Lemma split_clean (sep : ascii) (s : string) :
  Forall (fun piece => occursIn sep piece = false) (split sep s).
Proof.
  induction s as [| c rest IH]; simpl.
  - constructor; [reflexivity | constructor].
  - destruct (Ascii.eqb c sep) eqn:Hc.
    + constructor; [reflexivity | exact IH].
    + destruct (split sep rest) as [| h t]; inversion IH; subst.
      * constructor; [simpl; rewrite Hc; reflexivity | constructor].
      * constructor; [simpl; rewrite Hc; assumption | assumption].
Qed.

Lemma split_whole (sep : ascii) (s : string) :
  occursIn sep s = false -> split sep s = [s].
Proof.
  induction s as [| c rest IH]; simpl; [reflexivity |].
  destruct (Ascii.eqb c sep); simpl; [discriminate |].
  intros H. rewrite IH by exact H. reflexivity.
Qed.

(** X5. A content part yields at most one part of a turn. A text part
    yields its text as it is. An image part yields an inline part only
    with a non-empty mime type, and then the data carried is what stands
    between the first and the second comma of the data URL: it is not
    empty and holds no comma, so the prefix of the URL is never sent; a
    data URL without a comma yields nothing. *)
Theorem historyPart_cases (part : UserMessageContentPart) :
  (List.length (historyPart part) <= 1)%nat
  /\ (type part = text -> historyPart part = [textPart (data part)])
  /\ (forall m payload,
        In (inlineData m payload) (historyPart part) ->
        type part = image
        /\ m = mimeType part /\ truthyOptString m = true
        /\ exists base64Data,
             payload = Some base64Data
             /\ nth_error (split comma (data part)) 1 = Some base64Data
             /\ truthyString base64Data = true
             /\ occursIn comma base64Data = false)
  /\ (type part = image -> occursIn comma (data part) = false -> historyPart part = []).
Proof.
  unfold historyPart.
  destruct (type part) eqn:Htype.
  - split; [simpl; lia |]. split; [reflexivity |].
    split; [| discriminate].
    intros m payload [H | []]. discriminate.
  - split.
    { destruct (truthyOptString (mimeType part) && truthyString (data part)); [| simpl; lia].
      destruct (nth_error (split comma (data part)) 1) as [b |]; [| simpl; lia].
      destruct (truthyString b); simpl; lia. }
    split; [discriminate |].
    split.
    + intros m payload Hin.
      destruct (truthyOptString (mimeType part)) eqn:Hmime; cbn [andb] in Hin;
        [| destruct Hin].
      destruct (truthyString (data part)); [| destruct Hin].
      destruct (nth_error (split comma (data part)) 1) as [b |] eqn:Hnth; [| destruct Hin].
      destruct (truthyString b) eqn:Hb; [| destruct Hin].
      destruct Hin as [Heq | []]. injection Heq as <- <-.
      split; [reflexivity |]. split; [reflexivity |]. split; [exact Hmime |].
      exists b. split; [reflexivity |]. split; [reflexivity |]. split; [exact Hb |].
      pose proof (split_clean comma (data part)) as Hclean.
      rewrite Forall_forall in Hclean. apply Hclean.
      eapply nth_error_In. exact Hnth.
    + intros _ Hcomma. rewrite (split_whole comma (data part) Hcomma). simpl.
      destruct (truthyOptString (mimeType part) && truthyString (data part)); reflexivity.
Qed.

Lemma historyPart_cases_witness :
  historyPart {| type := image; data := "data:image/png;base64"; mimeType := Some "image/png" |}
  = [].
Proof.
  apply (historyPart_cases
           {| type := image; data := "data:image/png;base64"; mimeType := Some "image/png" |});
    reflexivity.
Defined.

(* ================================================================== *)
(** * Further properties of the send path *)

Lemma setError_state (e : option string) (w : World) :
  state (appState (setError e w)) = withError e (state (appState w)).
Proof.
  unfold setError.
  apply (updateState_state (fun s => withError e s) w).
  intros s a. reflexivity.
Qed.

Lemma updateMessage_state (messageId : string) (updates : MessageUpdates) (w : World) :
  state (appState (updateMessage messageId updates w))
  = withConversation
      (mergeInto messageId updates (currentConversation (state (appState w))))
      (state (appState w)).
Proof. rewrite updateMessage_notify, notify_state. reflexivity. Qed.

Lemma removelast_snoc {A : Type} (l : list A) (x : A) : removelast (l ++ [x]) = l.
Proof. apply removelast_last. Qed.

(** The run of [handleSendMessage] with a key set and no request in
    flight, in full. *)
Lemma handleSendMessage_run
    (newContent : list UserMessageContentPart) (w : World) (key : string) :
  isSending (state (appState w)) = false ->
  apiKey (state (appState w)) = Some key ->
  truthyString key = true ->
  exists t1 t2 t3 t4 w',
    handleSendMessage newContent w
    = (Some {| aiThinkingMessageId := ("ai-thinking-" ++ showZ t3)%string;
               requestModel := selectedModel (state (appState w));
               contents :=
                 buildGeminiHistory
                   (currentConversation (state (appState w))
                    ++ [sentMessage t1 t2 newContent])
                 ++ [{| turnRole := roleUser; parts := map requestPart newContent |}];
               systemInstruction :=
                 if truthyString (customInstructions (state (appState w)))
                 then Some (customInstructions (state (appState w)))
                 else None;
               requestKey := key |}, w')
    /\ state (appState w')
       = withError None
           (withIsSending true
              (withConversation
                 (currentConversation (state (appState w))
                  ++ [sentMessage t1 t2 newContent; placeholder t3 t4])
                 (state (appState w))))
    /\ subscribers (appState w') = subscribers (appState w).
Proof.
  intros Hidle Hkey Htruthy.
  unfold handleSendMessage, bind, readState, call, now, callBuildGeminiHistory, ret.
  cbn [isSending apiKey getState withConfirmModalAction withConfirmModal].
  rewrite Hidle, Hkey, Htruthy.
  destruct (dateNow (env w)) as [t1 e1].
  destruct (dateNow (env (withEnv e1 w))) as [t2 e2].
  fold (sentMessage t1 t2 newContent).
  set (w1 := addMessage (sentMessage t1 t2 newContent) (withEnv e2 (withEnv e1 w))).
  set (w2 := setIsSending true w1).
  destruct (dateNow (env w2)) as [t3 e3].
  destruct (dateNow (env (withEnv e3 w2))) as [t4 e4].
  change {| id := ("ai-thinking-" ++ showZ t3)%string; role := model;
            content := [textOf ""]; timestamp := t4;
            meta := Some {| isLoading := Some true; error := None; edited := None;
                            regenerated := None; originalMessageId := None |} |}
    with (placeholder t3 t4).
  set (w3 := addMessage (placeholder t3 t4) (withEnv e4 (withEnv e3 w2))).
  assert (Hstate1 : state (appState w1)
                    = withError None
                        (withConversation
                           (currentConversation (state (appState w))
                            ++ [sentMessage t1 t2 newContent]) (state (appState w))))
    by (unfold w1; rewrite addMessage_state; reflexivity).
  assert (Hstate2 : state (appState w2) = withIsSending true (state (appState w1)))
    by (unfold w2; apply setIsSending_state).
  assert (Hstate3 : state (appState w3)
                    = withError None
                        (withIsSending true
                           (withConversation
                              (currentConversation (state (appState w))
                               ++ [sentMessage t1 t2 newContent; placeholder t3 t4])
                              (state (appState w))))).
  { unfold w3. rewrite addMessage_state. cbn [appState state withEnv].
    rewrite Hstate2, Hstate1.
    cbn [currentConversation withError withConversation withIsSending].
    rewrite <- app_assoc. reflexivity. }
  exists t1, t2, t3, t4, w3.
  split; [| split; [exact Hstate3 |]].
  - rewrite Hstate3.
    cbn [getState withConfirmModalAction withConfirmModal
         currentConversation selectedModel customInstructions
         withError withConversation withIsSending].
    change (currentConversation (state (appState w))
            ++ [sentMessage t1 t2 newContent; placeholder t3 t4])
      with (currentConversation (state (appState w))
            ++ [sentMessage t1 t2 newContent] ++ [placeholder t3 t4]).
    rewrite app_assoc, removelast_snoc. reflexivity.
  - unfold w3, addMessage. rewrite updateState_subscribers. cbn [appState subscribers withEnv].
    unfold w2, setIsSending. rewrite updateState_subscribers.
    unfold w1, addMessage. rewrite updateState_subscribers. reflexivity.
Qed.

Lemma reportMissingKey_run (w : World) :
  exists t1 t2 w',
    reportMissingKey w = (None, w')
    /\ state (appState w')
       = withError None
           (withConversation
              (currentConversation (state (appState w)) ++ [missingKeyMessage t1 t2])
              (state (appState w))).
Proof.
  unfold reportMissingKey, bind, call, now, ret.
  set (w1 := setError (Some "API Key not set. Please configure it in Settings.") w).
  destruct (dateNow (env w1)) as [t1 e1].
  destruct (dateNow (env (withEnv e1 w1))) as [t2 e2].
  fold (missingKeyMessage t1 t2).
  exists t1, t2. eexists. split; [reflexivity |].
  rewrite addMessage_state. cbn [appState state withEnv].
  unfold w1. rewrite setError_state.
  destruct (state (appState w)); reflexivity.
Qed.

(** X6. Without an API key (none, or the empty string) and with no
    request in flight, [handleSendMessage] issues no request: it appends
    one system message that reports the missing key, which carries
    [meta.error] and is therefore kept out of the compiled history, and
    leaves [isSending] unset. The error that [setError] stored is gone
    again at the end, since adding the message clears [currentError]. *)
Theorem send_without_key_reports
    (newContent : list UserMessageContentPart) (w : World) :
  isSending (state (appState w)) = false ->
  truthyOptString (apiKey (state (appState w))) = false ->
  exists t1 t2 w',
    handleSendMessage newContent w = (None, w')
    /\ currentConversation (state (appState w'))
       = currentConversation (state (appState w)) ++ [missingKeyMessage t1 t2]
    /\ participates (missingKeyMessage t1 t2) = false
    /\ isSending (state (appState w')) = false
    /\ currentError (state (appState w')) = None
    /\ buildGeminiHistory (currentConversation (state (appState w')))
       = buildGeminiHistory (currentConversation (state (appState w))).
Proof.
  intros Hidle Hkey.
  destruct (reportMissingKey_run w) as [t1 [t2 [w' [Hrun Hstate]]]].
  exists t1, t2, w'.
  assert (Hhandler : handleSendMessage newContent w = (None, w')).
  { unfold handleSendMessage, bind, readState.
    cbn [isSending apiKey getState withConfirmModalAction withConfirmModal].
    rewrite Hidle.
    destruct (apiKey (state (appState w))) as [key |]; [| exact Hrun].
    simpl in Hkey. rewrite Hkey. exact Hrun. }
  split; [exact Hhandler |].
  rewrite Hstate.
  cbn [currentConversation isSending currentError withError withConversation].
  split; [reflexivity |]. split; [reflexivity |]. split; [exact Hidle |].
  split; [reflexivity |].
  rewrite (buildGeminiHistory_filter (_ ++ _)), filter_app. simpl.
  rewrite app_nil_r. symmetry. apply buildGeminiHistory_filter.
Qed.

Lemma send_without_key_reports_witness :
  exists t1 t2 w',
    handleSendMessage [textOf "hi"] (worldOf defaultState []) = (None, w')
    /\ currentConversation (state (appState w')) = [missingKeyMessage t1 t2].
Proof.
  destruct (send_without_key_reports [textOf "hi"] (worldOf defaultState []) eq_refl eq_refl)
    as [t1 [t2 [w' [Hrun [Hconv _]]]]].
  exists t1, t2, w'. split; [exact Hrun | exact Hconv].
Defined.

(** X7. With a key set and no request in flight, [handleSendMessage]
    appends the content as a new final user message and, after it, a
    pending model message; it sets [isSending] and issues one request,
    which names the pending message. The request is built from the
    conversation that already holds the new user message, and ends with a
    user turn made of the same content again: what is sent upstream
    carries the prompt twice. *)
Theorem send_appends_and_requests
    (newContent : list UserMessageContentPart) (w : World) (key : string) :
  isSending (state (appState w)) = false ->
  apiKey (state (appState w)) = Some key ->
  truthyString key = true ->
  exists userMessage pendingMessage request w',
    handleSendMessage newContent w = (Some request, w')
    /\ currentConversation (state (appState w'))
       = currentConversation (state (appState w)) ++ [userMessage; pendingMessage]
    /\ role userMessage = user /\ content userMessage = newContent
    /\ status userMessage = final
    /\ role pendingMessage = model /\ status pendingMessage = pending
    /\ id pendingMessage = aiThinkingMessageId request
    /\ isSending (state (appState w')) = true
    /\ contents request
       = buildGeminiHistory (currentConversation (state (appState w)) ++ [userMessage])
         ++ [{| turnRole := roleUser; parts := map requestPart newContent |}]
    /\ requestKey request = key
    /\ requestModel request = selectedModel (state (appState w)).
Proof.
  intros Hidle Hkey Htruthy.
  destruct (handleSendMessage_run newContent w key Hidle Hkey Htruthy)
    as [t1 [t2 [t3 [t4 [w' [Hrun [Hstate _]]]]]]].
  exists (sentMessage t1 t2 newContent), (placeholder t3 t4).
  eexists. exists w'.
  split; [exact Hrun |].
  rewrite Hstate. repeat split.
Qed.

Lemma send_appends_and_requests_witness :
  exists userMessage pendingMessage request w',
    handleSendMessage [textOf "again"] greetedWorld = (Some request, w')
    /\ currentConversation (state (appState w'))
       = [say "u1" user "hi"; say "a1" model "hello"; userMessage; pendingMessage]
    /\ contents request
       = buildGeminiHistory [say "u1" user "hi"; say "a1" model "hello"; userMessage]
         ++ [{| turnRole := roleUser; parts := [textPart "again"] |}].
Proof.
  destruct (send_appends_and_requests [textOf "again"] greetedWorld "key"
              eq_refl eq_refl eq_refl)
    as [userMessage [pendingMessage [request [w' [Hrun [Hconv [_ [_ [_ [_ [_ [_ [_ [Hreq _]]]]]]]]]]]]]].
  exists userMessage, pendingMessage, request, w'.
  split; [exact Hrun |]. split; [exact Hconv | exact Hreq].
Defined.

Lemma handleSendMessageSettled_state (request : Request) (result : Settled) (w : World) :
  state (appState (snd (handleSendMessageSettled request result w)))
  = match result with
    | fulfilled firstCandidateParts =>
        withIsSending false
          (withConversation
             (mergeInto (aiThinkingMessageId request) (replyPatch firstCandidateParts)
                (currentConversation (state (appState w))))
             (state (appState w)))
    | rejected message =>
        withIsSending false
          (withError (Some (failureText message))
             (withConversation
                (mergeInto (aiThinkingMessageId request) (failurePatch message)
                   (currentConversation (state (appState w))))
                (state (appState w))))
    end.
Proof.
  destruct result as [ps | message];
    unfold handleSendMessageSettled, bind, call, log; cbn [snd].
  - rewrite setIsSending_state, updateMessage_state. reflexivity.
  - rewrite setIsSending_state, setError_state, updateMessage_state. reflexivity.
Qed.

Lemma mergeInto_length (messageId : string) (updates : MessageUpdates)
    (conv : list ChatMessage) :
  List.length (mergeInto messageId updates conv) = List.length conv.
Proof. unfold mergeInto. apply length_map. Qed.

Lemma mergeInto_others (messageId : string) (updates : MessageUpdates)
    (conv : list ChatMessage) (i : nat) (msg : ChatMessage) :
  nth_error conv i = Some msg -> id msg <> messageId ->
  nth_error (mergeInto messageId updates conv) i = Some msg.
Proof.
  intros Hnth Hother. unfold mergeInto.
  rewrite nth_error_map, Hnth. simpl.
  destruct (String.eqb_spec (id msg) messageId); [contradiction | reflexivity].
Qed.

(** X8. When the request settles, with a reply or with an error,
    [isSending] is cleared and the conversation keeps its length and its
    messages of other ids, each at its place; if the pending message is no
    longer in the conversation (a new chat was started meanwhile), the
    conversation is left as it is and the reply is dropped. *)
Theorem settling_clears_isSending (request : Request) (result : Settled) (w : World) :
  let before := currentConversation (state (appState w)) in
  let after :=
    currentConversation (state (appState (snd (handleSendMessageSettled request result w)))) in
  isSending (state (appState (snd (handleSendMessageSettled request result w)))) = false
  /\ List.length after = List.length before
  /\ (forall i msg, nth_error before i = Some msg ->
                    id msg <> aiThinkingMessageId request ->
                    nth_error after i = Some msg)
  /\ (occurrences (aiThinkingMessageId request) before = 0%nat -> after = before).
Proof.
  cbv zeta. rewrite handleSendMessageSettled_state.
  destruct result as [ps | message];
    cbn [isSending currentConversation withIsSending withError withConversation];
    (split; [reflexivity |]);
    (split; [apply mergeInto_length |]);
    (split; [intros i msg; apply mergeInto_others | apply mergeInto_absent]).
Qed.

Lemma settling_clears_isSending_witness :
  currentConversation
    (state (appState
       (snd (handleSendMessageSettled
               {| aiThinkingMessageId := "ai-thinking-9"; requestModel := DEFAULT_MODEL;
                  contents := []; systemInstruction := None; requestKey := "key" |}
               (fulfilled (Some [Some "late"])) busyWorld))))
  = currentConversation (state (appState busyWorld)).
Proof.
  apply (settling_clears_isSending
           {| aiThinkingMessageId := "ai-thinking-9"; requestModel := DEFAULT_MODEL;
              contents := []; systemInstruction := None; requestKey := "key" |}
           (fulfilled (Some [Some "late"])) busyWorld).
  reflexivity.
Defined.

Lemma failureText_truthy (message : option string) : truthyString (failureText message) = true.
Proof.
  unfold failureText. destruct message as [m |]; simpl; [| reflexivity].
  destruct (truthyString m) eqn:Hm; [exact Hm | reflexivity].
Qed.

(** X9. When the request fails, the error message (that of the error, or
    "Failed to get response from AI." when it has none) is stored in
    [currentError], and every message with the id of the pending message
    becomes a failed one: it is no longer loading, it carries the error,
    and it stays out of every history compiled afterwards. *)
Theorem failed_request_marks_placeholder
    (request : Request) (message : option string) (w : World) :
  let w' := snd (handleSendMessageSettled request (rejected message) w) in
  currentError (state (appState w')) = Some (failureText message)
  /\ truthyString (failureText message) = true
  /\ isSending (state (appState w')) = false
  /\ Forall (fun msg =>
               id msg = aiThinkingMessageId request ->
               status msg = failed
               /\ participates msg = false
               /\ content msg = [textOf ("Error: " ++ failureText message)%string])
       (currentConversation (state (appState w'))).
Proof.
  cbv zeta. rewrite handleSendMessageSettled_state.
  cbn [isSending currentError currentConversation withIsSending withError withConversation].
  split; [reflexivity |]. split; [apply failureText_truthy |]. split; [reflexivity |].
  apply Forall_forall. intros msg Hin Hid.
  unfold mergeInto in Hin. apply in_map_iff in Hin.
  destruct Hin as [old [Hmerged Hold]].
  destruct (String.eqb_spec (id old) (aiThinkingMessageId request)) as [Hsame | Hother].
  - subst msg. pose proof (failureText_truthy message) as Htruthy.
    unfold participates, status, metaIsLoading, metaError.
    cbn [mergeMessage resolveUpdates failurePatch metaPatch meta content
         patchMeta patchContent orElse spreadMeta isLoading error orKeep
         truthyOptBool truthyOptString].
    rewrite Htruthy. rewrite andb_false_r. repeat split.
  - subst msg. contradiction.
Qed.

Lemma failed_request_marks_placeholder_witness :
  currentConversation
    (state (appState
       (snd (handleSendMessageSettled
               {| aiThinkingMessageId := "ai-thinking-1"; requestModel := DEFAULT_MODEL;
                  contents := []; systemInstruction := None; requestKey := "key" |}
               (rejected None) busyWorld))))
  = [ say "u1" user "hi";
      {| id := "ai-thinking-1"; role := model;
         content := [textOf "Error: Failed to get response from AI."]; timestamp := 0;
         meta := Some {| isLoading := Some false;
                         error := Some "Failed to get response from AI.";
                         edited := None; regenerated := None;
                         originalMessageId := None |} |} ]
  /\ currentError
       (state (appState
          (snd (handleSendMessageSettled
                  {| aiThinkingMessageId := "ai-thinking-1"; requestModel := DEFAULT_MODEL;
                     contents := []; systemInstruction := None; requestKey := "key" |}
                  (rejected None) busyWorld))))
     = Some "Failed to get response from AI.".
Proof.
  destruct (failed_request_marks_placeholder
              {| aiThinkingMessageId := "ai-thinking-1"; requestModel := DEFAULT_MODEL;
                 contents := []; systemInstruction := None; requestKey := "key" |}
              None busyWorld) as [Herror _].
  split; [reflexivity | exact Herror].
Defined.

Lemma mergeInto_app (messageId : string) (updates : MessageUpdates)
    (a b : list ChatMessage) :
  mergeInto messageId updates (a ++ b)
  = mergeInto messageId updates a ++ mergeInto messageId updates b.
Proof. unfold mergeInto. apply map_app. Qed.

Lemma occurrences_none (i : string) (conv : list ChatMessage) :
  (forall msg, In msg conv -> id msg <> i) -> occurrences i conv = 0%nat.
Proof.
  intros Hnone. apply occurrences_zero. intros Hin.
  apply in_map_iff in Hin. destruct Hin as [msg [Hid Hmsg]].
  exact (Hnone msg Hmsg Hid).
Qed.

(** X10. A send followed by the arrival of the reply, from a state with a
    key and no request in flight, in a conversation where no id has the
    form of a placeholder id: the conversation ends with the new user
    message and the reply as a final model message, after the messages it
    had, and [isSending] is cleared again. *)
Theorem send_then_reply
    (newContent : list UserMessageContentPart)
    (firstCandidateParts : option (list (option string))) (w : World) (key : string) :
  isSending (state (appState w)) = false ->
  apiKey (state (appState w)) = Some key ->
  truthyString key = true ->
  (forall msg t, In msg (currentConversation (state (appState w))) ->
                 id msg <> ("ai-thinking-" ++ showZ t)%string) ->
  exists t1 t2 t3 t4,
    let w' :=
      snd (thenSettled (handleSendMessage newContent) (fulfilled firstCandidateParts) w) in
    currentConversation (state (appState w'))
    = currentConversation (state (appState w))
      ++ [sentMessage t1 t2 newContent; reply t3 t4 firstCandidateParts]
    /\ status (reply t3 t4 firstCandidateParts) = final
    /\ isSending (state (appState w')) = false.
Proof.
  intros Hidle Hkey Htruthy Hids.
  destruct (handleSendMessage_run newContent w key Hidle Hkey Htruthy)
    as [t1 [t2 [t3 [t4 [w1 [Hrun [Hstate _]]]]]]].
  exists t1, t2, t3, t4. cbv zeta.
  unfold thenSettled. rewrite Hrun.
  rewrite handleSendMessageSettled_state, Hstate.
  cbn [aiThinkingMessageId isSending currentConversation
       withIsSending withError withConversation].
  split; [| split; reflexivity].
  rewrite mergeInto_app.
  rewrite mergeInto_absent
    by (apply occurrences_none; intros msg Hin; apply (Hids msg t3 Hin)).
  f_equal. unfold mergeInto. cbn [map sentMessage placeholder id].
  assert (Huser : String.eqb ("user-" ++ showZ t1) ("ai-thinking-" ++ showZ t3) = false)
    by reflexivity.
  rewrite Huser, String.eqb_refl. reflexivity.
Qed.

Lemma send_then_reply_witness :
  exists t1 t2 t3 t4,
    currentConversation
      (state (appState
         (snd (thenSettled (handleSendMessage [textOf "again"])
                 (fulfilled (Some [Some "sure"])) greetedWorld))))
    = [say "u1" user "hi"; say "a1" model "hello";
       sentMessage t1 t2 [textOf "again"]; reply t3 t4 (Some [Some "sure"])].
Proof.
  destruct (send_then_reply [textOf "again"] (Some [Some "sure"]) greetedWorld "key"
              eq_refl eq_refl eq_refl)
    as [t1 [t2 [t3 [t4 [Hconv _]]]]].
  - intros msg t [<- | [<- | []]]; discriminate.
  - exists t1, t2, t3, t4. exact Hconv.
Defined.

(* ================================================================== *)
(** * Further properties of regeneration and editing *)

(** X11. A regeneration that cannot go ahead, because no message has the
    id, or the message is not a model message, or no user message stands
    before it, issues no request and leaves the store as it is: only an
    error is written to the console. *)
Theorem regenerate_refused (messageId : string) (w : World) :
  isSending (state (appState w)) = false ->
  (match findIndex (fun msg => String.eqb (id msg) messageId)
           (currentConversation (state (appState w))) with
   | None => True
   | Some messageIndex =>
       match nth_error (currentConversation (state (appState w))) messageIndex with
       | None => True
       | Some target =>
           role target <> model
           \/ lastUserBefore (currentConversation (state (appState w))) messageIndex = None
       end
   end) ->
  fst (handleRegenerateResponse messageId w) = None
  /\ appState (snd (handleRegenerateResponse messageId w)) = appState w
  /\ localStorage (env (snd (handleRegenerateResponse messageId w))) = localStorage (env w)
  /\ exists text,
       console (env (snd (handleRegenerateResponse messageId w)))
       = console (env w) ++ [{| level := levelError; message := text; detail := None |}].
Proof.
  intros Hidle Hcause.
  unfold handleRegenerateResponse. rewrite bind_readState, isSending_getState, Hidle.
  rewrite bind_readState.
  change (currentConversation (getState (state (appState w))))
    with (currentConversation (state (appState w))).
  destruct (findIndex _ (currentConversation (state (appState w))))
    as [messageIndex |] eqn:Hfind.
  - destruct (findIndex_Some _ _ _ Hfind) as [target [Hnth _]].
    rewrite Hnth in Hcause |- *.
    destruct (Role_eqb_spec (role target) model) as [Hmodel | Hother]; cbn [negb].
    + destruct Hcause as [Hrole | Hscan]; [contradiction |].
      rewrite Hscan. repeat split. eexists. reflexivity.
    + repeat split. eexists. reflexivity.
  - repeat split. eexists. reflexivity.
Qed.

Lemma regenerate_refused_witness :
  fst (handleRegenerateResponse "u1" greetedWorld) = None
  /\ appState (snd (handleRegenerateResponse "u1" greetedWorld)) = appState greetedWorld.
Proof.
  destruct (regenerate_refused "u1" greetedWorld eq_refl) as [Hnone [Hstore _]].
  - simpl. left. discriminate.
  - split; [exact Hnone | exact Hstore].
Defined.

(** X12. A regeneration that goes ahead, with a key set: the messages
    before the target stay, the nearest user message among them; the
    target and everything after it go; the content of that user message is
    appended once more as a new user message, then the pending reply. The
    conversation is then one longer than the index of the target plus
    one. *)
Theorem regenerate_truncates_and_repeats
    (messageId : string) (w : World) (key : string) (messageIndex found : nat)
    (target prompt : ChatMessage) :
  isSending (state (appState w)) = false ->
  apiKey (state (appState w)) = Some key ->
  truthyString key = true ->
  findIndex (fun msg => String.eqb (id msg) messageId)
    (currentConversation (state (appState w))) = Some messageIndex ->
  nth_error (currentConversation (state (appState w))) messageIndex = Some target ->
  role target = model ->
  lastUserBefore (currentConversation (state (appState w))) messageIndex = Some found ->
  nth_error (currentConversation (state (appState w))) found = Some prompt ->
  exists userMessage pendingMessage,
    currentConversation (state (appState (snd (handleRegenerateResponse messageId w))))
    = firstn messageIndex (currentConversation (state (appState w)))
      ++ [userMessage; pendingMessage]
    /\ content userMessage = content prompt /\ role userMessage = user
    /\ role pendingMessage = model /\ status pendingMessage = pending
    /\ nth_error (firstn messageIndex (currentConversation (state (appState w)))) found
       = Some prompt
    /\ role prompt = user
    /\ List.length
         (currentConversation (state (appState (snd (handleRegenerateResponse messageId w)))))
       = (messageIndex + 2)%nat.
Proof.
  intros Hidle Hkey Htruthy Hfind Hnth Hrole Hscan Hprompt.
  destruct (handleRegenerateResponse_appends messageId w key messageIndex found target prompt
              Hidle Hkey Htruthy Hfind Hnth Hrole Hscan Hprompt)
    as [userId [thinkingId [t2 [t4 [Hconv Hkept]]]]].
  eexists. eexists. split; [exact Hconv |].
  split; [reflexivity |]. split; [reflexivity |]. split; [reflexivity |].
  split; [reflexivity |]. split; [exact Hkept |].
  split.
  - destruct (lastUserBefore_nearest _ _ _ Hscan) as [_ [[msg [Hmsg Huser]] _]].
    rewrite Hprompt in Hmsg. injection Hmsg as <-. exact Huser.
  - rewrite Hconv, length_app, firstn_length_le; [simpl; lia |].
    apply Nat.lt_le_incl. apply nth_error_Some. rewrite Hnth. discriminate.
Qed.

Lemma regenerate_truncates_and_repeats_witness :
  List.length
    (currentConversation (state (appState (snd (handleRegenerateResponse "a1" greetedWorld)))))
  = 3%nat.
Proof.
  destruct (regenerate_truncates_and_repeats "a1" greetedWorld "key" 1 0
              (say "a1" model "hello") (say "u1" user "hi")
              eq_refl eq_refl eq_refl eq_refl eq_refl eq_refl eq_refl eq_refl)
    as [userMessage [pendingMessage [_ [_ [_ [_ [_ [_ [_ Hlen]]]]]]]]].
  exact Hlen.
Defined.

(** X13. An edit that cannot go ahead, because no message has the id or
    the message is not a user message, issues no request and leaves the
    store as it is: only an error is written to the console. *)
Theorem edit_refused
    (messageId : string) (newContent : list UserMessageContentPart) (w : World) :
  isSending (state (appState w)) = false ->
  (match findIndex (fun msg => String.eqb (id msg) messageId)
           (currentConversation (state (appState w))) with
   | None => True
   | Some messageIndex =>
       match nth_error (currentConversation (state (appState w))) messageIndex with
       | None => True
       | Some target => role target <> user
       end
   end) ->
  handleEditMessageRequest messageId newContent w
  = (None,
     withEnv (consoleLog levelError
                "Cannot edit: Message not found or not a user message." None (env w)) w).
Proof.
  intros Hidle Hcause.
  unfold handleEditMessageRequest. rewrite bind_readState, isSending_getState, Hidle.
  rewrite bind_readState.
  change (currentConversation (getState (state (appState w))))
    with (currentConversation (state (appState w))).
  destruct (findIndex _ (currentConversation (state (appState w))))
    as [messageIndex |] eqn:Hfind; [| reflexivity].
  destruct (findIndex_Some _ _ _ Hfind) as [target [Hnth _]].
  rewrite Hnth in Hcause |- *.
  destruct (Role_eqb_spec (role target) user) as [Huser | Hother]; [contradiction |].
  reflexivity.
Qed.

Lemma edit_refused_witness :
  handleEditMessageRequest "a1" [textOf "hey"] greetedWorld
  = (None,
     withEnv (consoleLog levelError
                "Cannot edit: Message not found or not a user message." None
                (env greetedWorld)) greetedWorld).
Proof.
  apply (edit_refused "a1" [textOf "hey"] greetedWorld eq_refl).
  simpl. discriminate.
Defined.

Lemma handleEditMessageRequest_resends
    (messageId : string) (newContent : list UserMessageContentPart) (w : World)
    (messageIndex : nat) (target : ChatMessage) :
  isSending (state (appState w)) = false ->
  findIndex (fun msg => String.eqb (id msg) messageId)
    (currentConversation (state (appState w))) = Some messageIndex ->
  nth_error (currentConversation (state (appState w))) messageIndex = Some target ->
  role target = user ->
  handleEditMessageRequest messageId newContent w
  = handleSendMessage newContent
      (setConversation
         (firstn messageIndex (currentConversation (state (appState w)))
          ++ [editedMessage target newContent (fst (dateNow (env w)))])
         (withEnv (snd (dateNow (env w))) w)).
Proof.
  intros Hidle Hfind Hnth Hrole.
  unfold handleEditMessageRequest. rewrite bind_readState, isSending_getState, Hidle.
  rewrite bind_readState.
  change (currentConversation (getState (state (appState w))))
    with (currentConversation (state (appState w))).
  rewrite Hfind, Hnth.
  assert (Huser : Role_eqb (role target) user = true) by (rewrite Hrole; reflexivity).
  rewrite Huser. cbn [negb].
  unfold bind, now, call.
  destruct (dateNow (env w)) as [t e]. reflexivity.
Qed.

(** X14. An edit that goes ahead, with a key set: the messages before
    the edited one stay; the edited message and everything after it go;
    in its place comes a message with the same id and role, the new
    content and the [edited] mark; then the new content once more as a
    new user message, and the pending reply. The conversation is then
    three longer than the index of the edited message. *)
Theorem edit_truncates_and_resends
    (messageId : string) (newContent : list UserMessageContentPart) (w : World)
    (key : string) (messageIndex : nat) (target : ChatMessage) :
  isSending (state (appState w)) = false ->
  apiKey (state (appState w)) = Some key ->
  truthyString key = true ->
  findIndex (fun msg => String.eqb (id msg) messageId)
    (currentConversation (state (appState w))) = Some messageIndex ->
  nth_error (currentConversation (state (appState w))) messageIndex = Some target ->
  role target = user ->
  exists t userMessage pendingMessage,
    currentConversation
      (state (appState (snd (handleEditMessageRequest messageId newContent w))))
    = firstn messageIndex (currentConversation (state (appState w)))
      ++ [editedMessage target newContent t; userMessage; pendingMessage]
    /\ id (editedMessage target newContent t) = messageId
    /\ (exists m, meta (editedMessage target newContent t) = Some m
                  /\ edited m = Some true)
    /\ content userMessage = newContent /\ role userMessage = user
    /\ role pendingMessage = model /\ status pendingMessage = pending
    /\ List.length
         (currentConversation
            (state (appState (snd (handleEditMessageRequest messageId newContent w)))))
       = (messageIndex + 3)%nat.
Proof.
  intros Hidle Hkey Htruthy Hfind Hnth Hrole.
  rewrite (handleEditMessageRequest_resends messageId newContent w messageIndex target)
    by assumption.
  set (t := fst (dateNow (env w))).
  set (w1 := setConversation _ _).
  assert (Hstate1 : state (appState w1)
                    = withConversation
                        (firstn messageIndex (currentConversation (state (appState w)))
                         ++ [editedMessage target newContent t])
                        (state (appState w)))
    by exact (setConversation_state _ (withEnv (snd (dateNow (env w))) w)).
  destruct (handleSendMessage_run newContent w1 key)
    as [t1 [t2 [t3 [t4 [w' [Hrun [Hstate _]]]]]]].
  - rewrite Hstate1. exact Hidle.
  - rewrite Hstate1. exact Hkey.
  - exact Htruthy.
  - exists t, (sentMessage t1 t2 newContent), (placeholder t3 t4).
    rewrite Hrun. cbn [snd]. rewrite Hstate, Hstate1.
    cbn [currentConversation withError withIsSending withConversation].
    rewrite <- app_assoc. cbn [app].
    split; [reflexivity |].
    split.
    { destruct (findIndex_Some _ _ _ Hfind) as [x [Hx [Hid _]]].
      rewrite Hnth in Hx. injection Hx as <-.
      apply String.eqb_eq in Hid. exact Hid. }
    split; [eexists; split; reflexivity |].
    split; [reflexivity |]. split; [reflexivity |]. split; [reflexivity |].
    split; [reflexivity |].
    rewrite length_app, firstn_length_le; [simpl; lia |].
    apply Nat.lt_le_incl. apply nth_error_Some. rewrite Hnth. discriminate.
Qed.

Lemma edit_truncates_and_resends_witness :
  List.length
    (currentConversation
       (state (appState (snd (handleEditMessageRequest "u1" [textOf "hey"] greetedWorld)))))
  = 3%nat.
Proof.
  destruct (edit_truncates_and_resends "u1" [textOf "hey"] greetedWorld "key" 0
              (say "u1" user "hi") eq_refl eq_refl eq_refl eq_refl eq_refl eq_refl)
    as [t [userMessage [pendingMessage [_ [_ [_ [_ [_ [_ [_ Hlen]]]]]]]]]].
  exact Hlen.
Defined.

(* ================================================================== *)
(** * Further properties of the store of [state.ts] *)

Lemma removeMessage_state (messageId : string) (w : World) :
  state (appState (removeMessage messageId w))
  = withConversation
      (filter (fun msg => negb (String.eqb (id msg) messageId))
         (currentConversation (state (appState w))))
      (state (appState w)).
Proof.
  unfold removeMessage.
  apply (updateState_state
           (fun s => withConversation
                       (filter (fun msg => negb (String.eqb (id msg) messageId))
                          (currentConversation s)) s) w).
  intros s a. reflexivity.
Qed.

Lemma occurrences_removed (messageId : string) (conv : list ChatMessage) :
  occurrences messageId
    (filter (fun msg => negb (String.eqb (id msg) messageId)) conv) = 0%nat.
Proof.
  unfold occurrences.
  induction conv as [| m rest IH]; [reflexivity |].
  cbn [filter]. destruct (String.eqb (id m) messageId) eqn:Hm; cbn [negb].
  - exact IH.
  - cbn [filter]. rewrite Hm. exact IH.
Qed.

Lemma filter_others (messageId other : string) (conv : list ChatMessage) :
  other <> messageId ->
  filter (fun msg => String.eqb (id msg) other)
    (filter (fun msg => negb (String.eqb (id msg) messageId)) conv)
  = filter (fun msg => String.eqb (id msg) other) conv.
Proof.
  intros Hother.
  induction conv as [| m rest IH]; [reflexivity |].
  cbn [filter]. destruct (String.eqb (id m) messageId) eqn:Hm; cbn [negb].
  - apply String.eqb_eq in Hm.
    destruct (String.eqb (id m) other) eqn:Ho.
    + apply String.eqb_eq in Ho. congruence.
    + exact IH.
  - cbn [filter]. destruct (String.eqb (id m) other); [f_equal |]; exact IH.
Qed.

Lemma filter_split_length (messageId : string) (conv : list ChatMessage) :
  (List.length (filter (fun msg => negb (String.eqb (id msg) messageId)) conv)
   + occurrences messageId conv)%nat
  = List.length conv.
Proof.
  unfold occurrences.
  induction conv as [| m rest IH]; [reflexivity |].
  cbn [filter]. destruct (String.eqb (id m) messageId); cbn [negb List.length]; lia.
Qed.

Lemma filter_nothing (messageId : string) (conv : list ChatMessage) :
  occurrences messageId conv = 0%nat ->
  filter (fun msg => negb (String.eqb (id msg) messageId)) conv = conv.
Proof.
  unfold occurrences.
  induction conv as [| m rest IH]; [reflexivity |].
  cbn [filter]. destruct (String.eqb (id m) messageId); cbn [negb List.length].
  - discriminate.
  - intros H. f_equal. exact (IH H).
Qed.

(** X15. [removeMessage(id)] leaves no message with that id; the
    messages with any other id stay, in their order, so the conversation
    gets shorter by the number of messages that had the id; when no
    message had it the conversation is as before. *)
Theorem removeMessage_removes (messageId : string) (w : World) :
  let before := currentConversation (state (appState w)) in
  let after := currentConversation (state (appState (removeMessage messageId w))) in
  after = filter (fun msg => negb (String.eqb (id msg) messageId)) before
  /\ occurrences messageId after = 0%nat
  /\ (forall other, other <> messageId ->
        filter (fun msg => String.eqb (id msg) other) after
        = filter (fun msg => String.eqb (id msg) other) before)
  /\ (List.length after + occurrences messageId before)%nat = List.length before
  /\ (occurrences messageId before = 0%nat -> after = before).
Proof.
  cbv zeta. rewrite removeMessage_state. cbn [currentConversation withConversation].
  split; [reflexivity |].
  split; [apply occurrences_removed |].
  split; [intros other Hother; apply filter_others; exact Hother |].
  split; [apply filter_split_length | apply filter_nothing].
Qed.

(** X16. The callback of the confirmation dialog stays in the store
    through the convenience methods, although the updater of each is
    handed a copy of the state without it: after [addMessage],
    [updateMessage], [removeMessage], [clearConversation],
    [setConversation], [setIsSending] and [setError] the store holds the
    [confirmModalAction] it held before. Only [closeConfirmModal] sets it
    to [null], and [openConfirmModal] to the function it is given. *)
Theorem methods_keep_the_confirm_action
    (w : World) (message : ChatMessage) (messageId : string) (updates : MessageUpdates)
    (conv : list ChatMessage) (sending : bool) (err : option string)
    (text : string) (action : Callback) :
  let held (w' : World) := confirmModalAction (state (appState w')) in
  held (addMessage message w) = held w
  /\ held (updateMessage messageId updates w) = held w
  /\ held (removeMessage messageId w) = held w
  /\ held (clearConversation w) = held w
  /\ held (setConversation conv w) = held w
  /\ held (setIsSending sending w) = held w
  /\ held (setError err w) = held w
  /\ held (closeConfirmModal w) = actionNull
  /\ held (openConfirmModal text action w) = actionFunction action
  /\ held (addMessage message (openConfirmModal text action w)) = actionFunction action.
Proof.
  cbv beta zeta.
  assert (Hopen : state (appState (openConfirmModal text action w))
                  = withConfirmModal true text (actionFunction action) (state (appState w))).
  { unfold openConfirmModal, updateState. rewrite notify_state. reflexivity. }
  rewrite !addMessage_state, updateMessage_state, removeMessage_state,
    clearConversation_state, setConversation_state, setIsSending_state, setError_state,
    Hopen.
  repeat split.
  unfold closeConfirmModal, updateState. rewrite notify_state. reflexivity.
Qed.



(* ================================================================== *)
(** * The storage service *)

Section Storage.
Context {S C : Type}.

Lemma loadState_reads (e1 e2 : Env S C) :
  stateItem (localStorage e1) = stateItem (localStorage e2) ->
  fst (loadState e1) = fst (loadState e2).
Proof.
  unfold loadState. intros ->.
  destruct (stateItem (localStorage e2)) as [[st |] |]; reflexivity.
Qed.

Lemma loadArchivedChats_reads (e1 e2 : Env S C) :
  archivedChatsItem (localStorage e1) = archivedChatsItem (localStorage e2) ->
  fst (loadArchivedChats e1) = fst (loadArchivedChats e2).
Proof.
  unfold loadArchivedChats. intros ->.
  destruct (archivedChatsItem (localStorage e2)) as [[chats |] |]; reflexivity.
Qed.

(** X18. [saveState] followed by [loadState]. When the save reports
    success the load gives back the state that was saved; when it
    reports failure nothing in [localStorage] has changed, so the load
    gives what it would have given before, and an error was logged. In
    both cases the archived chats are as they were. *)
Theorem saveState_then_loadState (st : S) (e : Env S C) :
  let saved := fst (saveState st e) in
  let e' := snd (saveState st e) in
  archivedChatsItem (localStorage e') = archivedChatsItem (localStorage e)
  /\ fst (loadArchivedChats e') = fst (loadArchivedChats e)
  /\ (if saved
      then fst (loadState e') = Some st
      else localStorage e' = localStorage e
           /\ fst (loadState e') = fst (loadState e)
           /\ exists d further,
                console e'
                = console e
                  ++ {| level := levelError;
                        message := "[StorageService] Failed to save state to localStorage:";
                        detail := d |} :: further).
Proof.
  cbv zeta.
  assert (Harchive : archivedChatsItem (localStorage (snd (saveState st e)))
                     = archivedChatsItem (localStorage e)).
  { unfold saveState. destruct (setState (localStorage e) st); reflexivity. }
  split; [exact Harchive |].
  split; [apply loadArchivedChats_reads; exact Harchive |].
  unfold saveState.
  destruct (setState (localStorage e) st); cbn [fst snd].
  - reflexivity.
  - split; [reflexivity |]. split; [apply loadState_reads; reflexivity |].
    eexists _, _. unfold consoleLog at 1. cbn. rewrite <- app_assoc. reflexivity.
  - split; [reflexivity |]. split; [apply loadState_reads; reflexivity |].
    eexists _, _. reflexivity.
Qed.

(** X19. [saveArchivedChats] followed by [loadArchivedChats]: after a
    successful save the load gives back the list that was saved, in its
    order; after a failed one [localStorage] is unchanged and the load
    gives what it gave before. The stored state is as it was in both
    cases. *)
Theorem saveArchivedChats_then_loadArchivedChats (chats : list C) (e : Env S C) :
  let saved := fst (saveArchivedChats chats e) in
  let e' := snd (saveArchivedChats chats e) in
  stateItem (localStorage e') = stateItem (localStorage e)
  /\ fst (loadState e') = fst (loadState e)
  /\ (if saved
      then fst (loadArchivedChats e') = chats
      else localStorage e' = localStorage e
           /\ fst (loadArchivedChats e') = fst (loadArchivedChats e)).
Proof.
  cbv zeta.
  assert (Hstate : stateItem (localStorage (snd (saveArchivedChats chats e)))
                   = stateItem (localStorage e)).
  { unfold saveArchivedChats.
    destruct (setArchivedChats (localStorage e) chats); reflexivity. }
  split; [exact Hstate |].
  split; [apply loadState_reads; exact Hstate |].
  unfold saveArchivedChats.
  destruct (setArchivedChats (localStorage e) chats); cbn [fst snd];
    [reflexivity
    | split; [reflexivity | apply loadArchivedChats_reads; reflexivity]
    | split; [reflexivity | apply loadArchivedChats_reads; reflexivity]].
Qed.

(** X20. The loads never throw and never write: whatever is stored,
    also text that does not parse, [loadState] and [loadArchivedChats]
    leave [localStorage] as it is, the first answers [null] and the
    second the empty list when the text does not parse or the key is
    missing, and after [clearAllChatData] that is what both answer. *)
Theorem loads_are_safe (e : Env S C) :
  localStorage (snd (loadState e)) = localStorage e
  /\ localStorage (snd (loadArchivedChats e)) = localStorage e
  /\ (forall st, fst (loadState e) = Some st <-> stateItem (localStorage e) = Some (parsesTo st))
  /\ (forall chats, chats <> [] ->
        (fst (loadArchivedChats e) = chats
         <-> archivedChatsItem (localStorage e) = Some (parsesTo chats)))
  /\ fst (loadState (clearAllChatData e)) = None
  /\ fst (loadArchivedChats (clearAllChatData e)) = [].
Proof.
  unfold loadState, loadArchivedChats, clearAllChatData.
  split; [destruct (stateItem (localStorage e)) as [[st |] |]; reflexivity |].
  split; [destruct (archivedChatsItem (localStorage e)) as [[chats |] |]; reflexivity |].
  split.
  { intros st. destruct (stateItem (localStorage e)) as [[st0 |] |]; cbn;
      split; intros H; try discriminate; congruence. }
  split; [| split; reflexivity].
  intros chats Hchats.
  destruct (archivedChatsItem (localStorage e)) as [[chats0 |] |]; cbn;
    split; intros H; try discriminate; try congruence.
Qed.

End Storage.

(** X21. [clearCurrentChatState] of the storage service under [ts/]:
    the archived chats are never touched. When a state is stored and the
    save is accepted, the stored state keeps its key, model and
    instructions and has an empty conversation. When no state is stored,
    or the stored text does not parse, or the save is refused,
    [localStorage] is unchanged; in the last case the conversation stays
    in storage although the message that it was cleared is logged. *)
Theorem clearCurrentChatState_keeps_settings (e : Ts.AppEnv) :
  let e' := Ts.clearCurrentChatState e in
  archivedChatsItem (localStorage e') = archivedChatsItem (localStorage e)
  /\ match stateItem (localStorage e) with
     | Some (parsesTo st) =>
         match setState (localStorage e) (Ts.withConversation [] st) with
         | stored =>
             exists st',
               stateItem (localStorage e') = Some (parsesTo st')
               /\ Ts.apiKey st' = Ts.apiKey st
               /\ Ts.selectedModel st' = Ts.selectedModel st
               /\ Ts.customInstructions st' = Ts.customInstructions st
               /\ Ts.conversation st' = []
         | _ =>
             localStorage e' = localStorage e
             /\ exists earlier,
                  console e'
                  = earlier
                    ++ [{| level := levelInfo;
                           message := "[StorageService] Current chat conversation cleared from localStorage state.";
                           detail := None |}]
         end
     | _ => localStorage e' = localStorage e
     end.
Proof.
  cbv zeta. unfold Ts.clearCurrentChatState, loadState.
  destruct (stateItem (localStorage e)) as [[st |] |] eqn:Hitem;
    [| split; reflexivity | split; reflexivity].
  unfold saveState. cbn [localStorage consoleLog withConsole].
  destruct (setState (localStorage e) (Ts.withConversation [] st)); cbn.
  - split; [reflexivity |]. eexists. repeat split.
  - split; [reflexivity |]. split; [reflexivity |]. eexists. reflexivity.
  - split; [reflexivity |]. split; [reflexivity |]. eexists. reflexivity.
Qed.

(* ================================================================== *)
(** * The store under [ts/] *)

Ltac settingsStep :=
  cbn [negb orb andb Ts.withApiKey Ts.withSelectedModel Ts.withCustomInstructions
       Ts.apiKey Ts.selectedModel Ts.customInstructions Ts.conversation].

(** X22. [updateSettings] writes the three settings it is given into
    the state and leaves the conversation as it was. When none of the
    three differs from what the store holds, nothing happens at all: no
    log, no save, no subscriber is called; otherwise there is one log
    entry and one notification, however many of the three changed, and
    the subscribers are handed the state with the three settings. That is
    then the state of the store, when the subscribers leave the state they
    are handed as it is. *)
Theorem updateSettings_sets_or_is_silent (k m i : string) (w : Ts.World) :
  let st := Ts.state (Ts.appState w) in
  let target :=
    {| Ts.apiKey := k; Ts.selectedModel := m; Ts.customInstructions := i;
       Ts.conversation := Ts.conversation st |} in
  (Forall Ts.observes (Ts.subscribers (Ts.appState w)) ->
   Ts.state (Ts.appState (Ts.updateSettings k m i w)) = target)
  /\ if String.eqb (Ts.apiKey st) k && String.eqb (Ts.selectedModel st) m
        && String.eqb (Ts.customInstructions st) i
     then Ts.updateSettings k m i w = w /\ st = target
     else Ts.updateSettings k m i w
          = Ts.notify (Ts.logged levelLog "[AppState] Settings updated:"
                         (Ts.withState target w)).
Proof.
  cbv zeta. unfold Ts.updateSettings.
  destruct w as [[[k0 m0 i0 conv] subs] e].
  cbn [Ts.state Ts.appState Ts.apiKey Ts.selectedModel Ts.customInstructions
       Ts.conversation Ts.subscribers].
  destruct (String.eqb_spec k0 k) as [-> | Hk]; settingsStep;
    (destruct (String.eqb_spec m0 m) as [-> | Hm]; settingsStep);
    (destruct (String.eqb_spec i0 i) as [-> | Hi]; settingsStep);
    (split;
     [ intros Hlook; try (rewrite tsNotify_appState by exact Hlook); reflexivity
     | first [reflexivity | split; reflexivity] ]).
Qed.

Lemma spliceLast_skipn (count : Z) (conv : list Ts.MessageData) :
  (0 < count)%Z ->
  exists removed,
    conv = Ts.spliceLast count conv ++ removed
    /\ List.length removed = Z.to_nat (Z.min count (Z.of_nat (List.length conv))).
Proof.
  intros Hcount. unfold Ts.spliceLast.
  set (n := Z.to_nat (Z.max (Z.of_nat (List.length conv) - count) 0)).
  exists (skipn n conv).
  split; [symmetry; apply firstn_skipn |].
  rewrite length_skipn. unfold n. lia.
Qed.

(** X23. [removeLastNMessages(count)] for a whole number [count]: the
    conversation before is the conversation that the method writes,
    followed by the messages removed, and their number is [count], or the
    length of the conversation when that is less; the settings are not
    touched, and the subscribers are kept. For [count <= 0] nothing is
    removed and nothing else happens either (no log, no save, no
    notification); otherwise the subscribers are notified of the state
    written, which is then the state of the store when they leave the
    state they are handed as it is. *)
Theorem removeLastNMessages_removes_a_suffix (count : Z) (w : Ts.World) :
  let before := Ts.state (Ts.appState w) in
  exists written removed,
    Ts.conversation before = Ts.conversation written ++ removed
    /\ List.length removed
       = Z.to_nat (Z.min (Z.max count 0) (Z.of_nat (List.length (Ts.conversation before))))
    /\ Ts.apiKey written = Ts.apiKey before
    /\ Ts.selectedModel written = Ts.selectedModel before
    /\ Ts.customInstructions written = Ts.customInstructions before
    /\ Ts.subscribers (Ts.appState (Ts.removeLastNMessages count w))
       = Ts.subscribers (Ts.appState w)
    /\ (if (count <=? 0)%Z
        then Ts.removeLastNMessages count w = w /\ written = before
        else exists w',
               Ts.state (Ts.appState w') = written
               /\ Ts.subscribers (Ts.appState w') = Ts.subscribers (Ts.appState w)
               /\ Ts.removeLastNMessages count w = Ts.notify w')
    /\ (Forall Ts.observes (Ts.subscribers (Ts.appState w)) ->
        Ts.state (Ts.appState (Ts.removeLastNMessages count w)) = written).
Proof.
  cbv zeta. unfold Ts.removeLastNMessages.
  destruct (Z.leb_spec count 0) as [Hle | Hgt].
  - exists (Ts.state (Ts.appState w)), [].
    rewrite app_nil_r. split; [reflexivity |].
    split; [rewrite Z.max_r by lia; cbn; lia |].
    repeat split.
  - destruct (spliceLast_skipn count (Ts.conversation (Ts.state (Ts.appState w))) Hgt)
      as [removed [Hsplit Hlen]].
    exists (Ts.withConversation
              (Ts.spliceLast count (Ts.conversation (Ts.state (Ts.appState w))))
              (Ts.state (Ts.appState w))), removed.
    split; [exact Hsplit |].
    split; [rewrite Hlen; f_equal; lia |].
    split; [reflexivity |]. split; [reflexivity |]. split; [reflexivity |].
    split; [rewrite tsNotify_subscribers; reflexivity |].
    split; [eexists; split; [| split; [| reflexivity]]; reflexivity |].
    intros Hlook. rewrite tsNotify_appState by exact Hlook. reflexivity.
Qed.

Lemma tsCallSubscribers_storage (subs : list Ts.Subscriber) :
  Forall leavesStorage subs ->
  forall position st e,
    localStorage (snd (fst (Ts.callSubscribers subs position st e))) = localStorage e.
Proof.
  induction 1 as [| sub rest Hsub _ IH]; intros position st e.
  - reflexivity.
  - rewrite tsCallSubscribers_cons. cbn [fst snd]. rewrite IH.
    unfold tsAfterCall. specialize (Hsub st e).
    destruct (snd (sub st e)); cbn; exact Hsub.
Qed.

Lemma tsNotify_storage (w : Ts.World) :
  Forall leavesStorage (Ts.subscribers (Ts.appState w)) ->
  localStorage (Ts.env (Ts.notify w))
  = localStorage
      (snd (saveState (Ts.state (Ts.appState w))
              (consoleLog levelDebug "[AppState] Notifying subscribers. Current state:"
                 None (Ts.env w)))).
Proof.
  intros Htame. unfold Ts.notify. rewrite tsNotify_run.
  cbn [fst Ts.withEnv Ts.env].
  apply tsCallSubscribers_storage. exact Htame.
Qed.

Lemma tsNotify_inSync (w : Ts.World) :
  Forall leavesStorage (Ts.subscribers (Ts.appState w)) ->
  Forall Ts.observes (Ts.subscribers (Ts.appState w)) ->
  accepting w ->
  accepting (Ts.notify w) /\ inSync (Ts.notify w).
Proof.
  intros Htame Hlook Hroom. unfold accepting, inSync.
  rewrite tsNotify_storage by exact Htame.
  rewrite tsNotify_appState by exact Hlook.
  unfold saveState. cbn [localStorage consoleLog withConsole].
  rewrite Hroom. cbn. split; [exact Hroom | reflexivity].
Qed.

Lemma perform_subscribers (c : Call) (w : Ts.World) :
  Ts.subscribers (Ts.appState (perform c w)) = Ts.subscribers (Ts.appState w).
Proof.
  destruct c; cbn [perform];
    unfold Ts.setApiKey, Ts.updateSettings, Ts.addMessage, Ts.addMessages,
      Ts.updateMessage, Ts.removeLastNMessages, Ts.clearConversation,
      Ts.replaceConversation, Ts.resetStateToDefaults;
    cbv zeta;
    repeat match goal with
           | |- context [if ?b then _ else _] => destruct b
           | |- context [match ?x with _ => _ end] => destruct x
           end;
    rewrite ?tsNotify_subscribers; reflexivity.
Qed.

Lemma perform_inSync (c : Call) (w : Ts.World) :
  Forall leavesStorage (Ts.subscribers (Ts.appState w)) ->
  Forall Ts.observes (Ts.subscribers (Ts.appState w)) ->
  accepting w -> inSync w ->
  accepting (perform c w) /\ inSync (perform c w).
Proof.
  intros Htame Hlook Hroom Hsync.
  destruct c; cbn [perform];
    unfold Ts.setApiKey, Ts.updateSettings, Ts.addMessage, Ts.addMessages,
      Ts.updateMessage, Ts.removeLastNMessages, Ts.clearConversation,
      Ts.replaceConversation, Ts.resetStateToDefaults;
    cbv zeta;
    repeat match goal with
           | |- context [if ?b then _ else _] => destruct b
           | |- context [match ?x with _ => _ end] => destruct x
           end;
    try (split; assumption);
    try (apply tsNotify_inSync; [exact Htame | exact Hlook | exact Hroom]).
Qed.

(** X24. What is stored mirrors what is in memory. In a browser whose
    [localStorage] takes every write, with subscribers that write neither
    to [localStorage] nor to the state they are handed, a store whose
    stored state is its state stays so through any sequence of calls of
    its writing methods: after them [loadState] gives back exactly the
    state in memory. *)
Theorem storage_mirrors_memory (calls : list Call) (w : Ts.World) :
  Forall leavesStorage (Ts.subscribers (Ts.appState w)) ->
  Forall Ts.observes (Ts.subscribers (Ts.appState w)) ->
  accepting w ->
  inSync w ->
  inSync (performAll calls w)
  /\ fst (loadState (Ts.env (performAll calls w)))
     = Some (Ts.state (Ts.appState (performAll calls w))).
Proof.
  intros Htame Hlook Hroom Hsync.
  assert (Hall : inSync (performAll calls w)).
  { unfold performAll. revert w Htame Hlook Hroom Hsync.
    induction calls as [| c rest IH]; intros w Htame Hlook Hroom Hsync; [exact Hsync |].
    cbn [fold_left].
    destruct (perform_inSync c w Htame Hlook Hroom Hsync) as [Hroom' Hsync'].
    apply IH; [rewrite perform_subscribers; exact Htame
              | rewrite perform_subscribers; exact Hlook
              | exact Hroom' | exact Hsync']. }
  split; [exact Hall |].
  unfold loadState. rewrite Hall. reflexivity.
Qed.

Lemma storage_mirrors_memory_witness :
  fst (loadState
         (Ts.env (performAll [callAddMessage (tsSay "m1" Ts.user "hi");
                              callSetApiKey "other";
                              callRemoveLastNMessages 1] syncedWorld)))
  = Some (Ts.state
            (Ts.appState (performAll [callAddMessage (tsSay "m1" Ts.user "hi");
                                      callSetApiKey "other";
                                      callRemoveLastNMessages 1] syncedWorld))).
Proof.
  refine (proj2 (storage_mirrors_memory
                   [callAddMessage (tsSay "m1" Ts.user "hi");
                    callSetApiKey "other";
                    callRemoveLastNMessages 1] syncedWorld _ _ _ _)).
  - apply Forall_cons; [intros st e; reflexivity |].
    apply Forall_cons; [intros st e; reflexivity | apply Forall_nil].
  - apply Forall_cons; [intros st e; reflexivity |].
    apply Forall_cons; [intros st e; reflexivity | apply Forall_nil].
  - intros st. reflexivity.
  - reflexivity.
Defined.

(** Without the second condition the mirror breaks: a subscriber that
    writes to the state it is handed leaves [localStorage] alone, and
    after the notification the stored state still has the message that is
    gone from the state in memory. *)
Lemma a_writing_subscriber_breaks_the_mirror :
  Forall leavesStorage (Ts.subscribers (Ts.appState tsScribbledWorld))
  /\ Ts.conversation (Ts.state (Ts.appState (Ts.notify tsScribbledWorld))) = []
  /\ fst (loadState (Ts.env (Ts.notify tsScribbledWorld)))
     = Some (Ts.state (Ts.appState tsScribbledWorld)).
Proof.
  split; [| split; reflexivity].
  repeat (apply Forall_cons; [intros st e; reflexivity |]). apply Forall_nil.
Qed.

(* ================================================================== *)
(** * The API service *)

(** X25. [generateContent] checks its arguments before anything else:
    with an empty key or an empty model name no request is made and
    nothing is logged, and what is thrown is a plain [Error], without the
    [status] and [details] that the errors of the [catch] block carry. *)
Theorem generateContent_checks_arguments_first {P : Type}
    (stringify : P -> Gemini.Serialized) (fetch : string -> string -> Gemini.FetchOutcome)
    (payload : P) (apiKey model : string) :
  truthyString apiKey && truthyString model = false ->
  let done := Gemini.generateContent stringify fetch payload apiKey model in
  Gemini.requested done = None
  /\ Gemini.logs done = []
  /\ exists text,
       Gemini.result done
       = Gemini.throws {| Gemini.message := Some text; Gemini.status := None;
                          Gemini.details := None |}
       /\ truthyString text = true.
Proof.
  intros Hmissing. cbv zeta. unfold Gemini.generateContent.
  destruct (truthyString apiKey); cbn [negb].
  - destruct (truthyString model); [discriminate |]. cbn [negb].
    repeat split. eexists. split; reflexivity.
  - repeat split. eexists. split; reflexivity.
Qed.

Lemma generateContent_checks_arguments_first_witness :
  Gemini.requested
    (Gemini.generateContent sampleStringify
       (answering 200 (Gemini.parsed (Gemini.jsonObject []))) plainPayload "key" "")
  = None.
Proof.
  exact (proj1 (generateContent_checks_arguments_first sampleStringify
                  (answering 200 (Gemini.parsed (Gemini.jsonObject []))) plainPayload
                  "key" "" eq_refl)).
Defined.

Lemma rethrow_shape (e : Gemini.Thrown) :
  (truthyOptString (Gemini.message e) && Gemini.truthyOptNumber (Gemini.status e) = true ->
   Gemini.details e <> None) ->
  truthyOptString (Gemini.message (Gemini.rethrow e)) = true
  /\ Gemini.truthyOptNumber (Gemini.status (Gemini.rethrow e)) = true
  /\ Gemini.details (Gemini.rethrow e) <> None.
Proof.
  intros Hdetails. unfold Gemini.rethrow.
  destruct (truthyOptString (Gemini.message e)) eqn:Hmessage;
    destruct (Gemini.truthyOptNumber (Gemini.status e)) eqn:Hstatus;
    cbn [andb Gemini.message Gemini.status Gemini.details].
  - split; [exact Hmessage |]. split; [exact Hstatus |]. apply Hdetails. reflexivity.
  - split; [| split; [reflexivity | discriminate]].
    destruct (Gemini.message e); [exact Hmessage | discriminate].
  - split; [reflexivity |]. split; [| discriminate].
    destruct (Gemini.status e); [exact Hstatus | discriminate].
  - split; [reflexivity |]. split; [reflexivity | discriminate].
Qed.

Lemma attempt_details (outcome : Gemini.FetchOutcome) (e : Gemini.Thrown) :
  fst (Gemini.attempt outcome) = Gemini.throws e ->
  Gemini.truthyOptNumber (Gemini.status e) = true ->
  Gemini.details e <> None.
Proof.
  unfold Gemini.attempt.
  destruct outcome as [networkError | httpStatus [syntaxError | responseData]]; cbn [fst].
  - intros [= <-]. discriminate.
  - intros [= <-]. discriminate.
  - destruct (negb (Gemini.ok httpStatus)); destruct responseData; cbn [fst];
      intros H; try discriminate H; injection H as <-;
      intros Hstatus; try discriminate Hstatus; discriminate.
Qed.

(** X26. Once key and model are accepted, what [generateContent] throws
    is of one of two kinds. When the payload cannot be turned into text
    (a cycle, a [BigInt]), what [JSON.stringify] throws is thrown as it
    is, a [TypeError] without [status] or [details]: that call stands
    before the [try]; no request is made, and only the line that announces
    the request was logged. Otherwise, whatever goes wrong (the network
    fails, the body is not JSON or is [null], the server answers with an
    error status) the value thrown has one shape: a non-empty [message],
    a non-zero [status] (500 when nothing better is known) and [details];
    one request was made, to the URL built from model and key, and the
    last thing logged is the error. *)
Theorem generateContent_errors_have_one_shape {P : Type}
    (stringify : P -> Gemini.Serialized) (fetch : string -> string -> Gemini.FetchOutcome)
    (payload : P) (apiKey model : string) (e : Gemini.Thrown) :
  truthyString apiKey = true ->
  truthyString model = true ->
  Gemini.result (Gemini.generateContent stringify fetch payload apiKey model)
  = Gemini.throws e ->
  let done := Gemini.generateContent stringify fetch payload apiKey model in
  let url := (Gemini.API_BASE_URL ++ "/" ++ model ++ ":generateContent?key=" ++ apiKey)%string in
  match stringify payload with
  | Gemini.unserializable thrown =>
      e = thrown
      /\ Gemini.requested done = None
      /\ Gemini.logs done
         = [entry levelInfo "[GeminiAPIService] Sending request to:" (Some url)]
  | Gemini.serialized bodyText =>
      truthyOptString (Gemini.message e) = true
      /\ Gemini.truthyOptNumber (Gemini.status e) = true
      /\ Gemini.details e <> None
      /\ Gemini.requested done = Some url
      /\ exists earlier d,
           Gemini.logs done
           = earlier ++ [entry levelError "[GeminiAPIService] Network or parsing error:" d]
  end.
Proof.
  intros Hkey Hmodel. cbv zeta. unfold Gemini.generateContent.
  rewrite Hkey, Hmodel. cbn [negb].
  destruct (stringify payload) as [bodyText | thrown].
  - destruct (Gemini.attempt _) as [tried during] eqn:Hattempt.
    destruct tried as [d | e0]; cbn [Gemini.result Gemini.requested Gemini.logs];
      [discriminate |].
    intros [= <-].
    destruct (rethrow_shape e0) as [Hm [Hs Hd]].
    { intros Hboth. apply andb_prop in Hboth. destruct Hboth as [_ Hstatus].
      apply (attempt_details (fetch
               (Gemini.API_BASE_URL ++ "/" ++ model ++ ":" ++ Gemini.API_GENERATE_CONTENT_METHOD
                ++ "?key=" ++ apiKey)%string bodyText)); [| exact Hstatus].
      rewrite Hattempt. reflexivity. }
    split; [exact Hm |]. split; [exact Hs |]. split; [exact Hd |].
    split; [reflexivity |].
    eexists _, _. rewrite app_assoc. reflexivity.
  - cbn [Gemini.result Gemini.requested Gemini.logs].
    intros [= <-]. repeat split.
Qed.

Lemma generateContent_errors_have_one_shape_witness :
  Gemini.result (Gemini.generateContent sampleStringify
                   (fun _ _ => Gemini.fetchRejected "offline") plainPayload "key" "gemini-pro")
  = Gemini.throws {| Gemini.message := Some "offline"; Gemini.status := Some 500%Z;
                     Gemini.details := Some (Gemini.causedBy (Some "offline") None) |}
  /\ Gemini.truthyOptNumber (Some 500%Z) = true
  /\ Gemini.requested
       (Gemini.generateContent sampleStringify
          (fun _ _ => Gemini.fetchRejected "offline") cyclicPayload "key" "gemini-pro")
     = None.
Proof.
  split; [reflexivity |].
  split.
  - exact (proj1 (proj2 (generateContent_errors_have_one_shape sampleStringify
                           (fun _ _ => Gemini.fetchRejected "offline") plainPayload
                           "key" "gemini-pro"
                           {| Gemini.message := Some "offline"; Gemini.status := Some 500%Z;
                              Gemini.details :=
                                Some (Gemini.causedBy (Some "offline") None) |}
                           eq_refl eq_refl eq_refl))).
  - exact (proj1 (proj2 (generateContent_errors_have_one_shape sampleStringify
                           (fun _ _ => Gemini.fetchRejected "offline") cyclicPayload
                           "key" "gemini-pro"
                           {| Gemini.message := Some "Converting circular structure to JSON";
                              Gemini.status := None; Gemini.details := None |}
                           eq_refl eq_refl eq_refl))).
Defined.

(** X27. [generateContent] returns in one case only: key and model are
    non-empty, the payload can be turned into text, the response has a
    status from 200 to 299 and its body parses to a JSON value other than
    [null]; what is returned is then that value, whatever it is (an
    object, but also a number, a string, a boolean or an array), also
    when the request was blocked or no candidate came back (a warning is
    logged and the caller has to look). *)
Theorem generateContent_returns_iff {P : Type}
    (stringify : P -> Gemini.Serialized) (fetch : string -> string -> Gemini.FetchOutcome)
    (payload : P) (apiKey model : string) (responseData : Gemini.Json) :
  Gemini.result (Gemini.generateContent stringify fetch payload apiKey model)
  = Gemini.returns responseData
  <-> (truthyString apiKey = true /\ truthyString model = true
       /\ responseData <> Gemini.jsonNull
       /\ exists bodyText httpStatus,
            stringify payload = Gemini.serialized bodyText
            /\ fetch (Gemini.API_BASE_URL ++ "/" ++ model ++ ":generateContent?key=" ++ apiKey)%string
                 bodyText
               = Gemini.fetchResolved httpStatus (Gemini.parsed responseData)
            /\ (200 <= httpStatus <= 299)%Z).
Proof.
  unfold Gemini.generateContent.
  change (Gemini.API_BASE_URL ++ "/" ++ model ++ ":" ++ Gemini.API_GENERATE_CONTENT_METHOD
          ++ "?key=" ++ apiKey)%string
    with (Gemini.API_BASE_URL ++ "/" ++ model ++ ":generateContent?key=" ++ apiKey)%string.
  set (url := (Gemini.API_BASE_URL ++ "/" ++ model ++ ":generateContent?key=" ++ apiKey)%string).
  destruct (truthyString apiKey); cbn [negb Gemini.result];
    [| split; [discriminate | intros [H _]; discriminate]].
  destruct (truthyString model); cbn [negb Gemini.result];
    [| split; [discriminate | intros [_ [H _]]; discriminate]].
  destruct (stringify payload) as [bodyText | thrown]; cbn [Gemini.result];
    [| split; [discriminate | intros [_ [_ [_ [t [s [H _]]]]]]; discriminate]].
  unfold Gemini.attempt, Gemini.ok.
  destruct (fetch url bodyText) as [networkError | httpStatus [syntaxError | v]] eqn:Hfetch;
    cbn [Gemini.result].
  - split; [discriminate |].
    intros [_ [_ [_ [t [s [[= <-] [H _]]]]]]]. rewrite Hfetch in H. discriminate.
  - split; [discriminate |].
    intros [_ [_ [_ [t [s [[= <-] [H _]]]]]]]. rewrite Hfetch in H. discriminate.
  - destruct (Z.leb_spec 200 httpStatus) as [Hlow | Hlow];
      destruct (Z.leb_spec httpStatus 299) as [Hhigh | Hhigh];
      cbn [andb negb]; destruct v; cbn [Gemini.result];
      (split;
       [ intros H;
         first [ discriminate H
               | injection H as <-;
                 split; [reflexivity |]; split; [reflexivity |]; split; [discriminate |];
                 exists bodyText, httpStatus;
                 split; [reflexivity |]; split; [exact Hfetch | lia] ]
       | intros [_ [_ [Hvalue [sent [answered [[= <-] [H Hrange]]]]]]];
         rewrite Hfetch in H; injection H as <- <-;
         first [reflexivity | lia | exfalso; apply Hvalue; reflexivity] ]).
Qed.

(* ================================================================== *)
(** * [escapeHtml] *)

Lemma append_associative (a b c : string) :
  (a ++ b ++ c)%string = ((a ++ b) ++ c)%string.
Proof.
  induction a as [| x rest IH]; [reflexivity |].
  cbn [String.append]. f_equal. exact IH.
Qed.

Lemma replaceAll_app (c : ascii) (replacement a b : string) :
  replaceAll c replacement (a ++ b)
  = (replaceAll c replacement a ++ replaceAll c replacement b)%string.
Proof.
  induction a as [| x rest IH]; [reflexivity |].
  cbn [String.append replaceAll]. destruct (Ascii.eqb x c).
  - rewrite IH. apply append_associative.
  - cbn [String.append]. f_equal. exact IH.
Qed.

Lemma escapeHtml_app (a b : string) :
  escapeHtml (a ++ b) = (escapeHtml a ++ escapeHtml b)%string.
Proof. unfold escapeHtml. rewrite !replaceAll_app. reflexivity. Qed.

Ltac otherChar H := rewrite (proj2 (Ascii.eqb_neq _ _) H).

Lemma escapeHtml_char (x : ascii) : escapeHtml (String x EmptyString) = escapeChar x.
Proof.
  unfold escapeHtml, escapeChar.
  destruct (Ascii.eqb_spec x ampersand) as [-> | H1]; [reflexivity |].
  destruct (Ascii.eqb_spec x lessThan) as [-> | H2]; [reflexivity |].
  destruct (Ascii.eqb_spec x greaterThan) as [-> | H3]; [reflexivity |].
  destruct (Ascii.eqb_spec x doubleQuote) as [-> | H4]; [reflexivity |].
  destruct (Ascii.eqb_spec x singleQuote) as [-> | H5]; [reflexivity |].
  cbn [replaceAll]. otherChar H1.
  cbn [replaceAll]. otherChar H2.
  cbn [replaceAll]. otherChar H3.
  cbn [replaceAll]. otherChar H4.
  cbn [replaceAll]. otherChar H5.
  reflexivity.
Qed.

Lemma escapeHtml_single_pass (s : string) : escapeHtml s = escapeEach s.
Proof.
  induction s as [| x rest IH]; [reflexivity |].
  change (String x rest) with (String x EmptyString ++ rest)%string.
  rewrite escapeHtml_app, escapeHtml_char, IH. reflexivity.
Qed.

Lemma occursIn_app (c : ascii) (a b : string) :
  occursIn c (a ++ b) = occursIn c a || occursIn c b.
Proof.
  induction a as [| x rest IH]; [reflexivity |].
  cbn [String.append occursIn]. rewrite IH, orb_assoc. reflexivity.
Qed.

Lemma escapeChar_inert (c x : ascii) :
  c = lessThan \/ c = greaterThan \/ c = doubleQuote \/ c = singleQuote ->
  occursIn c (escapeChar x) = false.
Proof.
  intros Hc. unfold escapeChar.
  destruct (Ascii.eqb_spec x ampersand) as [-> | H1];
    [destruct Hc as [-> | [-> | [-> | ->]]]; reflexivity |].
  destruct (Ascii.eqb_spec x lessThan) as [-> | H2];
    [destruct Hc as [-> | [-> | [-> | ->]]]; reflexivity |].
  destruct (Ascii.eqb_spec x greaterThan) as [-> | H3];
    [destruct Hc as [-> | [-> | [-> | ->]]]; reflexivity |].
  destruct (Ascii.eqb_spec x doubleQuote) as [-> | H4];
    [destruct Hc as [-> | [-> | [-> | ->]]]; reflexivity |].
  destruct (Ascii.eqb_spec x singleQuote) as [-> | H5];
    [destruct Hc as [-> | [-> | [-> | ->]]]; reflexivity |].
  cbn [occursIn]. rewrite orb_false_r.
  destruct Hc as [-> | [-> | [-> | ->]]]; apply Ascii.eqb_neq; assumption.
Qed.

Lemma escapeEach_inert (c : ascii) (s : string) :
  c = lessThan \/ c = greaterThan \/ c = doubleQuote \/ c = singleQuote ->
  occursIn c (escapeEach s) = false.
Proof.
  intros Hc. induction s as [| x rest IH]; [reflexivity |].
  cbn [escapeEach]. rewrite occursIn_app, IH, escapeChar_inert by exact Hc. reflexivity.
Qed.

(** X28. The output of [escapeHtml] holds none of the characters
    [<], [>], the double quote and the single quote, whatever the input.
    The five replacements, made one after the other, come to one pass
    that replaces each character by its entity on its own (the [&] of an
    entity written by a later replacement is not escaped again), so the
    escaping of a text put together from two is the two escapings put
    together. *)
Theorem escapeHtml_output_is_inert (unsafe : string) :
  occursIn lessThan (escapeHtml unsafe) = false
  /\ occursIn greaterThan (escapeHtml unsafe) = false
  /\ occursIn doubleQuote (escapeHtml unsafe) = false
  /\ occursIn singleQuote (escapeHtml unsafe) = false
  /\ escapeHtml unsafe = escapeEach unsafe
  /\ forall more, escapeHtml (unsafe ++ more) = (escapeHtml unsafe ++ escapeHtml more)%string.
Proof.
  rewrite escapeHtml_single_pass.
  repeat split; try (apply escapeEach_inert; tauto).
  intros more. rewrite <- !escapeHtml_single_pass. apply escapeHtml_app.
Qed.

Lemma escapeEach_injective (a : string) :
  forall b, escapeEach a = escapeEach b -> a = b.
Proof.
  induction a as [| x ra IH]; intros [| y rb]; cbn [escapeEach].
  - reflexivity.
  - unfold escapeChar.
    repeat match goal with
           | |- context [if Ascii.eqb ?u ?v then _ else _] => destruct (Ascii.eqb u v)
           end; discriminate.
  - unfold escapeChar.
    repeat match goal with
           | |- context [if Ascii.eqb ?u ?v then _ else _] => destruct (Ascii.eqb u v)
           end; discriminate.
  - unfold escapeChar.
    destruct (Ascii.eqb_spec x ampersand) as [-> | Hx1];
      [| destruct (Ascii.eqb_spec x lessThan) as [-> | Hx2];
         [| destruct (Ascii.eqb_spec x greaterThan) as [-> | Hx3];
            [| destruct (Ascii.eqb_spec x doubleQuote) as [-> | Hx4];
               [| destruct (Ascii.eqb_spec x singleQuote) as [-> | Hx5]]]]];
      (destruct (Ascii.eqb_spec y ampersand) as [-> | Hy1];
       [| destruct (Ascii.eqb_spec y lessThan) as [-> | Hy2];
          [| destruct (Ascii.eqb_spec y greaterThan) as [-> | Hy3];
             [| destruct (Ascii.eqb_spec y doubleQuote) as [-> | Hy4];
                [| destruct (Ascii.eqb_spec y singleQuote) as [-> | Hy5]]]]]);
      cbn [String.append]; intros H;
      try discriminate H;
      try (injection H as H; f_equal; apply IH; exact H);
      try (injection H as Hc H; subst; exfalso;
           solve [apply Hy1; reflexivity | apply Hx1; reflexivity]);
      try (injection H as Hc H; f_equal; [exact Hc | apply IH; exact H]).
Qed.

(** X29. [escapeHtml] loses nothing: two texts with the same escaping
    are the same text. *)
Theorem escapeHtml_injective (a b : string) :
  escapeHtml a = escapeHtml b -> a = b.
Proof.
  rewrite !escapeHtml_single_pass. apply escapeEach_injective.
Qed.

Lemma escapeHtml_injective_witness :
  escapeHtml "a<b & c" = "a&lt;b &amp; c"%string /\ "a<b & c"%string = "a<b & c"%string.
Proof.
  split; [reflexivity |].
  exact (escapeHtml_injective "a<b & c" "a<b & c" eq_refl).
Defined.
